(** * pdftools: job lifecycle, staging, transforms and cleanup

    A shallow embedding of the Python services of the PDF tools web
    application ([utils.py], [services/*.py], [routes/pdf_routes.py]) and the
    properties of its job lifecycle.

    Conventions of the embedding:
    - a Python [str] is a [string] (ASCII); the algorithms on strings work on
      its list of characters;
    - the filesystem is a finite map from path strings to nodes, threaded
      through a state-and-exception monad together with the background
      threads that were started and a log of the files written;
    - a Python exception is a value of [exn]; [try ... except] is [try_except];
    - the [(success, result)] tuples the services return are values of
      [outcome];
    - the third-party libraries (PyPDF2, PyMuPDF, pdf2docx, python-docx,
      reportlab, zipfile) are a record of functions, [Libs];
    - a Python [float] is an IEEE 754 double ([PyFloat]) where the program
      computes a layout; the compression ratio, which only a message
      shows, is kept as an exact rational ([Q]). *)

From Stdlib Require Import ZArith QArith Qminmax Ascii String List Lia SpecFloat.
From stdpp Require Import base option list gmap sets strings pretty.

Local Open Scope Z_scope.

(** ** Python strings *)

Module PyStr.

Abbreviation chars := (list ascii).

Definition to_chars (s : string) : chars := list_ascii_of_string s.
Definition of_chars (l : chars) : string := string_of_list_ascii l.

Definition code (c : ascii) : N := N_of_ascii c.

Definition in_range (lo hi : N) (c : ascii) : bool :=
  ((lo <=? code c) && (code c <=? hi))%N.

Definition is_upper : ascii → bool := in_range 65 90.
Definition is_lower : ascii → bool := in_range 97 122.
Definition is_digit : ascii → bool := in_range 48 57.

(** [str.lower()] on ASCII text. *)
Definition lower_char (c : ascii) : ascii :=
  if is_upper c then ascii_of_N (code c + 32) else c.
Definition lower (s : string) : string :=
  of_chars (map lower_char (to_chars s)).

(** Whitespace of [str.split()] and [str.strip()] among the ASCII codes. *)
Definition is_space (c : ascii) : bool :=
  in_range 9 13 c || in_range 28 32 c.

(** [s.startswith(p)], as the remainder after the prefix. *)
Fixpoint strip_prefix (p s : chars) : option chars :=
  match p, s with
  | [], _ => Some s
  | a :: p', b :: s' => if decide (a = b) then strip_prefix p' s' else None
  | _ :: _, [] => None
  end.

Definition startswith_chars (p s : chars) : bool :=
  bool_decide (is_Some (strip_prefix p s)).
Definition endswith_chars (p s : chars) : bool :=
  startswith_chars (reverse p) (reverse s).

Definition startswith (s p : string) : bool :=
  startswith_chars (to_chars p) (to_chars s).
Definition endswith (s p : string) : bool :=
  endswith_chars (to_chars p) (to_chars s).

(** [sub in s]. *)
Fixpoint contains_chars (sub s : chars) : bool :=
  startswith_chars sub s ||
  match s with
  | [] => false
  | _ :: s' => contains_chars sub s'
  end.
Definition contains (sub s : string) : bool :=
  contains_chars (to_chars sub) (to_chars s).

Definition has_char (c : ascii) (s : chars) : bool :=
  existsb (λ x, bool_decide (x = c)) s.

(** [s.rfind(c)], [-1] when [c] does not occur. *)
Fixpoint rfind_from (c : ascii) (s : chars) (i : Z) (found : Z) : Z :=
  match s with
  | [] => found
  | x :: s' => rfind_from c s' (i + 1) (if decide (x = c) then i else found)
  end.
Definition rfind (c : ascii) (s : chars) : Z := rfind_from c s 0 (-1).

(** [s.split(c)]: the pieces between the occurrences of [c]. *)
Fixpoint split_on (c : ascii) (s : chars) : list chars :=
  match s with
  | [] => [[]]
  | x :: s' =>
      if decide (x = c) then [] :: split_on c s'
      else match split_on c s' with
           | [] => [[x]]
           | w :: ws => (x :: w) :: ws
           end
  end.

(** [s.split()]: the maximal runs of non-whitespace characters. *)
Fixpoint split_ws_go (cur : option chars) (s : chars) : list chars :=
  match s with
  | [] => option_list (reverse <$> cur)
  | x :: s' =>
      if is_space x
      then option_list (reverse <$> cur) ++ split_ws_go None s'
      else split_ws_go (Some (x :: default [] cur)) s'
  end.
Definition split_ws : chars → list chars := split_ws_go None.

(** [sep.join(ws)]. *)
Fixpoint join (sep : chars) (ws : list chars) : chars :=
  match ws with
  | [] => []
  | [w] => w
  | w :: ws' => w ++ sep ++ join sep ws'
  end.

(** [s.lstrip(cs)], [s.rstrip(cs)], [s.strip(cs)]. *)
Fixpoint lstrip (p : ascii → bool) (s : chars) : chars :=
  match s with
  | [] => []
  | x :: s' => if p x then lstrip p s' else s
  end.
Definition rstrip (p : ascii → bool) (s : chars) : chars :=
  reverse (lstrip p (reverse s)).
Definition strip (p : ascii → bool) (s : chars) : chars :=
  rstrip p (lstrip p s).

(** [int(s)] for ASCII text: surrounding whitespace, an optional sign,
    decimal digits, single underscores between digits, and at most
    [sys.int_max_str_digits] digits.  [None] is [ValueError].

    The whitespace [int()] skips around ASCII text is that of C's
    [isspace]: the space and the codes 9 to 13.  The separators 28 to 31,
    which [str.strip()] removes, are not part of it: [int("\x1c5")] raises. *)
Definition is_c_space (c : ascii) : bool :=
  in_range 9 13 c || bool_decide (c = " "%char).

(** The default of [sys.int_max_str_digits]. *)
Definition int_max_str_digits : nat := 4300.

Definition count_digits (s : chars) : nat :=
  length (filter (λ c, is_digit c = true) s).

Definition digit_val (c : ascii) : Z := Z.of_N (code c) - 48.

Fixpoint digits_go (s : chars) (acc : Z) (after_digit : bool) : option Z :=
  match s with
  | [] => if after_digit then Some acc else None
  | x :: s' =>
      if is_digit x then digits_go s' (10 * acc + digit_val x) true
      else if bool_decide (x = "_"%char) && after_digit
           then match s' with
                | y :: _ => if is_digit y then digits_go s' acc false else None
                | [] => None
                end
           else None
  end.

(** The digits after the sign: the count of digits is checked against the
    limit, underscores apart and leading zeros included. *)
Definition int_digits (ds : chars) : option Z :=
  if (int_max_str_digits <? count_digits ds)%nat then None
  else digits_go ds 0 false.

Definition int_chars (s : chars) : option Z :=
  match strip is_c_space s with
  | "-"%char :: ds => Z.opp <$> int_digits ds
  | "+"%char :: ds => int_digits ds
  | ds => int_digits ds
  end.

Definition int (s : string) : option Z := int_chars (to_chars s).

(** [str(n)] and the [{n}] of an f-string, for an integer. *)
Definition str_of_Z (n : Z) : string := pretty n.

End PyStr.

(** ** Python floats

    A [float] is an IEEE 754 binary64 number and the operations round to
    nearest, ties to even: the functions of [SpecFloat] at precision 53. *)

Module PyFloat.

Definition prec : Z := 53.
Definition emax : Z := 1024.

Abbreviation float := spec_float.

Definition add : float → float → float := SFadd prec emax.
Definition sub : float → float → float := SFsub prec emax.
Definition mul : float → float → float := SFmul prec emax.
Definition div : float → float → float := SFdiv prec emax.
Definition ltb : float → float → bool := SFltb.

(** The float nearest to an integer; an infinity when the integer is
    beyond the largest float. *)
Definition of_int (z : Z) : float := binary_normalize prec emax z 0 false.

Definition is_finite (x : float) : bool :=
  match x with
  | S754_zero _ | S754_finite _ _ _ => true
  | _ => false
  end.

(** [min(a, b)]: the second argument only when it is smaller. *)
Definition min (a b : float) : float := if ltb b a then b else a.

(** The literals [2.54] and [0.1]: the doubles nearest to them. *)
Definition lit_2_54 : float := S754_finite false 5719571526760530 (-51).
Definition lit_0_1 : float := S754_finite false 7205759403792794 (-56).

(** The rational number a finite float is. *)
Definition to_Q (x : float) : Q :=
  match x with
  | S754_finite s m e =>
      (inject_Z (if s then Z.neg m else Z.pos m) * Qpower 2 e)%Q
  | _ => 0%Q
  end.

End PyFloat.

(** ** [os.path] (POSIX) *)

Module OsPath.
Import PyStr.

Definition sep : ascii := "/"%char.

(** [os.path.join(a, b)]. *)
Definition join_chars (a b : chars) : chars :=
  if startswith_chars [sep] b then b
  else if bool_decide (a = []) || endswith_chars [sep] a then a ++ b
  else a ++ sep :: b.
Definition join (a b : string) : string :=
  of_chars (join_chars (to_chars a) (to_chars b)).
(** [os.path.join(a, b, c)]. *)
Definition join3 (a b c : string) : string := join (join a b) c.

(** [os.path.dirname(p)]. *)
Definition dirname_chars (p : chars) : chars :=
  let i := rfind sep p + 1 in
  let head := take (Z.to_nat i) p in
  if negb (bool_decide (head = [])) && negb (forallb (λ c, bool_decide (c = sep)) head)
  then rstrip (λ c, bool_decide (c = sep)) head
  else head.
Definition dirname (p : string) : string := of_chars (dirname_chars (to_chars p)).

(** [os.path.basename(p)]. *)
Definition basename_chars (p : chars) : chars := drop (Z.to_nat (rfind sep p + 1)) p.
Definition basename (p : string) : string := of_chars (basename_chars (to_chars p)).

(** [os.path.splitext(p)]: the extension starts at the last dot of the
    last component, leading dots of that component apart. *)
Definition splitext_chars (p : chars) : chars * chars :=
  let sepIndex := rfind sep p in
  let dotIndex := rfind "."%char p in
  if (sepIndex <? dotIndex)
     && existsb (λ c, negb (bool_decide (c = "."%char)))
          (take (Z.to_nat (dotIndex - (sepIndex + 1))) (drop (Z.to_nat (sepIndex + 1)) p))
  then (take (Z.to_nat dotIndex) p, drop (Z.to_nat dotIndex) p)
  else (p, []).
Definition splitext (p : string) : string * string :=
  (of_chars (splitext_chars (to_chars p)).1, of_chars (splitext_chars (to_chars p)).2).

(** The path [p] names an entry directly inside the directory [d]: it is
    [d], a separator, and one component that is neither [.] nor [..]. *)
Definition child_of (d p : string) : bool :=
  match strip_prefix (to_chars (join d "")) (to_chars p) with
  | Some name =>
      negb (bool_decide (name = [])) && negb (has_char sep name)
      && negb (bool_decide (name = to_chars ".")) && negb (bool_decide (name = to_chars ".."))
  | None => false
  end.

End OsPath.

(** ** [werkzeug.utils.secure_filename]

    The library function, on ASCII text and a POSIX host: bytes above 127
    are dropped, separators become spaces, the whitespace-separated words
    are joined with underscores, every character outside [A-Za-z0-9_.-]
    is removed and leading and trailing dots and underscores are stripped. *)

Module Werkzeug.
Import PyStr.

Definition is_ascii (c : ascii) : bool := (code c <? 128)%N.

Definition filename_char (c : ascii) : bool :=
  is_upper c || is_lower c || is_digit c
  || bool_decide (c = "_"%char) || bool_decide (c = "."%char) || bool_decide (c = "-"%char).

Definition dot_or_underscore (c : ascii) : bool :=
  bool_decide (c = "."%char) || bool_decide (c = "_"%char).

Definition secure_chars (s : chars) : chars :=
  let s := filter (λ c, is_ascii c = true) s in
  let s := map (λ c, if decide (c = OsPath.sep) then " "%char else c) s in
  let s := join ["_"%char] (split_ws s) in
  let s := filter (λ c, filename_char c = true) s in
  strip dot_or_underscore s.

Definition secure_filename (s : string) : string := of_chars (secure_chars (to_chars s)).

End Werkzeug.

(** ** Files, the filesystem and the interpreter state *)

(** What a drawing call of a reportlab canvas puts on a page. *)
Record drawing := Drawing {
  img_width : Z; img_height : Z;          (* pixel size of the source image *)
  x_pos : PyFloat.float;                  (* lower-left corner, in points *)
  y_pos : PyFloat.float;
  final_width : PyFloat.float;            (* drawn size, in points *)
  final_height : PyFloat.float
}.

(** A page of a PDF document. *)
Inductive page :=
| SourcePage (id : N)                     (* a page of an uploaded document *)
| CanvasPage (ops : list drawing)         (* a page drawn on a reportlab canvas *)
| ImagePage (w h : Z).                    (* an image saved as a page by PIL *)

(** The bytes of a file, through what the program observes of them: their
    number, the pages [PdfReader] finds in them ([None]: not a readable
    PDF) and the size [PIL.Image.open] finds ([None]: not an image). *)
Record file_data := FileData {
  nbytes : N;
  pdf_pages : option (list page);
  image_size : option (Z * Z)
}.

Inductive node := File (d : file_data) | Dir.

Inductive exn :=
| OSError (msg : string)
| ValueError (msg : string)
| ZeroDivisionError
| OverflowError (msg : string)
| ImportError (msg : string)
| IndexError (msg : string)
| AttributeError (msg : string)
| LibraryError (msg : string).

(** [str(e)]. *)
Definition exn_str (e : exn) : string :=
  match e with
  | OSError m | ValueError m | ImportError m | IndexError m | AttributeError m
  | OverflowError m | LibraryError m => m
  | ZeroDivisionError => "division by zero"
  end.

(** A started daemon thread that has not run yet: the [delayed_cleanup]
    closure of [cleanup_files] with its delay and its paths, or the
    [cleanup] closure of the compressor and image services, which sleeps
    and removes one file. *)
Inductive thread :=
| CleanupThread (delay : Z) (paths : list string)
| RemoveFileThread (delay : Z) (path : string).

Record world := World {
  fs : gmap string node;
  faults : gset string;          (* paths on which the OS refuses to delete or list *)
  threads : list thread;         (* background threads started so far *)
  written : list (string * file_data)   (* the files written so far, oldest first *)
}.

Definition set_fs (f : gmap string node → gmap string node) (w : world) : world :=
  World (f (fs w)) (faults w) (threads w) (written w).

(** ** Computations: state and exceptions *)

Inductive res (A : Type) := Val (a : A) | Exc (e : exn).
Arguments Val {A} a.
Arguments Exc {A} e.

Definition M (A : Type) : Type := world → res A * world.

Definition ret {A} (a : A) : M A := λ w, (Val a, w).
Definition raise {A} (e : exn) : M A := λ w, (Exc e, w).
Definition bind {A B} (m : M A) (k : A → M B) : M B :=
  λ w, match m w with
       | (Val a, w') => k a w'
       | (Exc e, w') => (Exc e, w')
       end.
Definition get_world : M world := λ w, (Val w, w).
Definition of_option {A} (o : option A) (e : exn) : M A :=
  match o with Some a => ret a | None => raise e end.

(** An [int] operand of a float operation is converted first, which
    raises when the integer is beyond the largest float. *)
Definition float_of_int (z : Z) : M PyFloat.float :=
  if PyFloat.is_finite (PyFloat.of_int z) then ret (PyFloat.of_int z)
  else raise (OverflowError "int too large to convert to float").

Declare Scope py_scope.
Delimit Scope py_scope with py.
Notation "x <- m ;; k" := (bind m (λ x, k))
  (at level 100, m at next level, right associativity) : py_scope.
Notation "m ;;; k" := (bind m (λ _, k))
  (at level 100, right associativity) : py_scope.
Local Open Scope py_scope.

(** [try: m  except Exception as e: h e]. *)
Definition try_except {A} (m : M A) (h : exn → M A) : M A :=
  λ w, match m w with
       | (Val a, w') => (Val a, w')
       | (Exc e, w') => h e w'
       end.

Definition is_ValueError (e : exn) : bool :=
  match e with ValueError _ => true | _ => false end.
Definition is_ImportError (e : exn) : bool :=
  match e with ImportError _ => true | _ => false end.

(** [try: m  except K as e: h e], for one class [K] of exceptions. *)
Definition try_except_only {A} (k : exn → bool) (m : M A) (h : exn → M A) : M A :=
  try_except m (λ e, if k e then h e else raise e).

(** [for x in xs: body x]. *)
Fixpoint for_each {A} (xs : list A) (body : A → M unit) : M unit :=
  match xs with
  | [] => ret tt
  | x :: xs' => body x ;;; for_each xs' body
  end.

(** ** [os] and [open] *)

Module Os.

(** The node a path names.  The filesystem is keyed by the paths as the
    program writes them; one other spelling is resolved: a path that ends
    in a separator names the directory before it ([uploads/j1/] is
    [uploads/j1]), and nothing if that is not a directory.  The download
    endpoint builds such a path for a file name that sanitises to the empty
    string. *)
Definition lookup (m : gmap string node) (p : string) : option node :=
  match m !! p with
  | Some n => Some n
  | None =>
      if PyStr.endswith p "/" then
        match m !! OsPath.dirname p with
        | Some Dir => Some Dir
        | _ => None
        end
      else None
  end.

Definition path_exists (p : string) : M bool :=
  λ w, (Val (bool_decide (is_Some (lookup (fs w) p))), w).
Definition isfile (p : string) : M bool :=
  λ w, (Val (match fs w !! p with Some (File _) => true | _ => false end), w).
Definition isdir (p : string) : M bool :=
  λ w, (Val (match fs w !! p with Some Dir => true | _ => false end), w).

(** The entries of the directory [p]: the paths whose parent it is. *)
Definition entries (m : gmap string node) (p : string) : list string :=
  filter (λ k, OsPath.dirname k = p ∧ k ≠ p) (elements (dom m)).

Definition listdir (p : string) : M (list string) :=
  λ w, if decide (p ∈ faults w) then (Exc (OSError "Permission denied"), w)
       else match fs w !! p with
            | Some Dir => (Val (OsPath.basename <$> entries (fs w) p), w)
            | Some (File _) => (Exc (OSError "Not a directory"), w)
            | None => (Exc (OSError "No such file or directory"), w)
            end.

Definition remove (p : string) : M unit :=
  λ w, if decide (p ∈ faults w) then (Exc (OSError "Permission denied"), w)
       else match fs w !! p with
            | Some (File _) => (Val tt, set_fs (delete p) w)
            | Some Dir => (Exc (OSError "Is a directory"), w)
            | None => (Exc (OSError "No such file or directory"), w)
            end.

Definition rmdir (p : string) : M unit :=
  λ w, if decide (p ∈ faults w) then (Exc (OSError "Permission denied"), w)
       else match fs w !! p with
            | Some Dir =>
                match entries (fs w) p with
                | [] => (Val tt, set_fs (delete p) w)
                | _ :: _ => (Exc (OSError "Directory not empty"), w)
                end
            | Some (File _) => (Exc (OSError "Not a directory"), w)
            | None => (Exc (OSError "No such file or directory"), w)
            end.

(** The parent of [p] is a directory (the working directory is one). *)
Definition parent_ok (m : gmap string node) (p : string) : bool :=
  bool_decide (OsPath.dirname p = "")
  || match m !! OsPath.dirname p with Some Dir => true | _ => false end.

Definition mkdir (p : string) : M unit :=
  λ w, match fs w !! p with
       | Some _ => (Exc (OSError "File exists"), w)
       | None => if parent_ok (fs w) p then (Val tt, set_fs (insert p Dir) w)
                 else (Exc (OSError "No such file or directory"), w)
       end.

(** [os.makedirs(p, exist_ok=True)]; the fuel bounds the depth of [p]. *)
Fixpoint makedirs_go (fuel : nat) (p : string) : M unit :=
  head_exists <- path_exists (OsPath.dirname p) ;;
  (match fuel with
   | S fuel' =>
       if negb (bool_decide (OsPath.dirname p = "")) && negb head_exists
       then makedirs_go fuel' (OsPath.dirname p)
       else ret tt
   | O => ret tt
   end) ;;;
  try_except (mkdir p)
    (λ e, d <- isdir p ;; if d then ret tt else raise e).
Definition makedirs (p : string) : M unit := makedirs_go (String.length p) p.

(** [open(p, 'wb')] followed by writing [d] and closing; also
    [FileStorage.save(p)]. *)
Definition write_file (p : string) (d : file_data) : M unit :=
  λ w, if decide (p ∈ faults w) then (Exc (OSError "Permission denied"), w)
       else match fs w !! p with
            | Some Dir => (Exc (OSError "Is a directory"), w)
            | _ => if parent_ok (fs w) p
                   then (Val tt, World (<[p := File d]> (fs w)) (faults w) (threads w)
                                       (written w ++ [(p, d)]))
                   else (Exc (OSError "No such file or directory"), w)
            end.

(** [open(p, 'rb')] followed by reading everything. *)
Definition read_file (p : string) : M file_data :=
  λ w, match fs w !! p with
       | Some (File d) => (Val d, w)
       | Some Dir => (Exc (OSError "Is a directory"), w)
       | None => (Exc (OSError "No such file or directory"), w)
       end.

(** [os.path.getsize(p)]. *)
Definition getsize (p : string) : M Z :=
  λ w, match fs w !! p with
       | Some (File d) => (Val (Z.of_N (nbytes d)), w)
       | Some Dir => (Val 4096, w)
       | None => (Exc (OSError "No such file or directory"), w)
       end.

(** [threading.Thread(target=...).start()]. *)
Definition start_thread (t : thread) : M unit :=
  λ w, (Val tt, World (fs w) (faults w) (threads w ++ [t]) (written w)).

End Os.

(** ** Configuration ([config.py]) and uploads *)

Record config := Config {
  UPLOAD_FOLDER : string;
  ALLOWED_EXTENSIONS : list string;
  CLEANUP_DELAY : Z
}.

(** [config['default']], the development configuration. *)
Definition default_config : config := Config "uploads" ["pdf"] 10.

(** A [FileStorage]: the name the client sent, the bytes of the upload and
    the identity of the Python object. *)
Record upload := Upload {
  filename : string;
  stream : file_data;
  obj_id : nat
}.

(** [bool(file)] is [bool(file.filename)]. *)
Definition truthy (s : string) : bool := negb (bool_decide (s = "")).

(** The [(success, result)] pair every service returns. *)
Inductive outcome (A : Type) := Success (a : A) | Failure (msg : string).
Arguments Success {A} a.
Arguments Failure {A} msg.

(** The third-party libraries, as far as the services depend on them. *)
Record Libs := {
  pdf_write_size : list page → N;             (* bytes PyPDF2 and reportlab write for these pages *)
  strip_annotations : page → page;            (* a page without /Annots and /AcroForm *)
  fitz_available : bool;                      (* [import fitz] succeeds *)
  fitz_rasterize : file_data → Z → Z → option file_data;  (* quality, dpi *)
  pdf2docx_available : bool;
  pdf2docx_convert : file_data → option file_data;
  docx_render : file_data → option file_data; (* python-docx and reportlab platypus *)
  reportlab_available : bool;
  zip_size : list (string * file_data) → N
}.

Definition pdf_file (L : Libs) (ps : list page) : file_data :=
  FileData (pdf_write_size L ps) (Some ps) None.

(** ** [utils.py] *)

Module Utils.
Import PyStr.

(** [filename.rsplit('.', 1)[1]], given that the name has a dot. *)
Definition extension (name : string) : string :=
  of_chars (drop (Z.to_nat (rfind "."%char (to_chars name) + 1)) (to_chars name)).

Definition allowed_file (cfg : config) (name : string) : bool :=
  has_char "."%char (to_chars name)
  && bool_decide (lower (extension name) ∈ ALLOWED_EXTENSIONS cfg).

Definition create_temp_directory (base_path unique_id : string) : M string :=
  let temp_dir := OsPath.join base_path unique_id in
  Os.makedirs temp_dir ;;;
  ret temp_dir.

(** The body of the loop of [delayed_cleanup], inside its [try]. *)
Definition cleanup_one (file_path : string) : M unit :=
  e <- Os.path_exists file_path ;;
  if e then
    f <- Os.isfile file_path ;;
    if f then Os.remove file_path
    else
      d <- Os.isdir file_path ;;
      if d then
        l <- Os.listdir file_path ;;
        match l with
        | [] => Os.rmdir file_path
        | _ :: _ => ret tt
        end
      else ret tt
  else ret tt.

(** [delayed_cleanup], after its sleep. *)
Definition delayed_cleanup (file_paths : list string) : M unit :=
  for_each file_paths (λ file_path,
    try_except (cleanup_one file_path) (λ _, ret tt)).

Definition cleanup_files (file_paths : list string) (delay : Z) : M unit :=
  if 0 <? delay then Os.start_thread (CleanupThread delay file_paths)
  else delayed_cleanup file_paths.

Fixpoint save_uploaded_files_from (i : Z) (files : list upload) (temp_dir : string)
    : M (list string) :=
  match files with
  | [] => ret []
  | file :: files' =>
      if truthy (filename file) then
        let temp_filename :=
          "temp_" +:+ str_of_Z i +:+ "_" +:+ Werkzeug.secure_filename (filename file) in
        let temp_filepath := OsPath.join temp_dir temp_filename in
        Os.write_file temp_filepath (stream file) ;;;
        rest <- save_uploaded_files_from (i + 1) files' temp_dir ;;
        ret (temp_filepath :: rest)
      else save_uploaded_files_from (i + 1) files' temp_dir
  end.
Definition save_uploaded_files : list upload → string → M (list string) :=
  save_uploaded_files_from 0.

Definition validate_pdf_files (cfg : config) (files : list upload) (min_files : Z)
    : outcome (list upload) :=
  match files with
  | [] => Failure "No files uploaded"
  | _ =>
      let valid_files :=
        filter (λ f, truthy (filename f) && allowed_file cfg (filename f) = true) files in
      if Z.of_nat (length valid_files) <? min_files
      then Failure ("At least " +:+ str_of_Z min_files +:+ " valid PDF files are required")
      else Success valid_files
  end.

Definition secure_output_filename (name default_name : string) : string :=
  let name := if truthy name then name else default_name in
  let name := if endswith name ".pdf" then name else name +:+ ".pdf" in
  Werkzeug.secure_filename name.

End Utils.

(** The result dictionary of the merge and Word services. *)
Record job_result := JobResult {
  unique_id : string;
  result_filename : string;
  message : string
}.

(** ** [services/pdf_merger.py] *)

Module PDFMergerService.
Import Utils.

Section Service.
Variable cfg : config.
Variable L : Libs.

(** The loop over [merger.append]; [acc] is what the merger holds. *)
Fixpoint append_all (temp_files : list string) (acc : list page)
    : M (outcome (list page)) :=
  match temp_files with
  | [] => ret (Success acc)
  | temp_file :: rest =>
      r <- try_except
             (d <- Os.read_file temp_file ;;
              ps <- of_option (pdf_pages d) (LibraryError "EOF marker not found") ;;
              ret (Success ps))
             (λ e, ret (Failure ("Error processing PDF file: " +:+ exn_str e))) ;;
      match r with
      | Success ps => append_all rest (acc ++ ps)
      | Failure m => ret (Failure m)
      end
  end.

Definition _merge_pdf_files (temp_files : list string) (temp_dir output_filename : string)
    : M (outcome string) :=
  try_except
    (r <- append_all temp_files [] ;;
     match r with
     | Failure m => ret (Failure m)
     | Success pages =>
         let output_path := OsPath.join temp_dir output_filename in
         Os.write_file output_path (pdf_file L pages) ;;;
         ret (Success output_path)
     end)
    (λ e, ret (Failure ("Error during PDF merge: " +:+ exn_str e))).

(** [merge_files]; [uid] is the identifier [generate_unique_id] draws. *)
Definition merge_files (uid : string) (files : list upload) (output_filename : string)
    : M (outcome job_result) :=
  try_except
    (match validate_pdf_files cfg files 2 with
     | Failure m => ret (Failure m)
     | Success valid_files =>
         temp_dir <- create_temp_directory (UPLOAD_FOLDER cfg) uid ;;
         temp_files <- save_uploaded_files valid_files temp_dir ;;
         let output_filename :=
           secure_output_filename output_filename "merged-document.pdf" in
         r <- _merge_pdf_files temp_files temp_dir output_filename ;;
         match r with
         | Success _ =>
             cleanup_files temp_files 0 ;;;
             ret (Success (JobResult uid output_filename "PDF files merged successfully!"))
         | Failure m =>
             cleanup_files (temp_files ++ [temp_dir]) 0 ;;;
             ret (Failure m)
         end
     end)
    (λ e, ret (Failure ("An error occurred during merge: " +:+ exn_str e))).

Definition get_file_path (unique_id filename : string) : string :=
  OsPath.join3 (UPLOAD_FOLDER cfg) unique_id filename.

(** [delay or current_app.config.get('CLEANUP_DELAY', 10)], without an
    explicit delay. *)
Definition cleanup_processed_file (file_path : string) : M unit :=
  let cleanup_delay := CLEANUP_DELAY cfg in
  let temp_dir := OsPath.dirname file_path in
  cleanup_files [file_path; temp_dir] cleanup_delay.

End Service.
End PDFMergerService.

(** ** [services/pdf_splitter.py] *)

(** The dictionary [_split_into_pages] and [_split_into_ranges] return. *)
Record split_files := SplitFiles {
  files : list string;
  count : Z
}.

(** The result dictionary of [split_pdf]. *)
Record split_result := SplitResult {
  split_unique_id : string;
  split_filename : string;
  split_message : string;
  split_count : Z
}.

Module PDFSplitterService.
Import PyStr Utils.

(** [seq[i]] of a Python list: negative indices count from the end. *)
Definition py_index {A} (l : list A) (i : Z) : M A :=
  let j := if i <? 0 then Z.of_nat (length l) + i else i in
  if j <? 0 then raise (IndexError "list index out of range")
  else of_option (l !! Z.to_nat j) (IndexError "list index out of range").

Section Service.
Variable cfg : config.
Variable L : Libs.

(** [PdfReader(input_file)] and its [pages]. *)
Definition read_pdf (input_file : string) : M (list page) :=
  d <- Os.read_file input_file ;;
  of_option (pdf_pages d) (LibraryError "EOF marker not found").

(** The loop of [_split_into_pages], for [page_num] in [nums]. *)
Fixpoint write_pages (pages : list page) (nums : list Z)
    (temp_dir output_filename : string) : M (list string) :=
  match nums with
  | [] => ret []
  | page_num :: nums' =>
      pg <- py_index pages page_num ;;
      let page_filename :=
        output_filename +:+ "-page-" +:+ str_of_Z (page_num + 1) +:+ ".pdf" in
      let page_path := OsPath.join temp_dir page_filename in
      Os.write_file page_path (pdf_file L [pg]) ;;;
      rest <- write_pages pages nums' temp_dir output_filename ;;
      ret (page_path :: rest)
  end.

Definition _split_into_pages (input_file temp_dir output_filename : string)
    : M (outcome split_files) :=
  try_except
    (pages <- read_pdf input_file ;;
     let total_pages := Z.of_nat (length pages) in
     split_files <- write_pages pages (seqZ 0 total_pages) temp_dir output_filename ;;
     ret (Success (SplitFiles split_files total_pages)))
    (λ e, ret (Failure ("Error splitting PDF into pages: " +:+ exn_str e))).

(** [writer.add_page(reader.pages[page_num])] for [page_num] in
    [range(start - 1, end)], under the guard [page_num < total_pages]. *)
Fixpoint add_range (pages : list page) (nums : list Z) : M (list page) :=
  match nums with
  | [] => ret []
  | page_num :: nums' =>
      if page_num <? Z.of_nat (length pages) then
        pg <- py_index pages page_num ;;
        rest <- add_range pages nums' ;;
        ret (pg :: rest)
      else add_range pages nums'
  end.

(** [int(s)], with the [ValueError] it raises. *)
Definition int_error (s : chars) : string :=
  let digits := count_digits (strip is_c_space s) in
  if (int_max_str_digits <? digits)%nat then
    "Exceeds the limit (4300 digits) for integer string conversion: value has "
    +:+ str_of_Z (Z.of_nat digits)
    +:+ " digits; use sys.set_int_max_str_digits() to increase the limit"
  else "invalid literal for int() with base 10: '" +:+ of_chars s +:+ "'".

Definition int_or_raise (s : chars) : M Z :=
  of_option (int_chars s) (ValueError (int_error s)).

(** The body of the inner [try] of [_split_into_ranges] for one token:
    the pages the writer receives and the description of the range, or
    the failure the function returns. *)
Definition parse_range (pages : list page) (page_range : string)
    : M (outcome (list page * string)) :=
  let total_pages := Z.of_nat (length pages) in
  try_except_only is_ValueError
    (if has_char "-"%char (to_chars page_range) then
       match split_on "-"%char (to_chars page_range) with
       | [a; b] =>
           start <- int_or_raise a ;;
           end_ <- int_or_raise b ;;
           let start := Z.max 1 start in
           let end_ := Z.min total_pages end_ in
           if end_ <? start then
             ret (Failure ("Invalid range: " +:+ page_range +:+ " (start > end)"))
           else
             ps <- add_range pages (seqZ (start - 1) (end_ - (start - 1))) ;;
             ret (Success (ps, "pages-" +:+ str_of_Z start +:+ "-to-" +:+ str_of_Z end_))
       | a :: b :: _ :: _ =>
           int_or_raise a ;;; int_or_raise b ;;;
           raise (ValueError "too many values to unpack (expected 2)")
       | _ => raise (ValueError "not enough values to unpack (expected 2, got 1)")
       end
     else
       page_num <- int_or_raise (to_chars page_range) ;;
       if (page_num <? 1) || (total_pages <? page_num) then
         ret (Failure ("Invalid page number: " +:+ str_of_Z page_num
                       +:+ " (valid range: 1-" +:+ str_of_Z total_pages +:+ ")"))
       else
         pg <- py_index pages (page_num - 1) ;;
         ret (Success ([pg], "page-" +:+ str_of_Z page_num)))
    (λ _, ret (Failure ("Invalid page range format: " +:+ page_range))).

(** The loop of [_split_into_ranges] over the tokens. *)
Fixpoint write_ranges (pages : list page) (page_ranges : list string)
    (temp_dir output_filename : string) : M (outcome (list string)) :=
  match page_ranges with
  | [] => ret (Success [])
  | page_range :: rest =>
      r <- parse_range pages page_range ;;
      match r with
      | Failure m => ret (Failure m)
      | Success (ps, range_desc) =>
          let range_filename := output_filename +:+ "-" +:+ range_desc +:+ ".pdf" in
          let range_path := OsPath.join temp_dir range_filename in
          Os.write_file range_path (pdf_file L ps) ;;;
          r' <- write_ranges pages rest temp_dir output_filename ;;
          match r' with
          | Failure m => ret (Failure m)
          | Success paths => ret (Success (range_path :: paths))
          end
      end
  end.

Definition _split_into_ranges (input_file temp_dir output_filename : string)
    (page_ranges : list string) : M (outcome split_files) :=
  try_except
    (match page_ranges with
     | [] => ret (Failure "No page ranges specified")
     | _ =>
         pages <- read_pdf input_file ;;
         r <- write_ranges pages page_ranges temp_dir output_filename ;;
         match r with
         | Failure m => ret (Failure m)
         | Success split_files =>
             ret (Success (SplitFiles split_files (Z.of_nat (length split_files))))
         end
     end)
    (λ e, ret (Failure ("Error splitting PDF into ranges: " +:+ exn_str e))).

(** [zipf.write(file_path, basename)] for every path. *)
Fixpoint zip_entries (file_paths : list string) : M (list (string * file_data)) :=
  match file_paths with
  | [] => ret []
  | file_path :: rest =>
      d <- Os.read_file file_path ;;
      es <- zip_entries rest ;;
      ret ((OsPath.basename file_path, d) :: es)
  end.

Definition zip_file (es : list (string * file_data)) : file_data :=
  FileData (zip_size L es) None None.

Definition _create_zip_file (file_paths : list string) (zip_path : string) : M bool :=
  try_except
    (Os.write_file zip_path (zip_file []) ;;;
     es <- zip_entries file_paths ;;
     Os.write_file zip_path (zip_file es) ;;;
     ret true)
    (λ _, ret false).

Definition split_pdf (uid : string) (file : upload) (split_type : string)
    (page_ranges : list string) (output_filename : string)
    : M (outcome split_result) :=
  try_except
    (match validate_pdf_files cfg [file] 1 with
     | Failure m => ret (Failure m)
     | Success result =>
         valid_file <- py_index result 0 ;;
         temp_dir <- create_temp_directory (UPLOAD_FOLDER cfg) uid ;;
         temp_files <- save_uploaded_files [valid_file] temp_dir ;;
         input_file <- py_index temp_files 0 ;;
         let output_filename :=
           if truthy output_filename then output_filename
           else (OsPath.splitext (filename valid_file)).1 in
         let output_filename := secure_output_filename output_filename "split-pdf" in
         let finish (r : outcome split_files) : M (outcome split_result) :=
           match r with
           | Success result =>
               let zip_filename := output_filename +:+ "-split.zip" in
               let zip_path := OsPath.join temp_dir zip_filename in
               zip_success <- _create_zip_file (files result) zip_path ;;
               if zip_success : bool then
                 cleanup_files (temp_files ++ files result) 0 ;;;
                 ret (Success (SplitResult uid zip_filename
                        ("PDF split successfully into " +:+ str_of_Z (count result) +:+ " files!")
                        (count result)))
               else
                 cleanup_files (temp_files ++ files result ++ [temp_dir]) 0 ;;;
                 ret (Failure "Error creating ZIP file")
           | Failure m =>
               cleanup_files (temp_files ++ [temp_dir]) 0 ;;;
               ret (Failure m)
           end in
         if bool_decide (split_type = "pages") then
           r <- _split_into_pages input_file temp_dir output_filename ;;
           finish r
         else if bool_decide (split_type = "ranges") then
           r <- _split_into_ranges input_file temp_dir output_filename page_ranges ;;
           finish r
         else ret (Failure "Invalid split type specified")
     end)
    (λ e, ret (Failure ("An error occurred during split: " +:+ exn_str e))).

Definition get_file_path (unique_id filename : string) : string :=
  OsPath.join3 (UPLOAD_FOLDER cfg) unique_id filename.

Definition cleanup_processed_file (file_path : string) : M unit :=
  let cleanup_delay := CLEANUP_DELAY cfg in
  let temp_dir := OsPath.dirname file_path in
  cleanup_files [file_path; temp_dir] cleanup_delay.

End Service.
End PDFSplitterService.

(** ** [services/pdf_compressor.py] *)

(** What the message of a compression result says: the ratio, which the
    source formats with one decimal. *)
Inductive compress_message := SizeReducedBy (ratio : Q).

Record compress_result := CompressResult {
  c_message : compress_message;
  c_filename : string;
  c_unique_id : string;
  c_file_path : string;
  original_size : Z;
  compressed_size : Z;
  compression_ratio : Q
}.

Module PDFCompressorService.
Import PyStr.

(** The services built on [config] read the default configuration. *)
Definition upload_folder : string := UPLOAD_FOLDER default_config.

Definition compression_settings : gmap string (Z * Z) :=
  list_to_map [("low", (90, 150)); ("medium", (75, 120)); ("high", (60, 100))].

Section Service.
Variable L : Libs.

Definition _compress_with_advanced_method
    (input_path output_path compression_level : string) : M bool :=
  try_except
    ((if fitz_available L then ret tt
      else raise (ImportError "No module named 'fitz'")) ;;;
     let settings :=
       default (compression_settings !!! "medium")
               (compression_settings !! compression_level) in
     doc <- Os.read_file input_path ;;
     new_doc <- of_option (fitz_rasterize L doc settings.1 settings.2)
                  (LibraryError "cannot open document") ;;
     Os.write_file output_path new_doc ;;;
     ret true)
    (λ _, ret false).

(** [writer.compress_identical_objects()]: [PyPDF2.PdfWriter] has no such
    method in any release of PyPDF2 (it came with the later [pypdf]), so the
    attribute lookup raises. *)
Definition compress_identical_objects : M unit :=
  raise (AttributeError
           "'PdfWriter' object has no attribute 'compress_identical_objects'").

Definition _compress_with_basic_method (input_path output_path : string) : M bool :=
  try_except
    (d <- Os.read_file input_path ;;
     pages <- of_option (pdf_pages d) (LibraryError "EOF marker not found") ;;
     let writer_pages := strip_annotations L <$> pages in
     compress_identical_objects ;;;
     Os.write_file output_path (pdf_file L writer_pages) ;;;
     ret true)
    (λ _, ret false).

Definition _compress_pdf_file (input_path output_path compression_level : string)
    : M bool :=
  try_except
    (success <- _compress_with_advanced_method input_path output_path compression_level ;;
     if success : bool then ret true
     else _compress_with_basic_method input_path output_path)
    (λ _, ret false).

Definition compress_pdf (uid : string) (file : upload)
    (output_filename compression_level : string) : M (outcome compress_result) :=
  try_except
    (if negb (truthy (filename file)) then ret (Failure "No file provided")
     else if negb (endswith (lower (filename file)) ".pdf")
     then ret (Failure "Please select a PDF file")
     else
       let unique_id := uid in
       let output_filename :=
         if negb (truthy output_filename)
            || bool_decide (strip is_space (to_chars output_filename) = [])
         then (OsPath.splitext (filename file)).1 +:+ "_compressed.pdf"
         else if negb (endswith output_filename ".pdf")
         then output_filename +:+ ".pdf"
         else output_filename in
       let output_filename := Werkzeug.secure_filename output_filename in
       let temp_filename :=
         "temp_" +:+ unique_id +:+ "_" +:+ Werkzeug.secure_filename (filename file) in
       let temp_path := OsPath.join upload_folder temp_filename in
       Os.write_file temp_path (stream file) ;;;
       original_size <- Os.getsize temp_path ;;
       let output_path :=
         OsPath.join upload_folder (unique_id +:+ "_" +:+ output_filename) in
       success <- _compress_pdf_file temp_path output_path compression_level ;;
       e <- Os.path_exists temp_path ;;
       (if e : bool then Os.remove temp_path else ret tt) ;;;
       if negb success then ret (Failure "Failed to compress PDF")
       else
         compressed_size <- Os.getsize output_path ;;
         if original_size =? 0 then raise ZeroDivisionError
         else
           let compression_ratio :=
             ((inject_Z (original_size - compressed_size) / inject_Z original_size)
              * 100)%Q in
           ret (Success (CompressResult (SizeReducedBy compression_ratio)
                  output_filename unique_id output_path
                  original_size compressed_size compression_ratio)))
    (λ e, ret (Failure ("Compression failed: " +:+ exn_str e))).

Definition get_file_path (unique_id filename : string) : string :=
  let filename := Werkzeug.secure_filename filename in
  OsPath.join upload_folder (unique_id +:+ "_" +:+ filename).

Definition cleanup_processed_file (file_path : string) : M unit :=
  Os.start_thread (RemoveFileThread 5 file_path).

End Service.

(** [ensure_upload_directory], which [__init__] calls: [os.makedirs] runs
    only when the folder does not exist. *)
Definition ensure_upload_directory : M unit :=
  e <- Os.path_exists upload_folder ;;
  if negb e then Os.makedirs upload_folder else ret tt.

End PDFCompressorService.

(** ** [services/image_to_pdf.py] *)

Record image_result := ImageResult {
  i_message : string;
  i_filename : string;
  i_unique_id : string;
  i_file_path : string
}.

(** A reportlab canvas: the finished pages and the drawings of the page
    being drawn. *)
Record canvas := Canvas {
  finished : list (list drawing);
  current : list drawing
}.

Module ImageToPDFService.
Import PyStr.

Definition upload_folder : string := UPLOAD_FOLDER default_config.

Definition ALLOWED_EXTENSIONS : list string :=
  ["jpg"; "jpeg"; "png"; "gif"; "bmp"; "tiff"; "webp"].

(** Margins in points. *)
Definition MARGIN_SETTINGS : gmap string Z :=
  list_to_map [("none", 0); ("small", 36); ("medium", 72); ("large", 144)].

(** [reportlab.lib.units]: [inch = 72.0], [cm = inch / 2.54],
    [mm = cm * 0.1]; and [reportlab.lib.pagesizes.A4 = (210*mm, 297*mm)],
    which is (595.2755905511812, 841.8897637795277). *)
Definition inch : PyFloat.float := PyFloat.of_int 72.
Definition cm : PyFloat.float := PyFloat.div inch PyFloat.lit_2_54.
Definition mm : PyFloat.float := PyFloat.mul cm PyFloat.lit_0_1.
Definition page_width : PyFloat.float := PyFloat.mul (PyFloat.of_int 210) mm.
Definition page_height : PyFloat.float := PyFloat.mul (PyFloat.of_int 297) mm.

(** [x / n], [n * x] and [n + x] for a float [x] and an int [n]. *)
Definition div_int (x : PyFloat.float) (n : Z) : M PyFloat.float :=
  fn <- float_of_int n ;;
  if n =? 0 then raise ZeroDivisionError else ret (PyFloat.div x fn).
Definition int_mul (n : Z) (x : PyFloat.float) : M PyFloat.float :=
  fn <- float_of_int n ;; ret (PyFloat.mul fn x).
Definition int_add (n : Z) (x : PyFloat.float) : M PyFloat.float :=
  fn <- float_of_int n ;; ret (PyFloat.add fn x).

(** [available_width] and [available_height] (lines 119-120), computed
    once before the loop. *)
Definition available_area (margin : Z) : M (PyFloat.float * PyFloat.float) :=
  m2 <- float_of_int (2 * margin) ;;
  ret (PyFloat.sub page_width m2, PyFloat.sub page_height m2).

Definition is_allowed_file (name : string) : bool :=
  has_char "."%char (to_chars name)
  && bool_decide (lower (Utils.extension name) ∈ ALLOWED_EXTENSIONS).

Definition showPage (c : canvas) : canvas :=
  Canvas (finished c ++ [current c]) [].
Definition drawImage (c : canvas) (d : drawing) : canvas :=
  Canvas (finished c) (current c ++ [d]).
(** The pages [Canvas.save] writes: a page in progress is finished first. *)
Definition saved_pages (c : canvas) : list (list drawing) :=
  match current c with
  | [] => finished c
  | _ :: _ => finished c ++ [current c]
  end.

(** Where and how large one image is drawn (lines 144-162).  With no
    margin [x_pos] and [y_pos] are the integer 0, which the canvas reads
    as the float zero. *)
Definition place_image (margin : Z) (available_width available_height : PyFloat.float)
    (img_width img_height : Z) : M drawing :=
  if margin =? 0 then
    ret (Drawing img_width img_height (PyFloat.of_int 0) (PyFloat.of_int 0)
           page_width page_height)
  else
    width_ratio <- div_int available_width img_width ;;
    height_ratio <- div_int available_height img_height ;;
    let scale_ratio := PyFloat.min width_ratio height_ratio in
    final_width <- int_mul img_width scale_ratio ;;
    final_height <- int_mul img_height scale_ratio ;;
    half_width <- div_int (PyFloat.sub available_width final_width) 2 ;;
    x_pos <- int_add margin half_width ;;
    half_height <- div_int (PyFloat.sub available_height final_height) 2 ;;
    y_pos <- int_add margin half_height ;;
    ret (Drawing img_width img_height x_pos y_pos final_width final_height).

(** [for temp_file in temp_files: if os.path.exists(temp_file): os.remove(temp_file)]. *)
Definition remove_temp_files (temp_files : list string) : M unit :=
  for_each temp_files (λ temp_file,
    e <- Os.path_exists temp_file ;;
    if e : bool then Os.remove temp_file else ret tt).

Section Service.
Variable L : Libs.

(** [Image.open(temp_path)] and [img.size]. *)
Definition open_image (temp_path : string) : M (Z * Z) :=
  d <- Os.read_file temp_path ;;
  of_option (image_size d) (LibraryError "cannot identify image file").

(** The loop of [_convert_images_with_margins]; [last_id] identifies
    [files[-1]].  [None] is the [return False] of the inner handler. *)
Fixpoint draw_images (files : list upload) (last_id : option nat) (margin : Z)
    (area : PyFloat.float * PyFloat.float)
    (unique_id : string) (c : canvas) (temp_files : list string)
    : M (option (canvas * list string)) :=
  match files with
  | [] => ret (Some (c, temp_files))
  | file :: rest =>
      let temp_filename :=
        "temp_" +:+ unique_id +:+ "_" +:+ Werkzeug.secure_filename (filename file) in
      let temp_path := OsPath.join upload_folder temp_filename in
      Os.write_file temp_path (stream file) ;;;
      let temp_files := temp_files ++ [temp_path] in
      r <- try_except
             (sz <- open_image temp_path ;;
              d <- place_image margin area.1 area.2 sz.1 sz.2 ;;
              let c := drawImage c d in
              ret (Some (if bool_decide (Some (obj_id file) ≠ last_id) then showPage c else c)))
             (λ _, remove_temp_files temp_files ;;; ret None) ;;
      match r with
      | Some c' => draw_images rest last_id margin area unique_id c' temp_files
      | None => ret None
      end
  end.

(** The PIL fallback: every image becomes a page of its own size. *)
Fixpoint open_images (files : list upload) (unique_id : string)
    (images : list (Z * Z)) (temp_files : list string)
    : M (option (list (Z * Z) * list string)) :=
  match files with
  | [] => ret (Some (images, temp_files))
  | file :: rest =>
      let temp_filename :=
        "temp_" +:+ unique_id +:+ "_" +:+ Werkzeug.secure_filename (filename file) in
      let temp_path := OsPath.join upload_folder temp_filename in
      Os.write_file temp_path (stream file) ;;;
      let temp_files := temp_files ++ [temp_path] in
      r <- try_except
             (sz <- open_image temp_path ;; ret (Some sz))
             (λ _, remove_temp_files temp_files ;;; ret None) ;;
      match r with
      | Some sz => open_images rest unique_id (images ++ [sz]) temp_files
      | None => ret None
      end
  end.

Definition _convert_images_simple (files : list upload) (output_path unique_id : string)
    : M bool :=
  try_except
    (r <- open_images files unique_id [] [] ;;
     match r with
     | None => ret false
     | Some (images, temp_files) =>
         match images with
         | [] => remove_temp_files temp_files ;;; ret false
         | _ :: _ =>
             Os.write_file output_path
               (pdf_file L ((λ sz : Z * Z, ImagePage sz.1 sz.2) <$> images)) ;;;
             remove_temp_files temp_files ;;;
             ret true
         end
     end)
    (λ _, ret false).

Definition _convert_images_with_margins (files : list upload) (output_path : string)
    (margin : Z) (unique_id : string) : M bool :=
  try_except
    (try_except_only is_ImportError
       ((if reportlab_available L then ret tt
         else raise (ImportError "No module named 'reportlab'")) ;;;
        let c := Canvas [] [] in
        area <- available_area margin ;;
        r <- draw_images files (obj_id <$> last files) margin area unique_id c [] ;;
        match r with
        | None => ret false
        | Some (c, temp_files) =>
            Os.write_file output_path (pdf_file L (CanvasPage <$> saved_pages c)) ;;;
            remove_temp_files temp_files ;;;
            ret true
        end)
       (λ _, _convert_images_simple files output_path unique_id))
    (λ _, ret false).

Definition convert_images_to_pdf (uid : string) (files : list upload)
    (output_filename margin_size : string) : M (outcome image_result) :=
  try_except
    (match files with
     | [] => ret (Failure "No files provided")
     | _ =>
         let valid_files :=
           filter (λ f, truthy (filename f) && is_allowed_file (filename f) = true) files in
         match valid_files with
         | [] => ret (Failure ("No valid image files found. Supported formats: "
                               +:+ of_chars (join (to_chars ", ") (to_chars <$> ALLOWED_EXTENSIONS))))
         | _ =>
             let unique_id := uid in
             let output_filename :=
               if negb (truthy output_filename)
                  || bool_decide (strip is_space (to_chars output_filename) = [])
               then "images-to-pdf-" +:+ of_chars (take 8 (to_chars unique_id)) +:+ ".pdf"
               else if negb (endswith output_filename ".pdf")
               then output_filename +:+ ".pdf"
               else output_filename in
             let margin_size :=
               if bool_decide (is_Some (MARGIN_SETTINGS !! margin_size))
               then margin_size else "medium" in
             margin <- of_option (MARGIN_SETTINGS !! margin_size) (LibraryError "KeyError") ;;
             let output_filename := Werkzeug.secure_filename output_filename in
             let output_path :=
               OsPath.join upload_folder (unique_id +:+ "_" +:+ output_filename) in
             success <- _convert_images_with_margins valid_files output_path margin unique_id ;;
             if negb success then ret (Failure "Failed to process images")
             else ret (Success (ImageResult
                    ("Successfully converted " +:+ str_of_Z (Z.of_nat (length valid_files))
                     +:+ " images to PDF")
                    output_filename unique_id output_path))
         end
     end)
    (λ e, ret (Failure ("Conversion failed: " +:+ exn_str e))).

Definition get_file_path (unique_id filename : string) : string :=
  let filename := Werkzeug.secure_filename filename in
  OsPath.join upload_folder (unique_id +:+ "_" +:+ filename).

Definition cleanup_processed_file (file_path : string) : M unit :=
  Os.start_thread (RemoveFileThread 5 file_path).

End Service.

(** [ensure_upload_directory], which [__init__] calls: [os.makedirs] runs
    only when the folder does not exist. *)
Definition ensure_upload_directory : M unit :=
  e <- Os.path_exists upload_folder ;;
  if negb e then Os.makedirs upload_folder else ret tt.

End ImageToPDFService.

(** ** [services/pdf_to_word.py] *)

Module PDFToWordService.
Import PyStr Utils.

Section Service.
Variable cfg : config.
Variable L : Libs.

Definition _convert_pdf_to_word (pdf_file_path temp_dir output_filename : string)
    : M (outcome string) :=
  try_except
    (if negb (pdf2docx_available L) then
       ret (Failure "PDF to Word conversion library is not installed. Please install pdf2docx.")
     else
       let output_path := OsPath.join temp_dir output_filename in
       d <- Os.read_file pdf_file_path ;;
       out <- of_option (pdf2docx_convert L d) (LibraryError "cannot open broken document") ;;
       Os.write_file output_path out ;;;
       e <- Os.path_exists output_path ;;
       if negb e then ret (Failure "Conversion failed: Output file was not created")
       else ret (Success output_path))
    (λ e,
       let error_msg := exn_str e in
       if contains "pdf2docx" (lower error_msg) then
         ret (Failure ("PDF to Word conversion error: " +:+ error_msg
                       +:+ ". The PDF might be password-protected or corrupted."))
       else ret (Failure ("Error during PDF to Word conversion: " +:+ error_msg))).

Definition convert_file (uid : string) (files : list upload) (output_filename : string)
    : M (outcome job_result) :=
  try_except
    (match validate_pdf_files cfg files 1 with
     | Failure m => ret (Failure m)
     | Success valid_files =>
         if 1 <? Z.of_nat (length valid_files) then
           ret (Failure "Please select only one PDF file for conversion")
         else
           temp_dir <- create_temp_directory (UPLOAD_FOLDER cfg) uid ;;
           temp_files <- save_uploaded_files valid_files temp_dir ;;
           match temp_files with
           | [] => ret (Failure "Failed to save uploaded file")
           | _ =>
               first_file <- PDFSplitterService.py_index valid_files 0 ;;
               let output_filename :=
                 if truthy output_filename then output_filename
                 else
                   let original_name := filename first_file in
                   let base_name :=
                     if truthy original_name then (OsPath.splitext original_name).1
                     else "converted-document" in
                   base_name +:+ ".docx" in
               let output_filename :=
                 secure_output_filename output_filename "converted-document.docx" in
               let output_filename :=
                 if endswith output_filename ".docx" then output_filename
                 else (OsPath.splitext output_filename).1 +:+ ".docx" in
               temp_file <- PDFSplitterService.py_index temp_files 0 ;;
               r <- _convert_pdf_to_word temp_file temp_dir output_filename ;;
               match r with
               | Success _ =>
                   cleanup_files temp_files 0 ;;;
                   ret (Success (JobResult uid output_filename
                          "PDF converted to Word successfully!"))
               | Failure m =>
                   cleanup_files (temp_files ++ [temp_dir]) 0 ;;;
                   ret (Failure m)
               end
           end
     end)
    (λ e, ret (Failure ("An error occurred during conversion: " +:+ exn_str e))).

Definition get_file_path (unique_id filename : string) : string :=
  OsPath.join3 (UPLOAD_FOLDER cfg) unique_id filename.

Definition cleanup_processed_file (file_path : string) : M unit :=
  let cleanup_delay := CLEANUP_DELAY cfg in
  let temp_dir := OsPath.dirname file_path in
  cleanup_files [file_path; temp_dir] cleanup_delay.

End Service.
End PDFToWordService.

(** ** [services/word_to_pdf.py] *)

Module WordToPDFService.
Import PyStr Utils.

Definition max_size : Z := 16 * 1024 * 1024.

(** [file.seek(0, 2); file.tell()]: the number of bytes of the upload. *)
Definition file_size (file : upload) : Z := Z.of_N (nbytes (stream file)).

Definition _validate_word_file (files : list upload) : outcome (list upload) :=
  match files with
  | [] => Failure "No files provided"
  | file :: _ =>
      if negb (truthy (filename file)) || bool_decide (filename file = "") then
        Failure "No file selected"
      else
        let allowed_extensions := [".docx"; ".doc"] in
        let file_ext := (OsPath.splitext (lower (filename file))).2 in
        if negb (bool_decide (file_ext ∈ allowed_extensions)) then
          Failure "Invalid file type. Please upload a Word document (.docx or .doc)"
        else if max_size <? file_size file then
          Failure "File size too large. Maximum allowed size is 16MB."
        else Success [file]
  end.

Section Service.
Variable cfg : config.
Variable L : Libs.

(** The document is read with python-docx and rendered with reportlab;
    the rendering is the library function [docx_render]. *)
Definition _convert_docx_to_pdf (input_file temp_dir output_filename : string)
    : M (outcome string) :=
  try_except
    (doc <- Os.read_file input_file ;;
     let output_path := OsPath.join temp_dir output_filename in
     out <- of_option (docx_render L doc) (LibraryError "Package not found") ;;
     Os.write_file output_path out ;;;
     ret (Success output_path))
    (λ e, ret (Failure ("Error converting Word to PDF: " +:+ exn_str e))).

Definition convert_word_to_pdf (uid : string) (file : upload) (output_filename : string)
    : M (outcome job_result) :=
  try_except
    (match _validate_word_file [file] with
     | Failure m => ret (Failure m)
     | Success result =>
         valid_file <- PDFSplitterService.py_index result 0 ;;
         temp_dir <- create_temp_directory (UPLOAD_FOLDER cfg) uid ;;
         temp_files <- save_uploaded_files [valid_file] temp_dir ;;
         input_file <- PDFSplitterService.py_index temp_files 0 ;;
         let output_filename :=
           if negb (truthy output_filename)
           then (OsPath.splitext (filename valid_file)).1 +:+ ".pdf"
           else if negb (endswith output_filename ".pdf")
           then output_filename +:+ ".pdf"
           else output_filename in
         let output_filename := secure_output_filename output_filename "word-to-pdf.pdf" in
         r <- _convert_docx_to_pdf input_file temp_dir output_filename ;;
         match r with
         | Success _ =>
             cleanup_files temp_files 0 ;;;
             ret (Success (JobResult uid output_filename
                    "Word document converted to PDF successfully!"))
         | Failure m =>
             cleanup_files (temp_files ++ [temp_dir]) 0 ;;;
             ret (Failure m)
         end
     end)
    (λ e, ret (Failure ("An error occurred during conversion: " +:+ exn_str e))).

Definition get_file_path (unique_id filename : string) : string :=
  OsPath.join3 (UPLOAD_FOLDER cfg) unique_id filename.

Definition cleanup_processed_file (file_path : string) : M unit :=
  let cleanup_delay := CLEANUP_DELAY cfg in
  let temp_dir := OsPath.dirname file_path in
  cleanup_files [file_path; temp_dir] cleanup_delay.

End Service.
End WordToPDFService.

(** ** [routes/pdf_routes.py]: the download endpoint *)

Inductive service :=
| Merger | ToWord | ImageToPDF | Compressor | Splitter | WordToPDF.

Inductive response :=
| Redirect (endpoint : string) (flash : string)
| SendFile (path download_name mimetype : string).

Module Routes.
Import PyStr.

Section Routes.
Variable cfg : config.

(** The service, MIME type and redirect target the endpoint picks from
    the (sanitised) filename. *)
Definition select_service (filename : string) : service * string * string :=
  if endswith filename ".docx" then
    (ToWord, "application/vnd.openxmlformats-officedocument.wordprocessingml.document",
     "main.pdf_to_word")
  else if startswith filename "images-to-pdf" then
    (ImageToPDF, "application/pdf", "main.image_to_pdf")
  else if contains "compressed" filename then
    (Compressor, "application/pdf", "main.compress_pdf")
  else if contains "split" filename && endswith filename ".zip" then
    (Splitter, "application/zip", "main.split_pdf")
  else if startswith filename "word-to-pdf" || contains "word-to-pdf" filename then
    (WordToPDF, "application/pdf", "main.word_to_pdf")
  else (Merger, "application/pdf", "main.merge_pdf").

Definition get_file_path (svc : service) (unique_id filename : string) : string :=
  match svc with
  | Merger => PDFMergerService.get_file_path cfg unique_id filename
  | ToWord => PDFToWordService.get_file_path cfg unique_id filename
  | ImageToPDF => ImageToPDFService.get_file_path unique_id filename
  | Compressor => PDFCompressorService.get_file_path unique_id filename
  | Splitter => PDFSplitterService.get_file_path cfg unique_id filename
  | WordToPDF => WordToPDFService.get_file_path cfg unique_id filename
  end.

Definition cleanup_processed_file (svc : service) (file_path : string) : M unit :=
  match svc with
  | Merger => PDFMergerService.cleanup_processed_file cfg file_path
  | ToWord => PDFToWordService.cleanup_processed_file cfg file_path
  | ImageToPDF => ImageToPDFService.cleanup_processed_file file_path
  | Compressor => PDFCompressorService.cleanup_processed_file file_path
  | Splitter => PDFSplitterService.cleanup_processed_file cfg file_path
  | WordToPDF => WordToPDFService.cleanup_processed_file cfg file_path
  end.

(** The path the endpoint resolves for [(unique_id, filename)]. *)
Definition download_path (unique_id filename : string) : string :=
  let filename := Werkzeug.secure_filename filename in
  get_file_path (select_service filename).1.1 unique_id filename.

(** The constructor of the service: those of the image and compressor
    services make sure that their upload folder exists, the others only
    read the configuration. *)
Definition construct (svc : service) : M unit :=
  match svc with
  | ImageToPDF => ImageToPDFService.ensure_upload_directory
  | Compressor => PDFCompressorService.ensure_upload_directory
  | Merger | ToWord | Splitter | WordToPDF => ret tt
  end.

(** [flask.send_file]: the file is opened when the response is built,
    which raises for a directory and for a missing file.  The application
    runs in its root directory, so that Flask resolves the path as [os]
    does. *)
Definition send_file (path download_name mimetype : string) : M response :=
  λ w, match Os.lookup (fs w) path with
       | Some (File _) => (Val (SendFile path download_name mimetype), w)
       | Some Dir => (Exc (OSError "Is a directory"), w)
       | None => (Exc (OSError "No such file or directory"), w)
       end.

Definition download_file (unique_id filename : string) : M response :=
  try_except
    (let filename := Werkzeug.secure_filename filename in
     let '(svc, mimetype, redirect_endpoint) := select_service filename in
     construct svc ;;;
     let file_path := get_file_path svc unique_id filename in
     e <- Os.path_exists file_path ;;
     if negb e then ret (Redirect redirect_endpoint "File not found or has expired.")
     else
       cleanup_processed_file svc file_path ;;;
       send_file file_path filename mimetype)
    (λ e, ret (Redirect "main.pdf_to_word" ("Error downloading file: " +:+ exn_str e))).

End Routes.
End Routes.

(** ** Concrete libraries, uploads and states, for the closed examples *)

Module Demo.

Definition libs : Libs := {|
  pdf_write_size := λ ps, (100 + 50 * N.of_nat (length ps))%N;
  strip_annotations := λ p, p;
  fitz_available := true;
  fitz_rasterize := λ d _ _,
    match pdf_pages d with
    | Some ps => Some (FileData (nbytes d `div` 2 + 1) (Some ps) None)
    | None => None
    end;
  pdf2docx_available := true;
  pdf2docx_convert := λ d,
    match pdf_pages d with
    | Some _ => Some (FileData (nbytes d) None None)
    | None => None
    end;
  docx_render := λ d, Some (FileData (nbytes d) (Some [SourcePage 0]) None);
  reportlab_available := true;
  zip_size := λ es, (22 + 100 * N.of_nat (length es))%N
|}.

(** Libraries whose rasteriser doubles the size of a document. *)
Definition inflating_libs : Libs := {|
  pdf_write_size := pdf_write_size libs;
  strip_annotations := strip_annotations libs;
  fitz_available := true;
  fitz_rasterize := λ d _ _,
    match pdf_pages d with
    | Some ps => Some (FileData (2 * nbytes d + 1) (Some ps) None)
    | None => None
    end;
  pdf2docx_available := true;
  pdf2docx_convert := pdf2docx_convert libs;
  docx_render := docx_render libs;
  reportlab_available := true;
  zip_size := zip_size libs
|}.

(** An upload folder that exists and is empty. *)
Definition w0 : world := World {[ "uploads" := Dir ]} ∅ [] [].

Definition pdf3 : file_data :=
  FileData 1000 (Some [SourcePage 1; SourcePage 2; SourcePage 3]) None.
Definition pdf6 : file_data :=
  FileData 2000 (Some (SourcePage <$> [1; 2; 3; 4; 5; 6]%N)) None.

Definition a_pdf : upload := Upload "a.pdf" pdf3 1.
Definition b_pdf : upload := Upload "b b.PDF" pdf6 2.
Definition big_txt : upload := Upload "scan.txt" (FileData 20000000 None None) 3.
Definition big_docx : upload := Upload "Thesis.DOCX" (FileData 20000000 None None) 4.
Definition tall_png : upload := Upload "tall.png" (FileData 10 None (Some (100, 200))) 5.
Definition wide_jpg : upload := Upload "wide.jpg" (FileData 10 None (Some (300, 200))) 6.

(** A job directory that still holds a result. *)
Definition w_job : world :=
  World {[ "uploads" := Dir; "uploads/j1" := Dir; "uploads/j1/out.pdf" := File pdf3 ]}
        ∅ [] [].

(** The same, beside a file the OS refuses to delete. *)
Definition w_locked : world :=
  World {[ "uploads" := Dir; "uploads/j1" := Dir; "uploads/j1/out.pdf" := File pdf3;
           "uploads/locked.pdf" := File pdf3 ]}
        {[ "uploads/locked.pdf" ]} [] [].

(** A job directory with a staged six-page document. *)
Definition w_staged : world :=
  World {[ "uploads" := Dir; "uploads/j1" := Dir; "uploads/j1/temp_0_a.pdf" := File pdf6 ]}
        ∅ [] [].

Definition broken_pdf : upload := Upload "c.pdf" (FileData 5 None None) 7.
Definition nameless : upload := Upload "" (FileData 3 None None) 8.

(** Libraries without PyMuPDF and without reportlab. *)
Definition bare_libs : Libs := {|
  pdf_write_size := pdf_write_size Demo.libs;
  strip_annotations := strip_annotations Demo.libs;
  fitz_available := false;
  fitz_rasterize := fitz_rasterize Demo.libs;
  pdf2docx_available := false;
  pdf2docx_convert := pdf2docx_convert Demo.libs;
  docx_render := docx_render Demo.libs;
  reportlab_available := false;
  zip_size := zip_size Demo.libs
|}.

End Demo.

(** * Vocabulary of the properties *)

(** What one round of the loop of [delayed_cleanup] does to the state. *)
Definition cleanup_effect (p : string) (w : world) : world :=
  if decide (p ∈ faults w) then w
  else match fs w !! p with
       | Some (File _) => set_fs (delete p) w
       | Some Dir =>
           match Os.entries (fs w) p with
           | [] => set_fs (delete p) w
           | _ :: _ => w
           end
       | None => w
       end.

(** A path that can be deleted: a regular file, or a directory without
    entries. *)
Definition deletable (m : gmap string node) (p : string) : Prop :=
  match m !! p with
  | Some (File _) => True
  | Some Dir => Os.entries m p = []
  | None => False
  end.

(** The state after [p] has been written with [d]. *)
Definition after_write (p : string) (d : file_data) (w : world) : world :=
  World (<[p := File d]> (fs w)) (faults w) (threads w) (written w ++ [(p, d)]).

(** What it takes for a write to [p] to succeed. *)
Definition can_write (w : world) (p : string) : Prop :=
  (p ∉ faults w) ∧ fs w !! p ≠ Some Dir ∧ Os.parent_ok (fs w) p = true.

(** A file as one of the compression methods writes it: what PyMuPDF
    rasterised, or what PyPDF2 wrote. *)
Definition lib_output (L : Libs) (d' : file_data) : Prop :=
  (∃ d q dpi, fitz_rasterize L d q dpi = Some d') ∨ (∃ ps, d' = pdf_file L ps).

(** Where [compress_pdf] stages the upload and writes its result. *)
Definition compress_temp_path (uid : string) (file : upload) : string :=
  OsPath.join PDFCompressorService.upload_folder
    ("temp_" +:+ uid +:+ "_" +:+ Werkzeug.secure_filename (filename file)).

Definition compress_output_name (file : upload) (output_filename : string) : string :=
  Werkzeug.secure_filename
    (if negb (truthy output_filename)
        || bool_decide (PyStr.strip PyStr.is_space (PyStr.to_chars output_filename) = [])
     then (OsPath.splitext (filename file)).1 +:+ "_compressed.pdf"
     else if negb (PyStr.endswith output_filename ".pdf")
     then output_filename +:+ ".pdf"
     else output_filename).

Definition compress_output_path (uid : string) (file : upload) (output_filename : string)
    : string :=
  OsPath.join PDFCompressorService.upload_folder
    (uid +:+ "_" +:+ compress_output_name file output_filename).

(** The path of the output for the page of 0-based index [page_num]. *)
Definition page_path (temp_dir output_filename : string) (page_num : Z) : string :=
  OsPath.join temp_dir
    (output_filename +:+ "-page-" +:+ PyStr.str_of_Z (page_num + 1) +:+ ".pdf").

(** The specification of a range token, in the words of the design: a
    token is an integer pair "a-b" or a single integer "n". *)
Definition token_pair (tok : string) : option (Z * Z) :=
  if PyStr.has_char "-"%char (PyStr.to_chars tok) then
    match PyStr.split_on "-"%char (PyStr.to_chars tok) with
    | [a; b] =>
        match PyStr.int_chars a, PyStr.int_chars b with
        | Some a, Some b => Some (a, b)
        | _, _ => None
        end
    | _ => None
    end
  else None.

Definition token_single (tok : string) : option Z :=
  if PyStr.has_char "-"%char (PyStr.to_chars tok) then None else PyStr.int tok.

(** The 1-based inclusive range a token stands for on a document of
    [P] pages: "a-b" has [a] clamped up to 1 and [b] clamped down to [P]
    and is rejected when [a > b] after clamping; "n" is rejected outside
    [1, P]; anything else is rejected. *)
Definition spec_range (P : Z) (tok : string) : option (Z * Z) :=
  match token_pair tok with
  | Some (a, b) =>
      let a := Z.max 1 a in
      let b := Z.min P b in
      if b <? a then None else Some (a, b)
  | None =>
      match token_single tok with
      | Some n => if (n <? 1) || (P <? n) then None else Some (n, n)
      | None => None
      end
  end.

(** Pages [a] through [b] of a document, 1-based inclusive. *)
Definition range_pages (pages : list page) (a b : Z) : list page :=
  take (Z.to_nat (b - a + 1)) (drop (Z.to_nat (a - 1)) pages).

(** The description of the range in the name of the output. *)
Definition range_desc (tok : string) (a b : Z) : string :=
  if PyStr.has_char "-"%char (PyStr.to_chars tok)
  then "pages-" +:+ PyStr.str_of_Z a +:+ "-to-" +:+ PyStr.str_of_Z b
  else "page-" +:+ PyStr.str_of_Z a.

Definition range_path (temp_dir output_filename tok : string) (a b : Z) : string :=
  OsPath.join temp_dir (output_filename +:+ "-" +:+ range_desc tok a b +:+ ".pdf").

(** What an accepted token writes: the path and the document. *)
Definition range_output (L : Libs) (pages : list page) (temp_dir output_filename tok : string)
    : option (string * file_data) :=
  match spec_range (Z.of_nat (length pages)) tok with
  | Some (a, b) =>
      Some (range_path temp_dir output_filename tok a b, pdf_file L (range_pages pages a b))
  | None => None
  end.

(** The outputs of a list of accepted tokens, in order. *)
Definition range_outputs (L : Libs) (pages : list page) (temp_dir output_filename : string)
    (toks : list string) : list (string * file_data) :=
  omap (range_output L pages temp_dir output_filename) toks.

(** What [_split_into_ranges] answers for a rejected token. *)
Definition reject_message (P : Z) (tok : string) : string :=
  match token_pair tok with
  | Some _ => "Invalid range: " +:+ tok +:+ " (start > end)"
  | None =>
      match token_single tok with
      | Some n =>
          "Invalid page number: " +:+ PyStr.str_of_Z n
          +:+ " (valid range: 1-" +:+ PyStr.str_of_Z P +:+ ")"
      | None => "Invalid page range format: " +:+ tok
      end
  end.

(** The state after a list of writes that succeed. *)
Definition after_writes (l : list (string * file_data)) (w : world) : world :=
  foldl (λ w e, after_write e.1 e.2 w) w l.

(** The filesystem after a list of writes. *)
Definition apply_writes (m : gmap string node) (l : list (string * file_data))
    : gmap string node :=
  foldl (λ m e, <[e.1 := File e.2]> m) m l.

(** Where the image service stages an upload. *)
Definition image_temp_path (uid : string) (file : upload) : string :=
  OsPath.join ImageToPDFService.upload_folder
    ("temp_" +:+ uid +:+ "_" +:+ Werkzeug.secure_filename (filename file)).

(** The area inside the margins, in floats. *)
Definition available (margin : Z) : PyFloat.float * PyFloat.float :=
  (PyFloat.sub ImageToPDFService.page_width (PyFloat.of_int (2 * margin)),
   PyFloat.sub ImageToPDFService.page_height (PyFloat.of_int (2 * margin))).

(** The drawing [place_image] computes for the image of an upload, in a
    given area and in the area inside the margins. *)
Definition placed_in (margin : Z) (area : PyFloat.float * PyFloat.float)
    (file : upload) (d : drawing) : Prop :=
  ∃ iw ih, image_size (stream file) = Some (iw, ih)
           ∧ ∀ w0, ImageToPDFService.place_image margin area.1 area.2 iw ih w0
                   = (Val d, w0).
Definition placed (margin : Z) : upload → drawing → Prop :=
  placed_in margin (available margin).

(** A computation that neither reads nor changes the state. *)
Definition stateless {A} (m : M A) : Prop := ∃ r, ∀ w, m w = (r, w).

(** The formulas of the layout with a margin (lines 153-162), over a type
    of numbers: the floats of the program, or the rationals, in which the
    formulas are exact. *)
Record arithmetic (T : Type) := Arithmetic {
  num : Z → T;
  plus : T → T → T;
  minus : T → T → T;
  times : T → T → T;
  over : T → T → T;
  least : T → T → T
}.
Arguments num {T}. Arguments plus {T}. Arguments minus {T}.
Arguments times {T}. Arguments over {T}. Arguments least {T}.

Definition float_arithmetic : arithmetic PyFloat.float :=
  Arithmetic PyFloat.float PyFloat.of_int PyFloat.add PyFloat.sub PyFloat.mul PyFloat.div
    PyFloat.min.

Record layout (T : Type) := Layout {
  layout_x : T; layout_y : T; layout_width : T; layout_height : T
}.
Arguments Layout {T}. Arguments layout_x {T}. Arguments layout_y {T}.
Arguments layout_width {T}. Arguments layout_height {T}.

Definition margin_layout {T} (A : arithmetic T) (page_width page_height : T)
    (margin img_width img_height : Z) : layout T :=
  let available_width := minus A page_width (num A (2 * margin)) in
  let available_height := minus A page_height (num A (2 * margin)) in
  let width_ratio := over A available_width (num A img_width) in
  let height_ratio := over A available_height (num A img_height) in
  let scale_ratio := least A width_ratio height_ratio in
  let final_width := times A (num A img_width) scale_ratio in
  let final_height := times A (num A img_height) scale_ratio in
  Layout
    (plus A (num A margin) (over A (minus A available_width final_width) (num A 2)))
    (plus A (num A margin) (over A (minus A available_height final_height) (num A 2)))
    final_width final_height.

(** An integer that has a finite float. *)
Definition convertible (z : Z) : Prop := PyFloat.is_finite (PyFloat.of_int z) = true.

(** One round of the drawing loop, on the canvas. *)
Definition draw_step (last_id : option nat) (c : canvas) (fd : upload * drawing) : canvas :=
  if bool_decide (Some (obj_id fd.1) ≠ last_id)
  then ImageToPDFService.showPage (ImageToPDFService.drawImage c fd.2)
  else ImageToPDFService.drawImage c fd.2.

(** A name without separator that has a character other than a dot: it
    is not empty and is neither [.] nor [..]. *)
Definition entry_name (n : PyStr.chars) : Prop :=
  PyStr.has_char OsPath.sep n = false ∧ ∃ c, c ∈ n ∧ c ≠ "."%char.

(** A letter or digit of a filename survives [secure_filename]. *)
Definition is_alnum (c : ascii) : bool :=
  PyStr.is_upper c || PyStr.is_lower c || PyStr.is_digit c.

(** From [w] to [w'] the log of writes grew by files whose paths satisfy [P]. *)
Definition log_extends (P : string → Prop) (w w' : world) : Prop :=
  ∃ new, written w' = written w ++ new ∧ Forall (λ e, P e.1) new.

(** Whatever it returns, [m] writes only files whose paths satisfy [P]. *)
Definition writes_only {A} (P : string → Prop) (m : M A) : Prop :=
  ∀ w, log_extends P w (m w).2.

(** The directory of a job, and the paths directly inside it. *)
Definition job_dir (cfg : config) (uid : string) : string :=
  OsPath.join (UPLOAD_FOLDER cfg) uid.

Definition in_job_dir (cfg : config) (uid : string) (p : string) : Prop :=
  OsPath.child_of (job_dir cfg uid) p = true.

(** The flat layout of the compressor and image services: a staged copy
    is [uploads/temp_<uid>_<name>], a result is [uploads/<uid>_<name>], for
    a sanitised [name]. *)
Definition flat_staged (uid : string) (p : string) : Prop :=
  ∃ raw, p = OsPath.join (UPLOAD_FOLDER default_config)
               ("temp_" +:+ uid +:+ "_" +:+ Werkzeug.secure_filename raw).

Definition flat_result (uid : string) (p : string) : Prop :=
  ∃ raw, p = OsPath.join (UPLOAD_FOLDER default_config)
               (uid +:+ "_" +:+ Werkzeug.secure_filename raw).

Definition in_flat_layout (uid : string) (p : string) : Prop :=
  flat_staged uid p ∨ flat_result uid p.

(** The name [convert_file] gives the Word document. *)
Definition docx_name (o : string) : string :=
  if PyStr.endswith o ".docx" then o else (OsPath.splitext o).1 +:+ ".docx".

(** Where [save_uploaded_files] stages the upload at position [i] of its
    argument. *)
Definition staged_path (temp_dir : string) (i : Z) (file : upload) : string :=
  OsPath.join temp_dir
    ("temp_" +:+ PyStr.str_of_Z i +:+ "_" +:+ Werkzeug.secure_filename (filename file)).

(** The uploads of a list that have a name, each with its position. *)
Definition named_from (i : Z) (files : list upload) : list (Z * upload) :=
  filter (λ e, filename e.2 ≠ "") (imap (λ n f, (i + Z.of_nat n, f)) files).

(** What staging them writes: the path and the bytes. *)
Definition staged_write (temp_dir : string) (e : Z * upload) : string * file_data :=
  (staged_path temp_dir e.1 e.2, stream e.2).

(** A directory path as the services use it: not empty and without a
    trailing separator. *)
Definition plain_dir (d : string) : Prop :=
  PyStr.to_chars d ≠ [] ∧ PyStr.endswith_chars [OsPath.sep] (PyStr.to_chars d) = false.

Definition delete_all (paths : list string) (m : gmap string node) : gmap string node :=
  foldl (λ m p, delete p m) m paths.

(** The state in which a job with identifier [uid] starts: the upload
    folder exists, the job directory and everything below it does not,
    and the OS refuses nothing there. *)
Definition fresh_job (cfg : config) (uid : string) (w : world) : Prop :=
  plain_dir (UPLOAD_FOLDER cfg)
  ∧ entry_name (PyStr.to_chars uid)
  ∧ fs w !! UPLOAD_FOLDER cfg = Some Dir
  ∧ fs w !! job_dir cfg uid = None
  ∧ (job_dir cfg uid ∉ faults w)
  ∧ ∀ k, OsPath.dirname k = job_dir cfg uid → fs w !! k = None ∧ k ∉ faults w.

(** The state after the uploads [files] have been staged in the job
    directory. *)
Definition staged_world (cfg : config) (uid : string) (files : list upload) (w : world)
    : world :=
  let st := staged_write (job_dir cfg uid) <$> named_from 0 files in
  World (apply_writes (<[job_dir cfg uid := Dir]> (fs w)) st) (faults w) (threads w)
        (written w ++ st).

(** What a started thread does when it runs, after its sleep: the
    [delayed_cleanup] closure of [cleanup_files], or the [cleanup] closure
    of the compressor and image services. *)
Definition run_thread (t : thread) : M unit :=
  match t with
  | CleanupThread _ paths => Utils.delayed_cleanup paths
  | RemoveFileThread _ path =>
      try_except
        (e <- Os.path_exists path ;;
         if e : bool then Os.remove path else ret tt)
        (λ _, ret tt)
  end.

(** The names the download endpoint resolves in the flat layout of the
    image and compressor services. *)
Definition flat_routed (name : string) : bool :=
  negb (PyStr.endswith name ".docx")
  && (PyStr.startswith name "images-to-pdf" || PyStr.contains "compressed" name).

(** The state the constructor of the service picked for [name] leaves:
    the image and compressor services create their upload folder, that of
    the default configuration, when it does not exist. *)
Definition ensure_uploads (w : world) : world :=
  if bool_decide (is_Some (Os.lookup (fs w) (UPLOAD_FOLDER default_config))) then w
  else set_fs (insert (UPLOAD_FOLDER default_config) Dir) w.
Definition constructed (name : string) (w : world) : world :=
  if flat_routed name then ensure_uploads w else w.

(** The state after a thread has been started. *)
Definition with_thread (t : thread) (w : world) : world :=
  World (fs w) (faults w) (threads w ++ [t]) (written w).

(** The thread the download endpoint starts for the file at [path]. *)
Definition download_thread (cfg : config) (name path : string) : thread :=
  if flat_routed name then RemoveFileThread 5 path
  else CleanupThread (CLEANUP_DELAY cfg) [path; OsPath.dirname path].

(** The uploads of the image service as it stages them. *)
Definition image_staged (uid : string) (files : list upload) : list (string * file_data) :=
  (λ f, (image_temp_path uid f, stream f)) <$> files.

(** The uploads the image service accepts. *)
Definition valid_images (files : list upload) : list upload :=
  filter (λ f, truthy (filename f) && ImageToPDFService.is_allowed_file (filename f) = true)
         files.

(** The name and the path of the result of the image service. *)
Definition image_output_name (uid output_filename : string) : string :=
  Werkzeug.secure_filename
    (if negb (truthy output_filename)
        || bool_decide (PyStr.strip PyStr.is_space (PyStr.to_chars output_filename) = [])
     then "images-to-pdf-" +:+ PyStr.of_chars (take 8 (PyStr.to_chars uid)) +:+ ".pdf"
     else if negb (PyStr.endswith output_filename ".pdf")
     then output_filename +:+ ".pdf"
     else output_filename).

Definition image_output_path (uid output_filename : string) : string :=
  OsPath.join ImageToPDFService.upload_folder
    (uid +:+ "_" +:+ image_output_name uid output_filename).

(** The document the reportlab method saves for the drawings [ds] of the
    uploads [files]. *)
Definition canvas_document (L : Libs) (files : list upload) (ds : list drawing) : file_data :=
  pdf_file L (CanvasPage <$> ImageToPDFService.saved_pages
                (foldl (draw_step (obj_id <$> last files)) (Canvas [] []) (zip files ds))).

(** * Sanity checks of the embedding *)

Example lower_ex : PyStr.lower "Report.DOCX" = "report.docx".
Proof. reflexivity. Qed.
Example int_ex1 : PyStr.int " 12 " = Some 12.
Proof. vm_compute. reflexivity. Qed.
Example int_ex2 : PyStr.int "1_000" = Some 1000.
Proof. vm_compute. reflexivity. Qed.
Example int_ex3 : PyStr.int "" = None.
Proof. vm_compute. reflexivity. Qed.
Example int_ex4 : PyStr.int "4x" = None.
Proof. vm_compute. reflexivity. Qed.
Example int_ex5 : PyStr.int (String "028" "5") = None.
Proof. vm_compute. reflexivity. Qed.
Example int_ex6 : PyStr.strip PyStr.is_space (PyStr.to_chars (String "028" "5")) = PyStr.to_chars "5".
Proof. vm_compute. reflexivity. Qed.
Example int_ex7 : PyStr.int_chars (repeat "9"%char 4300) = Some (10 ^ 4300 - 1).
Proof. vm_compute. reflexivity. Qed.
Example int_ex8 : PyStr.int_chars (repeat "9"%char 4301) = None.
Proof. vm_compute. reflexivity. Qed.
Example int_ex9 : PyStr.int_chars ("-"%char :: repeat "0"%char 4301) = None.
Proof. vm_compute. reflexivity. Qed.
Example float_ex1 : PyFloat.of_int 72 = S754_finite false 5066549580791808 (-46).
Proof. vm_compute. reflexivity. Qed.
Example float_ex2 :
  ImageToPDFService.page_width = S754_finite false 5236099468337991 (-43)
  ∧ ImageToPDFService.page_height = S754_finite false 7405340676649445 (-43).
Proof. split; vm_compute; reflexivity. Qed.
Example float_ex3 :
  (PyFloat.to_Q ImageToPDFService.page_width == 5236099468337991 # 8796093022208)%Q.
Proof. vm_compute. reflexivity. Qed.
Example float_ex4 : float_of_int (2 ^ 1024) Demo.w0
                    = (Exc (OverflowError "int too large to convert to float"), Demo.w0).
Proof. vm_compute. reflexivity. Qed.
Example lookup_ex1 : Os.lookup (fs Demo.w_job) "uploads/j1/" = Some Dir.
Proof. vm_compute. reflexivity. Qed.
Example lookup_ex2 : Os.lookup (fs Demo.w_job) "uploads/j2/" = None.
Proof. vm_compute. reflexivity. Qed.
Example split_ex : PyStr.split_on "-" (PyStr.to_chars "1-3") = [PyStr.to_chars "1"; PyStr.to_chars "3"].
Proof. vm_compute. reflexivity. Qed.
Example split_ex2 : PyStr.split_on "-" (PyStr.to_chars "-3") = [[]; PyStr.to_chars "3"].
Proof. vm_compute. reflexivity. Qed.
Example split_ws_ex : PyStr.split_ws (PyStr.to_chars "  my  file ") = [PyStr.to_chars "my"; PyStr.to_chars "file"].
Proof. vm_compute. reflexivity. Qed.
Example str_of_Z_ex : PyStr.str_of_Z 12 = "12".
Proof. vm_compute. reflexivity. Qed.
Example endswith_ex : PyStr.endswith "a.pdf" ".pdf" = true.
Proof. vm_compute. reflexivity. Qed.
Example contains_ex : PyStr.contains "split" "x-split.zip" = true.
Proof. vm_compute. reflexivity. Qed.
Example join_ex : OsPath.join3 "uploads" "j1" "out.pdf" = "uploads/j1/out.pdf".
Proof. vm_compute. reflexivity. Qed.
Example join_abs_ex : OsPath.join "uploads" "/etc/passwd" = "/etc/passwd".
Proof. vm_compute. reflexivity. Qed.
Example dirname_ex : OsPath.dirname "uploads/j1/out.pdf" = "uploads/j1".
Proof. vm_compute. reflexivity. Qed.
Example dirname_ex2 : OsPath.dirname "out.pdf" = "".
Proof. vm_compute. reflexivity. Qed.
Example splitext_ex : OsPath.splitext "report.final.docx" = ("report.final", ".docx").
Proof. vm_compute. reflexivity. Qed.
Example splitext_ex2 : OsPath.splitext ".docx" = (".docx", "").
Proof. vm_compute. reflexivity. Qed.
Example child_ex : OsPath.child_of "uploads/j1" "uploads/j1/out.pdf" = true.
Proof. vm_compute. reflexivity. Qed.
Example child_ex2 : OsPath.child_of "uploads/j1" "uploads/j1_out.pdf" = false.
Proof. vm_compute. reflexivity. Qed.
Example secure_ex : Werkzeug.secure_filename "../../etc/my file?.pdf" = "etc_my_file.pdf".
Proof. vm_compute. reflexivity. Qed.
Example secure_ex2 : Werkzeug.secure_filename "a b.pdf" = "a_b.pdf".
Proof. vm_compute. reflexivity. Qed.

(** * Properties *)

(** ** Strings and paths *)

Section StringFacts.
Import PyStr.

Lemma to_of_chars l : to_chars (of_chars l) = l.
Proof. apply list_ascii_of_string_of_list_ascii. Qed.

Lemma of_to_chars s : of_chars (to_chars s) = s.
Proof. apply string_of_list_ascii_of_string. Qed.

Lemma to_chars_app s t : to_chars (s +:+ t) = to_chars s ++ to_chars t.
Proof. induction s as [|a s IH]; simpl; [done|]. by rewrite IH. Qed.

Lemma of_chars_app l k : of_chars (l ++ k) = of_chars l +:+ of_chars k.
Proof. induction l as [|a l IH]; simpl; [done|]. by rewrite IH. Qed.

Lemma to_chars_inj s t : to_chars s = to_chars t → s = t.
Proof. intros H. by rewrite <- (of_to_chars s), <- (of_to_chars t), H. Qed.

Lemma strip_prefix_app p s : strip_prefix p (p ++ s) = Some s.
Proof. induction p as [|a p IH]; simpl; [done|]. by rewrite decide_True. Qed.

Lemma strip_prefix_Some p s r : strip_prefix p s = Some r → s = p ++ r.
Proof.
  revert s; induction p as [|a p IH]; intros [|b s]; simpl; try congruence.
  case_decide; [|done]. intros Hr%IH. by subst.
Qed.

Lemma lstrip_suffix p s : ∃ d, s = d ++ lstrip p s ∧ Forall (λ c, p c = true) d.
Proof.
  induction s as [|x s [d [Hd Hp]]]; simpl.
  - by exists [].
  - destruct (p x) eqn:Hx.
    + exists (x :: d). split; [by rewrite Hd at 1|by constructor].
    + by exists [].
Qed.

Lemma lstrip_id p s : (∀ x t, s = x :: t → p x = false) → lstrip p s = s.
Proof. destruct s as [|x s]; simpl; [done|]. intros H. by rewrite (H x s). Qed.

Lemma lstrip_head p s x t : lstrip p s = x :: t → p x = false.
Proof.
  induction s as [|y s IH]; simpl; [done|].
  destruct (p y) eqn:Hy; [done|]. by intros [= <- _].
Qed.

Lemma lstrip_idemp p s : lstrip p (lstrip p s) = lstrip p s.
Proof. apply lstrip_id. intros x t. apply lstrip_head. Qed.

Lemma rstrip_prefix p s : ∃ d, s = rstrip p s ++ d ∧ Forall (λ c, p c = true) d.
Proof.
  destruct (lstrip_suffix p (reverse s)) as [d [Hd Hp]].
  exists (reverse d). split.
  - unfold rstrip. rewrite <- reverse_app, <- Hd. by rewrite reverse_involutive.
  - by apply Forall_reverse.
Qed.

Lemma rstrip_idemp p s : rstrip p (rstrip p s) = rstrip p s.
Proof. unfold rstrip. by rewrite reverse_involutive, lstrip_idemp. Qed.

Lemma lstrip_rstrip p s : lstrip p s = s → lstrip p (rstrip p s) = rstrip p s.
Proof.
  intros Hs. apply lstrip_id. intros x t Hx.
  destruct (rstrip_prefix p s) as [d [Hd _]].
  rewrite Hx in Hd. simpl in Hd.
  apply (lstrip_head p s x (t ++ d)). by rewrite Hs.
Qed.

Lemma strip_fixed p s : lstrip p (strip p s) = strip p s ∧ rstrip p (strip p s) = strip p s.
Proof.
  unfold strip. split; [|apply rstrip_idemp].
  apply lstrip_rstrip, lstrip_idemp.
Qed.

Lemma strip_id p s : lstrip p s = s → rstrip p s = s → strip p s = s.
Proof. unfold strip. by intros -> ->. Qed.

Lemma lstrip_Forall (P : ascii → Prop) p s : Forall P s → Forall P (lstrip p s).
Proof.
  destruct (lstrip_suffix p s) as [d [Hd _]]. intros H.
  rewrite Hd in H. by apply Forall_app in H as [_ ?].
Qed.

Lemma rstrip_Forall (P : ascii → Prop) p s : Forall P s → Forall P (rstrip p s).
Proof.
  destruct (rstrip_prefix p s) as [d [Hd _]]. intros H.
  rewrite Hd in H. by apply Forall_app in H as [? _].
Qed.

Lemma strip_Forall (P : ascii → Prop) p s : Forall P s → Forall P (strip p s).
Proof. intros. by apply rstrip_Forall, lstrip_Forall. Qed.

Lemma split_ws_go_nospace cur s :
  Forall (λ c, is_space c = false) s →
  split_ws_go (Some cur) s = [reverse cur ++ s].
Proof.
  revert cur; induction s as [|x s IH]; intros cur H; simpl.
  - by rewrite app_nil_r.
  - inversion H as [|?? Hx Hs]; subst. rewrite Hx, IH by done.
    simpl. by rewrite reverse_cons, <- app_assoc.
Qed.

Lemma split_ws_nospace s :
  Forall (λ c, is_space c = false) s →
  split_ws s = match s with [] => [] | _ => [s] end.
Proof.
  destruct s as [|x s]; [done|]. intros H.
  inversion H as [|?? Hx Hs]; subst.
  unfold split_ws; simpl. rewrite Hx. simpl.
  by rewrite split_ws_go_nospace.
Qed.

Lemma join_split_ws_nospace sep s :
  Forall (λ c, is_space c = false) s → join sep (split_ws s) = s.
Proof. intros H. rewrite split_ws_nospace by done. by destruct s. Qed.

End StringFacts.

(** ** [secure_filename] *)

Section SecureFacts.
Import PyStr Werkzeug.

Lemma filename_char_ascii c : filename_char c = true → is_ascii c = true.
Proof. destruct c as [[] [] [] [] [] [] [] []]; vm_compute; congruence. Qed.

Lemma filename_char_not_sep c : filename_char c = true → c ≠ OsPath.sep.
Proof. destruct c as [[] [] [] [] [] [] [] []]; vm_compute; congruence. Qed.

Lemma filename_char_not_space c : filename_char c = true → is_space c = false.
Proof. destruct c as [[] [] [] [] [] [] [] []]; vm_compute; congruence. Qed.

Lemma filter_Forall_id {A} (P : A → Prop) `{!∀ x, Decision (P x)} (l : list A) :
  Forall P l → filter P l = l.
Proof.
  induction 1 as [|x l Hx Hl IH]; [done|].
  by rewrite filter_cons_True, IH.
Qed.

Lemma Forall_filter_self {A} (P : A → Prop) `{!∀ x, Decision (P x)} (l : list A) :
  Forall P (filter P l).
Proof. apply Forall_forall. intros x Hx. by apply list_elem_of_filter in Hx as [? _]. Qed.

Lemma secure_chars_allowed s : Forall (λ c, filename_char c = true) (secure_chars s).
Proof. unfold secure_chars. apply strip_Forall, Forall_filter_self. Qed.

Lemma secure_chars_stripped s :
  lstrip dot_or_underscore (secure_chars s) = secure_chars s
  ∧ rstrip dot_or_underscore (secure_chars s) = secure_chars s.
Proof. unfold secure_chars. apply strip_fixed. Qed.

Lemma secure_chars_fixed r :
  Forall (λ c, filename_char c = true) r →
  lstrip dot_or_underscore r = r → rstrip dot_or_underscore r = r →
  secure_chars r = r.
Proof.
  intros Hall Hl Hr. unfold secure_chars.
  rewrite (filter_Forall_id (λ c, is_ascii c = true)); last first.
  { eapply Forall_impl; [exact Hall|]. apply filename_char_ascii. }
  replace (map _ r) with r; last first.
  { clear Hl Hr. induction Hall as [|c r Hc Hall IH]; [done|]. simpl.
    rewrite decide_False by by apply filename_char_not_sep. by rewrite <- IH. }
  rewrite join_split_ws_nospace; last first.
  { eapply Forall_impl; [exact Hall|]. apply filename_char_not_space. }
  rewrite (filter_Forall_id (λ c, filename_char c = true)) by done.
  by apply strip_id.
Qed.

Lemma secure_chars_idemp s : secure_chars (secure_chars s) = secure_chars s.
Proof.
  apply secure_chars_fixed; [apply secure_chars_allowed|apply secure_chars_stripped..].
Qed.

Lemma secure_filename_idemp s : secure_filename (secure_filename s) = secure_filename s.
Proof. unfold secure_filename. by rewrite to_of_chars, secure_chars_idemp. Qed.

Lemma secure_filename_no_sep s :
  has_char OsPath.sep (to_chars (secure_filename s)) = false.
Proof.
  unfold secure_filename. rewrite to_of_chars.
  pose proof (secure_chars_allowed (to_chars s)) as H.
  induction H as [|c r Hc _ IH]; [done|]. simpl. rewrite IH.
  rewrite bool_decide_eq_false_2; [done|]. by apply filename_char_not_sep.
Qed.

End SecureFacts.

(** ** The download endpoint resolves from the sanitised filename *)

(** C4, as stated, fails for the services that keep one directory per
    job: [PDFMergerService.get_file_path] joins the filename it is given. *)
Lemma C4_get_file_path_raw_counterexample :
  Routes.get_file_path default_config Merger "j1" "a b.pdf"
  ≠ Routes.get_file_path default_config Merger "j1" (Werkzeug.secure_filename "a b.pdf").
Proof. vm_compute. discriminate. Qed.

(** C4, amended: [download_file] sanitises the filename before it asks any
    service for the path, so the resolved path is a function of the job
    identifier and the sanitised filename; on a sanitised filename every
    service computes the path it computes on its sanitisation; and the
    compressor and image services sanitise by themselves, on every raw
    filename. *)
Theorem C4_download_path_from_sanitized_filename
    (cfg : config) (unique_id raw : string) :
  let f := Werkzeug.secure_filename raw in
  Routes.download_path cfg unique_id raw
    = Routes.get_file_path cfg (Routes.select_service f).1.1 unique_id f
  ∧ Routes.download_path cfg unique_id raw = Routes.download_path cfg unique_id f
  ∧ (∀ svc, Routes.get_file_path cfg svc unique_id f
            = Routes.get_file_path cfg svc unique_id (Werkzeug.secure_filename f))
  ∧ Routes.get_file_path cfg Compressor unique_id raw
    = Routes.get_file_path cfg Compressor unique_id f
  ∧ Routes.get_file_path cfg ImageToPDF unique_id raw
    = Routes.get_file_path cfg ImageToPDF unique_id f
  ∧ (∀ w, Routes.download_file cfg unique_id raw w
          = Routes.download_file cfg unique_id f w).
Proof.
  intros f. subst f. repeat split.
  - unfold Routes.download_path. by rewrite secure_filename_idemp.
  - intros svc. by rewrite secure_filename_idemp.
  - simpl. unfold PDFCompressorService.get_file_path. by rewrite secure_filename_idemp.
  - simpl. unfold ImageToPDFService.get_file_path. by rewrite secure_filename_idemp.
  - intros w. unfold Routes.download_file. by rewrite secure_filename_idemp.
Qed.

(** ** The size limit of the Word service *)

(** C10, as stated, fails on the message: the extension is checked before
    the size, so an oversized upload that is not a Word document is
    rejected as an invalid file type. *)
Lemma C10_oversized_non_word_counterexample :
  WordToPDFService.max_size < WordToPDFService.file_size Demo.big_txt
  ∧ (WordToPDFService.convert_word_to_pdf default_config Demo.libs "j1" Demo.big_txt "" Demo.w0).1
    = Val (Failure "Invalid file type. Please upload a Word document (.docx or .doc)")
  ∧ (WordToPDFService.convert_word_to_pdf default_config Demo.libs "j1" Demo.big_txt "" Demo.w0).1
    ≠ Val (Failure "File size too large. Maximum allowed size is 16MB.").
Proof. vm_compute. repeat split; congruence. Qed.

Lemma validate_word_file_oversized (file : upload) :
  WordToPDFService.max_size < WordToPDFService.file_size file →
  ∃ msg,
    WordToPDFService._validate_word_file [file] = Failure msg
    ∧ (filename file ≠ "" →
       (OsPath.splitext (PyStr.lower (filename file))).2 ∈ [".docx"; ".doc"] →
       msg = "File size too large. Maximum allowed size is 16MB.").
Proof.
  intros Hsize%Z.ltb_lt. unfold WordToPDFService._validate_word_file, truthy.
  destruct (decide (filename file = "")) as [He|Hne].
  { rewrite !bool_decide_eq_true_2 by done. simpl.
    eexists. split; [done|]. by intros ?. }
  rewrite !bool_decide_eq_false_2 by done. simpl.
  case_bool_decide as Hext; simpl.
  - rewrite Hsize. eauto.
  - eexists. split; [done|]. by intros _ ?.
Qed.

(** C10, amended: every upload of more than 16 * 1024 * 1024 bytes is
    rejected by [convert_word_to_pdf] itself with a validation failure and
    the state is untouched (no workspace, no staged file); the message is
    the size message whenever the upload has a name with a Word extension,
    the checks made before the size check. *)
Theorem C10_oversized_upload_rejected_before_staging
    (cfg : config) (L : Libs) (uid : string) (file : upload)
    (output_filename : string) (w : world) :
  WordToPDFService.max_size < WordToPDFService.file_size file →
  ∃ msg,
    WordToPDFService.convert_word_to_pdf cfg L uid file output_filename w
      = (Val (Failure msg), w)
    ∧ (filename file ≠ "" →
       (OsPath.splitext (PyStr.lower (filename file))).2 ∈ [".docx"; ".doc"] →
       msg = "File size too large. Maximum allowed size is 16MB.").
Proof.
  intros Hsize.
  destruct (validate_word_file_oversized file Hsize) as [msg [Hv Hmsg]].
  exists msg. split; [|exact Hmsg].
  unfold WordToPDFService.convert_word_to_pdf, try_except. by rewrite Hv.
Qed.

Lemma C10_oversized_upload_witness :
  ∃ msg,
    WordToPDFService.convert_word_to_pdf default_config Demo.libs "j1" Demo.big_docx "" Demo.w0
      = (Val (Failure msg), Demo.w0)
    ∧ (filename Demo.big_docx ≠ "" →
       (OsPath.splitext (PyStr.lower (filename Demo.big_docx))).2 ∈ [".docx"; ".doc"] →
       msg = "File size too large. Maximum allowed size is 16MB.").
Proof.
  apply (C10_oversized_upload_rejected_before_staging
           default_config Demo.libs "j1" Demo.big_docx "" Demo.w0).
  vm_compute. reflexivity.
Defined.

(** ** Unknown margin and compression-level names fall back to medium *)

Lemma margin_settings_unknown (s : string) :
  s ∉ ["none"; "small"; "medium"; "large"] → ImageToPDFService.MARGIN_SETTINGS !! s = None.
Proof. intros H. unfold ImageToPDFService.MARGIN_SETTINGS. by apply not_elem_of_list_to_map. Qed.

Lemma compression_settings_unknown (s : string) :
  s ∉ ["low"; "medium"; "high"] → PDFCompressorService.compression_settings !! s = None.
Proof.
  intros H. unfold PDFCompressorService.compression_settings.
  by apply not_elem_of_list_to_map.
Qed.

Lemma compress_advanced_unknown_level (L : Libs) (input_path output_path level : string) :
  level ∉ ["low"; "medium"; "high"] →
  PDFCompressorService._compress_with_advanced_method L input_path output_path level
  = PDFCompressorService._compress_with_advanced_method L input_path output_path "medium".
Proof.
  intros H. unfold PDFCompressorService._compress_with_advanced_method.
  rewrite (compression_settings_unknown level H).
  replace (PDFCompressorService.compression_settings !! "medium")
    with (Some (PDFCompressorService.compression_settings !!! "medium" : Z * Z))
    by reflexivity.
  done.
Qed.

(** ** Paths and the nodes they name *)

Lemma lookup_exact (m : gmap string node) (p : string) (n : node) :
  m !! p = Some n → Os.lookup m p = Some n.
Proof. unfold Os.lookup. by intros ->. Qed.

Lemma lookup_None (m : gmap string node) (p : string) :
  Os.lookup m p = None → m !! p = None.
Proof. unfold Os.lookup. by destruct (m !! p). Qed.


(** A path that does not end in a separator names what is stored under it. *)
Lemma lookup_plain (m : gmap string node) (p : string) :
  PyStr.endswith p "/" = false → Os.lookup m p = m !! p.
Proof. unfold Os.lookup. intros ->. by destruct (m !! p). Qed.

Lemma path_exists_exact (p : string) (w : world) (n : node) :
  fs w !! p = Some n → Os.path_exists p w = (Val true, w).
Proof.
  intros Hp. unfold Os.path_exists. rewrite (lookup_exact _ _ _ Hp).
  by rewrite bool_decide_eq_true_2.
Qed.

Lemma path_exists_plain (p : string) (w : world) :
  PyStr.endswith p "/" = false →
  Os.path_exists p w = (Val (bool_decide (is_Some (fs w !! p))), w).
Proof. intros Hp. unfold Os.path_exists. by rewrite lookup_plain. Qed.

Lemma path_exists_inv (p : string) (w w' : world) (b : bool) :
  Os.path_exists p w = (Val b, w') →
  w' = w ∧ (b = false → fs w !! p = None) ∧ (is_Some (fs w !! p) → b = true).
Proof.
  unfold Os.path_exists. intros [= <- <-]. split; [done|]. split.
  - intros Hb. apply bool_decide_eq_false in Hb. apply lookup_None.
    destruct (Os.lookup (fs w) p) eqn:H; [|done]. destruct Hb. by eexists.
  - intros [n Hn]. rewrite (lookup_exact _ _ _ Hn). by apply bool_decide_eq_true_2.
Qed.

(** ** [cleanup_files] *)

Lemma cleanup_round (p : string) (w : world) :
  try_except (Utils.cleanup_one p) (λ _, ret tt) w = (Val tt, cleanup_effect p w).
Proof.
  unfold try_except, Utils.cleanup_one, cleanup_effect, bind,
    Os.path_exists, Os.isfile, Os.isdir, Os.listdir, Os.remove, Os.rmdir, ret.
  destruct (fs w !! p) as [n|] eqn:Hp.
  2:{ case_bool_decide; simpl; rewrite ?Hp; by case_decide. }
  rewrite (lookup_exact _ _ _ Hp), bool_decide_eq_true_2 by by eexists.
  destruct (decide (p ∈ faults w)) as [Hf|Hf]; destruct n as [d|]; simpl;
    rewrite ?Hp, ?(decide_True _ _ Hf), ?(decide_False _ _ Hf); simpl; try done.
  destruct (Os.entries (fs w) p) eqn:He; simpl; [|done].
  by rewrite (decide_False _ _ Hf), Hp, He.
Qed.

Lemma delayed_cleanup_fold (paths : list string) (w : world) :
  Utils.delayed_cleanup paths w = (Val tt, foldl (λ w p, cleanup_effect p w) w paths).
Proof.
  revert w. induction paths as [|p paths IH]; intros w; [done|].
  unfold Utils.delayed_cleanup in *. simpl. unfold bind at 1.
  by rewrite cleanup_round, IH.
Qed.

Lemma cleanup_effect_faults p w : faults (cleanup_effect p w) = faults w.
Proof. unfold cleanup_effect. repeat case_match; done. Qed.

Lemma cleanup_effect_threads p w : threads (cleanup_effect p w) = threads w.
Proof. unfold cleanup_effect. repeat case_match; done. Qed.

Lemma cleanup_effect_written p w : written (cleanup_effect p w) = written w.
Proof. unfold cleanup_effect. repeat case_match; done. Qed.

Lemma cleanup_effect_subseteq p w : fs (cleanup_effect p w) ⊆ fs w.
Proof. unfold cleanup_effect. repeat case_match; simpl; try done; apply delete_subseteq. Qed.

Lemma entries_nil_iff (m : gmap string node) (p : string) :
  Os.entries m p = [] ↔ ∀ k, is_Some (m !! k) → ¬ (OsPath.dirname k = p ∧ k ≠ p).
Proof.
  unfold Os.entries. split.
  - intros Hnil k Hk Hkp.
    assert (k ∈ filter (λ k, OsPath.dirname k = p ∧ k ≠ p) (elements (dom m))) as Hin.
    { apply list_elem_of_filter. split; [done|]. by apply elem_of_elements, elem_of_dom. }
    rewrite Hnil in Hin. by apply not_elem_of_nil in Hin.
  - intros H. apply elem_of_nil_inv. intros k Hk.
    apply list_elem_of_filter in Hk as [Hkp Hk].
    apply elem_of_elements, elem_of_dom in Hk. by apply (H k).
Qed.

Lemma entries_nil_subseteq (m1 m2 : gmap string node) (p : string) :
  m1 ⊆ m2 → Os.entries m2 p = [] → Os.entries m1 p = [].
Proof.
  intros Hsub H2. apply entries_nil_iff. intros k [x Hk].
  apply (proj1 (entries_nil_iff m2 p) H2). exists x.
  by eapply lookup_weaken.
Qed.

Lemma cleanup_fold_faults paths w :
  faults (foldl (λ w p, cleanup_effect p w) w paths) = faults w.
Proof.
  revert w; induction paths as [|p paths IH]; intros w; simpl; [done|].
  by rewrite IH, cleanup_effect_faults.
Qed.

Lemma cleanup_fold_threads paths w :
  threads (foldl (λ w p, cleanup_effect p w) w paths) = threads w.
Proof.
  revert w; induction paths as [|p paths IH]; intros w; simpl; [done|].
  by rewrite IH, cleanup_effect_threads.
Qed.

Lemma cleanup_fold_written paths w :
  written (foldl (λ w p, cleanup_effect p w) w paths) = written w.
Proof.
  revert w; induction paths as [|p paths IH]; intros w; simpl; [done|].
  by rewrite IH, cleanup_effect_written.
Qed.

Lemma cleanup_fold_subseteq paths w :
  fs (foldl (λ w p, cleanup_effect p w) w paths) ⊆ fs w.
Proof.
  revert w; induction paths as [|p paths IH]; intros w; simpl; [done|].
  etrans; [apply IH|apply cleanup_effect_subseteq].
Qed.

Lemma cleanup_fold_deletes paths w p :
  p ∈ paths → p ∉ faults w → deletable (fs w) p →
  fs (foldl (λ w p, cleanup_effect p w) w paths) !! p = None.
Proof.
  revert w. induction paths as [|q paths IH]; intros w Hin Hf Hd.
  { by apply not_elem_of_nil in Hin. }
  simpl.
  assert (∀ w1, fs w1 ⊆ fs w → faults w1 = faults w → q = p →
            fs (cleanup_effect q w1) !! p = None) as Hstep.
  { intros w1 Hsub Hfa ->. unfold cleanup_effect, deletable in *.
    rewrite decide_False by by rewrite Hfa.
    destruct (fs w1 !! p) as [[d|]|] eqn:Hp1; simpl.
    - apply lookup_delete_eq.
    - rewrite (lookup_weaken _ _ _ _ Hp1 Hsub) in Hd.
      rewrite (entries_nil_subseteq _ _ _ Hsub Hd). apply lookup_delete_eq.
    - done. }
  destruct (decide (q = p)) as [->|Hne].
  - assert (fs (cleanup_effect p w) !! p = None) as Hnone by by apply Hstep.
    eapply lookup_weaken_None; [exact Hnone|apply cleanup_fold_subseteq].
  - apply elem_of_cons in Hin as [?|Hin]; [congruence|].
    destruct (fs (cleanup_effect q w) !! p) as [x|] eqn:Hx.
    + apply IH; [done|by rewrite cleanup_effect_faults|].
      unfold deletable in *. rewrite Hx.
      pose proof (lookup_weaken _ _ _ _ Hx (cleanup_effect_subseteq q w)) as Hw.
      rewrite Hw in Hd. destruct x; [done|].
      eapply entries_nil_subseteq; [apply cleanup_effect_subseteq|done].
    + eapply lookup_weaken_None; [exact Hx|apply cleanup_fold_subseteq].
Qed.

(** C2, as stated, fails: a directory that still has an entry is left in
    place, with its contents. *)
Lemma C2_nonempty_workspace_counterexample :
  let w' := (Utils.cleanup_files ["uploads/j1"] 0 Demo.w_job).2 in
  fs Demo.w_job !! "uploads/j1" = Some Dir
  ∧ fs w' !! "uploads/j1" = Some Dir
  ∧ fs w' !! "uploads/j1/out.pdf" = Some (File Demo.pdf3).
Proof. vm_compute. done. Qed.

(** C2, amended: [cleanup_files] applied to one path with delay 0 always
    returns normally; an absent path leaves the state as it is; a directory
    without entries is removed (unless the OS refuses); a directory that
    still has entries is left in place with everything in it. *)
Theorem C2_cleanup_removes_only_empty_directory (p : string) (w : world) :
  ∃ w',
    Utils.cleanup_files [p] 0 w = (Val tt, w')
    ∧ (fs w !! p = None → w' = w)
    ∧ (fs w !! p = Some Dir → Os.entries (fs w) p ≠ [] → w' = w)
    ∧ (fs w !! p = Some Dir → Os.entries (fs w) p = [] → p ∉ faults w →
       fs w' = delete p (fs w)).
Proof.
  exists (cleanup_effect p w). unfold Utils.cleanup_files. simpl.
  rewrite delayed_cleanup_fold. simpl. split; [done|].
  unfold cleanup_effect. repeat split.
  - intros ->. by case_decide.
  - intros -> Hne. case_decide; [done|]. by destruct (Os.entries (fs w) p).
  - intros -> -> Hf. by rewrite decide_False.
Qed.

Lemma C2_cleanup_witness :
  ∃ w',
    Utils.cleanup_files ["uploads/j1"] 0 Demo.w_job = (Val tt, w')
    ∧ w' = Demo.w_job.
Proof.
  destruct (C2_cleanup_removes_only_empty_directory "uploads/j1" Demo.w_job)
    as [w' [Hrun [_ [Hkeep _]]]].
  exists w'. split; [exact Hrun|].
  apply Hkeep; [reflexivity|].
  vm_compute. discriminate.
Defined.

(** C3: [cleanup_files] returns normally for every list of paths, every
    delay and every state, whatever the OS refuses; with delay 0 no thread
    is started and, when it returns, every listed path that could be
    deleted (a file, or a directory without entries, that the OS does not
    refuse) is gone, nothing else having been created. *)
Theorem C3_cleanup_never_raises_and_is_synchronous
    (paths : list string) (delay : Z) (w : world) :
  ∃ w',
    Utils.cleanup_files paths delay w = (Val tt, w')
    ∧ (delay = 0 →
       threads w' = threads w
       ∧ fs w' ⊆ fs w
       ∧ ∀ p, p ∈ paths → p ∉ faults w → deletable (fs w) p → fs w' !! p = None).
Proof.
  unfold Utils.cleanup_files. destruct (0 <? delay) eqn:Hd.
  - eexists. split; [reflexivity|]. intros ->. done.
  - rewrite delayed_cleanup_fold. eexists. split; [reflexivity|]. intros _.
    split; [apply cleanup_fold_threads|].
    split; [apply cleanup_fold_subseteq|].
    intros p. apply cleanup_fold_deletes.
Qed.

Lemma C3_cleanup_witness :
  ∃ w',
    Utils.cleanup_files ["uploads/locked.pdf"; "uploads/j1/out.pdf"; "uploads/j1"; "uploads/gone"]
      0 Demo.w_locked = (Val tt, w')
    ∧ threads w' = []
    ∧ fs w' !! "uploads/j1/out.pdf" = None.
Proof.
  destruct (C3_cleanup_never_raises_and_is_synchronous
              ["uploads/locked.pdf"; "uploads/j1/out.pdf"; "uploads/j1"; "uploads/gone"]
              0 Demo.w_locked) as [w' [Hrun Hsync]].
  exists w'. split; [exact Hrun|].
  destruct (Hsync eq_refl) as [Hth [_ Hgone]].
  split; [exact Hth|].
  apply Hgone.
  - apply (bool_decide_unpack _). vm_compute. exact I.
  - apply (bool_decide_unpack _). vm_compute. exact I.
  - vm_compute. exact I.
Defined.

(** ** Reasoning about computations *)

Lemma bind_inv {A B} (m : M A) (k : A → M B) (w w' : world) (b : B) :
  bind m k w = (Val b, w') → ∃ a w1, m w = (Val a, w1) ∧ k a w1 = (Val b, w').
Proof. unfold bind. destruct (m w) as [[a|e] w1]; [eauto|done]. Qed.

Lemma bind_val {A B} (m : M A) (k : A → M B) (w w1 : world) (a : A) :
  m w = (Val a, w1) → bind m k w = k a w1.
Proof. unfold bind. by intros ->. Qed.

Lemma bind_exc {A B} (m : M A) (k : A → M B) (w w1 : world) (e : exn) :
  m w = (Exc e, w1) → bind m k w = (Exc e, w1).
Proof. unfold bind. by intros ->. Qed.

Lemma try_except_val {A} (m : M A) (h : exn → M A) (w w1 : world) (a : A) :
  m w = (Val a, w1) → try_except m h w = (Val a, w1).
Proof. unfold try_except. by intros ->. Qed.

Lemma try_except_exc {A} (m : M A) (h : exn → M A) (w w1 : world) (e : exn) :
  m w = (Exc e, w1) → try_except m h w = h e w1.
Proof. unfold try_except. by intros ->. Qed.

(** A handler that turns every exception into a failure message: a
    success comes from the body. *)
Lemma try_except_success_inv {A} (m : M (outcome A)) (f : exn → string)
    (w w' : world) (a : A) :
  try_except m (λ e, ret (Failure (f e))) w = (Val (Success a), w') →
  m w = (Val (Success a), w').
Proof. unfold try_except, ret. destruct (m w) as [[x|e] w1]; [done|congruence]. Qed.

Lemma try_except_true_inv (m : M bool) (w w' : world) :
  try_except m (λ _, ret false) w = (Val true, w') → m w = (Val true, w').
Proof. unfold try_except, ret. destruct (m w) as [[x|e] w1]; [done|congruence]. Qed.

Lemma try_except_false_total (m : M bool) (w : world) :
  ∃ b w', try_except m (λ _, ret false) w = (Val b, w').
Proof. unfold try_except, ret. destruct (m w) as [[x|e] w1]; eauto. Qed.

Lemma of_option_inv {A} (o : option A) (e : exn) (w w' : world) (a : A) :
  of_option o e w = (Val a, w') → o = Some a ∧ w' = w.
Proof. destruct o; simpl; unfold ret, raise; [by intros [= -> ->]|done]. Qed.

(** ** The filesystem primitives *)

Lemma write_file_ok (p : string) (d : file_data) (w : world) :
  can_write w p → Os.write_file p d w = (Val tt, after_write p d w).
Proof.
  intros (Hf & Hd & Hp). unfold Os.write_file, after_write.
  rewrite decide_False by done. rewrite Hp.
  destruct (fs w !! p) as [[?|]|]; done.
Qed.

Lemma write_file_inv (p : string) (d : file_data) (w w' : world) (u : unit) :
  Os.write_file p d w = (Val u, w') → w' = after_write p d w ∧ can_write w p.
Proof.
  unfold Os.write_file, after_write, can_write.
  destruct (decide (p ∈ faults w)); [done|].
  destruct (fs w !! p) as [[?|]|] eqn:Hp; [|done|];
    destruct (Os.parent_ok (fs w) p) eqn:Hpar; try done;
    intros [= <-]; repeat split; done.
Qed.

Lemma write_file_exc (p : string) (d : file_data) (w w' : world) (e : exn) :
  Os.write_file p d w = (Exc e, w') → w' = w.
Proof.
  unfold Os.write_file.
  destruct (decide (p ∈ faults w)); [by intros [= _ <-]|].
  destruct (fs w !! p) as [[?|]|]; destruct (Os.parent_ok (fs w) p);
    by intros [= <-].
Qed.

Lemma can_write_after_write (w : world) (p q : string) (d : file_data) :
  can_write w p → can_write w q → can_write (after_write p d w) q.
Proof.
  intros (_ & Hpd & _) (Hf & Hd & Hpar). unfold can_write, after_write; simpl.
  split; [done|]. split.
  - destruct (decide (p = q)) as [->|Hne].
    + by rewrite lookup_insert_eq.
    + by rewrite lookup_insert_ne.
  - unfold Os.parent_ok in *.
    apply orb_true_iff in Hpar as [Hpar|Hpar]; apply orb_true_iff; [by left|right].
    destruct (fs w !! OsPath.dirname q) as [[?|]|] eqn:Hq; try done.
    rewrite lookup_insert_ne; [by rewrite Hq|]. intros ->. by rewrite Hq in Hpd.
Qed.

Lemma read_file_inv (p : string) (w w' : world) (d : file_data) :
  Os.read_file p w = (Val d, w') → fs w !! p = Some (File d) ∧ w' = w.
Proof.
  unfold Os.read_file. destruct (fs w !! p) as [[?|]|]; [|done..].
  by intros [= -> ->].
Qed.

Lemma read_file_exc (p : string) (w w' : world) (e : exn) :
  Os.read_file p w = (Exc e, w') → w' = w.
Proof.
  unfold Os.read_file. destruct (fs w !! p) as [[?|]|]; by intros [= <-].
Qed.

Lemma read_file_ok (p : string) (w : world) (d : file_data) :
  fs w !! p = Some (File d) → Os.read_file p w = (Val d, w).
Proof. unfold Os.read_file. by intros ->. Qed.

(** ** Compression statistics *)

Lemma compress_advanced_spec (L : Libs) (i o lvl : string) (w : world) :
  ∃ b w',
    PDFCompressorService._compress_with_advanced_method L i o lvl w = (Val b, w')
    ∧ (b = false → w' = w)
    ∧ (b = true → ∃ d', w' = after_write o d' w ∧ lib_output L d').
Proof.
  unfold PDFCompressorService._compress_with_advanced_method.
  set (q := (default _ _).1). set (dpi := (default _ _).2).
  destruct (fitz_available L).
  2:{ exists false, w. by repeat split. }
  unfold try_except, bind at 1. unfold ret at 1.
  unfold bind at 1.
  destruct (Os.read_file i w) as [[d|e] w1] eqn:Hr.
  2:{ apply read_file_exc in Hr as ->. exists false, w. by repeat split. }
  apply read_file_inv in Hr as [Hi ->].
  unfold bind at 1.
  destruct (fitz_rasterize L d q dpi) as [d'|] eqn:Hras; simpl.
  2:{ exists false, w. by repeat split. }
  unfold bind at 1.
  destruct (Os.write_file o d' w) as [[[]|e] w1] eqn:Hw.
  - apply write_file_inv in Hw as [-> _]. exists true, (after_write o d' w).
    repeat split; [done|]. intros _. exists d'. split; [done|]. left. eauto.
  - apply write_file_exc in Hw as ->. exists false, w. by repeat split.
Qed.

Lemma compress_basic_spec (L : Libs) (i o : string) (w : world) :
  ∃ b w',
    PDFCompressorService._compress_with_basic_method L i o w = (Val b, w')
    ∧ (b = false → w' = w)
    ∧ (b = true → ∃ d', w' = after_write o d' w ∧ lib_output L d').
Proof.
  unfold PDFCompressorService._compress_with_basic_method.
  unfold try_except, bind at 1.
  destruct (Os.read_file i w) as [[d|e] w1] eqn:Hr.
  2:{ apply read_file_exc in Hr as ->. exists false, w. by repeat split. }
  apply read_file_inv in Hr as [Hi ->].
  unfold bind at 1.
  destruct (pdf_pages d) as [ps|] eqn:Hps; simpl.
  2:{ exists false, w. by repeat split. }
  exists false, w. by repeat split.
Qed.

(** The PyPDF2 method never writes: it answers [False] and leaves the
    state as it found it. *)
Lemma compress_basic_fails (L : Libs) (i o : string) (w : world) :
  PDFCompressorService._compress_with_basic_method L i o w = (Val false, w).
Proof.
  unfold PDFCompressorService._compress_with_basic_method.
  unfold try_except, bind at 1.
  destruct (Os.read_file i w) as [[d|e] w1] eqn:Hr.
  2:{ by apply read_file_exc in Hr as ->. }
  apply read_file_inv in Hr as [Hi ->].
  unfold bind at 1.
  by destruct (pdf_pages d).
Qed.

Lemma compress_pdf_file_spec (L : Libs) (i o lvl : string) (w : world) :
  ∃ b w',
    PDFCompressorService._compress_pdf_file L i o lvl w = (Val b, w')
    ∧ (b = false → w' = w)
    ∧ (b = true → ∃ d', w' = after_write o d' w ∧ lib_output L d').
Proof.
  unfold PDFCompressorService._compress_pdf_file.
  destruct (compress_advanced_spec L i o lvl w) as (b & w1 & Ha & Hf & Ht).
  unfold try_except. rewrite (bind_val _ _ _ _ _ Ha).
  destruct b.
  - exists true, w1. split; [done|]. split; [done|]. exact Ht.
  - rewrite (Hf eq_refl).
    destruct (compress_basic_spec L i o w) as (b & w2 & Hb & Hf' & Ht').
    rewrite Hb. exists b, w2. by repeat split.
Qed.

Lemma getsize_inv (p : string) (w w' : world) (n : Z) :
  Os.getsize p w = (Val n, w') →
  w' = w ∧ ((∃ d, fs w !! p = Some (File d) ∧ n = Z.of_N (nbytes d))
            ∨ (fs w !! p = Some Dir ∧ n = 4096)).
Proof.
  unfold Os.getsize. destruct (fs w !! p) as [[d|]|]; [| |done].
  - intros [= <- <-]. split; [done|]. left. eauto.
  - intros [= <- <-]. split; [done|]. by right.
Qed.

Lemma compress_pdf_success_inv (L : Libs) (uid : string) (file : upload)
    (output_filename lvl : string) (w w' : world) (r : compress_result) :
  PDFCompressorService.compress_pdf L uid file output_filename lvl w = (Val (Success r), w') →
  ∃ d',
    lib_output L d'
    ∧ fs w' !! compress_output_path uid file output_filename = Some (File d')
    ∧ r = CompressResult
            (SizeReducedBy
               ((inject_Z (Z.of_N (nbytes (stream file)) - Z.of_N (nbytes d'))
                 / inject_Z (Z.of_N (nbytes (stream file)))) * 100)%Q)
            (compress_output_name file output_filename) uid
            (compress_output_path uid file output_filename)
            (Z.of_N (nbytes (stream file))) (Z.of_N (nbytes d'))
            ((inject_Z (Z.of_N (nbytes (stream file)) - Z.of_N (nbytes d'))
              / inject_Z (Z.of_N (nbytes (stream file)))) * 100)%Q
    ∧ Z.of_N (nbytes (stream file)) ≠ 0.
Proof.
  intros H. unfold PDFCompressorService.compress_pdf in H.
  apply (try_except_success_inv _ (λ e, "Compression failed: " +:+ exn_str e)) in H.
  destruct (negb (truthy (filename file))); [done|].
  destruct (negb (PyStr.endswith _ _)); [done|].
  fold (compress_output_name file output_filename) in H.
  fold (compress_temp_path uid file) in H.
  fold (compress_output_path uid file output_filename) in H.
  set (tp := compress_temp_path uid file) in *.
  set (op := compress_output_path uid file output_filename) in *.
  apply bind_inv in H as ([] & w1 & Hw & H).
  apply write_file_inv in Hw as [-> Hcw].
  apply bind_inv in H as (osz & w2 & Hsz & H).
  apply getsize_inv in Hsz as [-> Hsz].
  assert (osz = Z.of_N (nbytes (stream file))) as ->.
  { destruct Hsz as [(d & Hd & ->)|[Hd _]]; simpl in Hd;
      rewrite lookup_insert_eq in Hd; congruence. }
  clear Hsz.
  apply bind_inv in H as (success & w3 & Hc & H).
  destruct (compress_pdf_file_spec L tp op lvl (after_write tp (stream file) w))
    as (b & w3' & Hc' & Hfalse & Htrue).
  rewrite Hc in Hc'. injection Hc' as <- <-.
  apply bind_inv in H as (e & w4 & He & H).
  unfold Os.path_exists in He. injection He as <- <-.
  apply bind_inv in H as ([] & w5 & Hrm & H).
  destruct success; simpl in H; [|done].
  destruct (Htrue eq_refl) as (d' & -> & Hlib).
  apply bind_inv in H as (csz & w6 & Hcsz & H).
  apply getsize_inv in Hcsz as [-> Hcsz].
  destruct (Z.of_N (nbytes (stream file)) =? 0) eqn:Hz; [done|].
  apply Z.eqb_neq in Hz.
  injection H as <- <-.
  assert (fs w5 !! op = Some (File d') ∧ csz = Z.of_N (nbytes d')) as [Hop ->].
  { assert (fs w5 !! op = Some (File d') ∨ fs w5 !! op = None) as Hcases.
    { revert Hrm. case_bool_decide as Hex.
      - unfold Os.remove. case_decide; [done|].
        destruct (fs _ !! tp) as [[?|]|] eqn:Htp; [|done..].
        intros [= <-]. simpl.
        destruct (decide (tp = op)) as [->|Hne].
        + right. apply lookup_delete_eq.
        + left. rewrite lookup_delete_ne by done. apply lookup_insert_eq.
      - intros [= <-]. left. simpl. apply lookup_insert_eq. }
    destruct Hcases as [Hop|Hop]; rewrite Hop in Hcsz.
    - destruct Hcsz as [(d & [= <-] & ->)|[? _]]; done.
    - destruct Hcsz as [(d & ? & _)|[? _]]; done. }
  exists d'. repeat split; done.
Qed.

Lemma getsize_ok (p : string) (w : world) (d : file_data) :
  fs w !! p = Some (File d) → Os.getsize p w = (Val (Z.of_N (nbytes d)), w).
Proof. unfold Os.getsize. by intros ->. Qed.

Lemma remove_ok (p : string) (w : world) (d : file_data) :
  p ∉ faults w → fs w !! p = Some (File d) →
  Os.remove p w = (Val tt, set_fs (delete p) w).
Proof. intros Hf Hp. unfold Os.remove. by rewrite decide_False, Hp. Qed.

Lemma compress_pdf_succeeds (L : Libs) (uid : string) (file : upload)
    (output_filename lvl : string) (w : world) (d' : file_data) :
  let tp := compress_temp_path uid file in
  let op := compress_output_path uid file output_filename in
  let settings :=
    default (PDFCompressorService.compression_settings !!! "medium")
            (PDFCompressorService.compression_settings !! lvl) in
  filename file ≠ "" →
  PyStr.endswith (PyStr.lower (filename file)) ".pdf" = true →
  can_write w tp → can_write w op → tp ≠ op →
  nbytes (stream file) ≠ 0%N →
  fitz_available L = true →
  fitz_rasterize L (stream file) settings.1 settings.2 = Some d' →
  ∃ r w',
    PDFCompressorService.compress_pdf L uid file output_filename lvl w = (Val (Success r), w')
    ∧ original_size r = Z.of_N (nbytes (stream file))
    ∧ compressed_size r = Z.of_N (nbytes d').
Proof.
  intros tp op settings Hname Hpdf Htp Hop Hne Hsz Hfitz Hras.
  unfold PDFCompressorService.compress_pdf.
  unfold truthy at 1. rewrite (bool_decide_eq_false_2 _ Hname). simpl.
  rewrite Hpdf. simpl.
  fold (compress_output_name file output_filename).
  fold (compress_temp_path uid file). fold (compress_output_path uid file output_filename).
  fold tp. fold op.
  set (w1 := after_write tp (stream file) w).
  assert (fs w1 !! tp = Some (File (stream file))) as Htp1 by apply lookup_insert_eq.
  assert (can_write w1 op) as Hop1 by by apply can_write_after_write.
  set (w2 := after_write op d' w1).
  assert (PDFCompressorService._compress_pdf_file L tp op lvl w1 = (Val true, w2)) as Hc.
  { unfold PDFCompressorService._compress_pdf_file,
      PDFCompressorService._compress_with_advanced_method.
    fold settings. rewrite Hfitz.
    apply try_except_val. rewrite (bind_val _ _ w1 w2 true); [reflexivity|].
    apply try_except_val.
    erewrite bind_val; [|reflexivity].
    erewrite bind_val; [|by apply read_file_ok].
    rewrite Hras. simpl.
    erewrite bind_val; [|reflexivity].
    erewrite bind_val; [|by apply write_file_ok]. done. }
  assert (fs w2 !! tp = Some (File (stream file))) as Htp2.
  { simpl. by rewrite lookup_insert_ne. }
  eexists _, _. split; [|split].
  - apply try_except_val.
    erewrite bind_val; [|by apply write_file_ok].
    erewrite bind_val; [|by apply getsize_ok].
    erewrite bind_val; [|exact Hc].
    erewrite bind_val; [|by eapply path_exists_exact].
    cbv beta iota.
    erewrite bind_val; [|apply (remove_ok tp w2 (stream file)); [apply Htp|done]].
    simpl.
    erewrite bind_val; [|apply (getsize_ok op _ d'); simpl;
                         rewrite lookup_delete_ne by done; apply lookup_insert_eq].
    destruct (Z.of_N (nbytes (stream file)) =? 0) eqn:Hz; [apply Z.eqb_eq in Hz; lia|].
    reflexivity.
  - reflexivity.
  - reflexivity.
Qed.

(** C8: a successful [compress_pdf] reports as [original_size] the byte
    count of the upload, which is positive, as [compressed_size] the byte
    count of the file at the result path, which one of the compression
    methods wrote (positive, as the files the PDF libraries write are not
    empty), and as [compression_ratio] exactly
    (original - compressed) / original * 100, which is zero or negative
    exactly when the output is not smaller than the input; and a run whose
    compression step succeeds on a non-empty upload is a success whatever
    the two sizes are. *)
Theorem C8_compression_statistics
    (L : Libs) (uid : string) (file : upload) (output_filename lvl : string) (w : world) :
  (∀ d', lib_output L d' → nbytes d' ≠ 0%N) →
  (∀ r w',
     PDFCompressorService.compress_pdf L uid file output_filename lvl w
       = (Val (Success r), w') →
     original_size r = Z.of_N (nbytes (stream file))
     ∧ (∃ d', fs w' !! c_file_path r = Some (File d')
              ∧ compressed_size r = Z.of_N (nbytes d'))
     ∧ 0 < original_size r
     ∧ 0 < compressed_size r
     ∧ compression_ratio r
       = ((inject_Z (original_size r - compressed_size r) / inject_Z (original_size r))
          * 100)%Q
     ∧ ((compression_ratio r <= 0)%Q ↔ original_size r ≤ compressed_size r))
  ∧ (∀ d',
       filename file ≠ "" →
       PyStr.endswith (PyStr.lower (filename file)) ".pdf" = true →
       can_write w (compress_temp_path uid file) →
       can_write w (compress_output_path uid file output_filename) →
       compress_temp_path uid file ≠ compress_output_path uid file output_filename →
       nbytes (stream file) ≠ 0%N →
       fitz_available L = true →
       fitz_rasterize L (stream file)
         (default (PDFCompressorService.compression_settings !!! "medium")
                  (PDFCompressorService.compression_settings !! lvl)).1
         (default (PDFCompressorService.compression_settings !!! "medium")
                  (PDFCompressorService.compression_settings !! lvl)).2 = Some d' →
       ∃ r w',
         PDFCompressorService.compress_pdf L uid file output_filename lvl w
           = (Val (Success r), w')
         ∧ original_size r = Z.of_N (nbytes (stream file))
         ∧ compressed_size r = Z.of_N (nbytes d')).
Proof.
  intros Hlib. split.
  - intros r w' H.
    apply compress_pdf_success_inv in H as (d' & Hd' & Hfs & -> & Hnz). simpl.
    pose proof (Hlib d' Hd') as Hpos.
    set (o := Z.of_N (nbytes (stream file))) in *.
    set (c := Z.of_N (nbytes d')) in *.
    assert (0 < o) as Ho by lia. assert (0 < c) as Hc by lia.
    repeat split; try done; try (by eexists).
    + intros Hle. unfold Qle, Qmult, Qdiv, Qinv, inject_Z in Hle. simpl in Hle.
      destruct o as [|po|po]; try lia. simpl in Hle. nia.
    + intros Hle. unfold Qle, Qmult, Qdiv, Qinv, inject_Z. simpl.
      destruct o as [|po|po]; try lia. simpl. nia.
  - intros d'. apply compress_pdf_succeeds.
Qed.

Lemma C8_compression_statistics_witness :
  ∃ r w',
    PDFCompressorService.compress_pdf Demo.inflating_libs "0f1e2d3c-j1" Demo.a_pdf "" "high" Demo.w0
      = (Val (Success r), w')
    ∧ original_size r = 1000
    ∧ compressed_size r = 2001
    ∧ (compression_ratio r <= 0)%Q.
Proof.
  assert (∀ d', lib_output Demo.inflating_libs d' → nbytes d' ≠ 0%N) as Hlib.
  { intros d' [(d & q & dpi & H)|(ps & ->)].
    - simpl in H. destruct (pdf_pages d); [|done]. injection H as <-. simpl. lia.
    - unfold pdf_file, Demo.inflating_libs, Demo.libs. simpl. lia. }
  destruct (C8_compression_statistics Demo.inflating_libs "0f1e2d3c-j1" Demo.a_pdf "" "high"
              Demo.w0 Hlib) as [Hpayload Hsuccess].
  destruct (Hsuccess (FileData 2001 (Some [SourcePage 1; SourcePage 2; SourcePage 3]) None))
    as (r & w' & Hrun & Ho & Hc).
  - vm_compute. discriminate.
  - vm_compute. reflexivity.
  - split; [apply not_elem_of_empty|]. split; [vm_compute; discriminate|vm_compute; reflexivity].
  - split; [apply not_elem_of_empty|]. split; [vm_compute; discriminate|vm_compute; reflexivity].
  - vm_compute. discriminate.
  - vm_compute. discriminate.
  - reflexivity.
  - vm_compute. reflexivity.
  - exists r, w'. split; [exact Hrun|].
    destruct (Hpayload r w' Hrun) as (_ & _ & _ & _ & _ & Hratio).
    split; [exact Ho|]. split; [exact Hc|].
    apply Hratio. rewrite Ho, Hc. vm_compute. discriminate.
Defined.

(** ** Names of the split outputs *)

Section PathFacts.
Import PyStr.

Lemma of_chars_inj l k : of_chars l = of_chars k → l = k.
Proof. intros H. by rewrite <- (to_of_chars l), <- (to_of_chars k), H. Qed.

Lemma string_app_inv_tail (s s' t : string) : s +:+ t = s' +:+ t → s = s'.
Proof.
  intros H. apply to_chars_inj. apply (f_equal to_chars) in H.
  rewrite !to_chars_app in H. by apply app_inv_tail in H.
Qed.

Lemma startswith_sep_dash (o x y : chars) :
  startswith_chars [OsPath.sep] (o ++ "-"%char :: x)
  = startswith_chars [OsPath.sep] (o ++ "-"%char :: y).
Proof.
  unfold startswith_chars. destruct o as [|c o]; simpl.
  - done.
  - by case_decide.
Qed.

Lemma join_chars_dash_inj (a o x y : chars) :
  OsPath.join_chars a (o ++ "-"%char :: x) = OsPath.join_chars a (o ++ "-"%char :: y) →
  x = y.
Proof.
  unfold OsPath.join_chars. rewrite (startswith_sep_dash o x y).
  destruct (startswith_chars _ _).
  - intros H%app_inv_head. congruence.
  - destruct (_ || _).
    + intros H%app_inv_head%app_inv_head. congruence.
    + intros H%app_inv_head. injection H as H. apply app_inv_head in H. congruence.
Qed.

(** Two entries of one directory whose names share everything up to a
    dash are the same entry only if the names agree after the dash. *)
Lemma join_dash_inj (dir prefix x y : string) :
  OsPath.join dir (prefix +:+ "-" +:+ x) = OsPath.join dir (prefix +:+ "-" +:+ y) → x = y.
Proof.
  unfold OsPath.join. intros H%of_chars_inj.
  rewrite !to_chars_app in H. simpl in H.
  apply join_chars_dash_inj in H. by apply to_chars_inj.
Qed.

(** A path built by [os.path.join] from a relative name lies in the
    directory: it continues [join dir ""]. *)
Lemma join_relative (dir name : string) :
  startswith_chars [OsPath.sep] (to_chars name) = false →
  OsPath.join dir name = OsPath.join dir "" +:+ name.
Proof.
  intros Hrel. unfold OsPath.join, OsPath.join_chars. rewrite Hrel. simpl.
  replace (startswith_chars [OsPath.sep] []) with false by done.
  destruct (_ || _).
  - by rewrite app_nil_r, of_chars_app, !of_to_chars.
  - replace (to_chars dir ++ OsPath.sep :: to_chars name)
      with ((to_chars dir ++ [OsPath.sep]) ++ to_chars name)
      by by rewrite <- app_assoc.
    by rewrite of_chars_app, of_to_chars.
Qed.

End PathFacts.

Lemma page_name_inj (dir prefix : string) (m n : Z) :
  OsPath.join dir (prefix +:+ "-page-" +:+ PyStr.str_of_Z m +:+ ".pdf")
  = OsPath.join dir (prefix +:+ "-page-" +:+ PyStr.str_of_Z n +:+ ".pdf") →
  m = n.
Proof.
  change (prefix +:+ "-page-" +:+ PyStr.str_of_Z m +:+ ".pdf")
    with (prefix +:+ "-" +:+ ("page-" +:+ PyStr.str_of_Z m +:+ ".pdf")).
  change (prefix +:+ "-page-" +:+ PyStr.str_of_Z n +:+ ".pdf")
    with (prefix +:+ "-" +:+ ("page-" +:+ PyStr.str_of_Z n +:+ ".pdf")).
  intros H%join_dash_inj.
  apply (inj (String.app "page-")) in H.
  apply string_app_inv_tail in H.
  by apply (inj pretty) in H.
Qed.

(** ** Splitting into pages *)

Lemma page_path_inj (temp_dir output_filename : string) :
  Inj (=) (=) (page_path temp_dir output_filename).
Proof. intros m n H%page_name_inj. lia. Qed.

Lemma py_index_ok {A} (l : list A) (i : Z) (x : A) (w : world) :
  0 ≤ i → l !! Z.to_nat i = Some x →
  PDFSplitterService.py_index l i w = (Val x, w).
Proof.
  intros Hi Hx. unfold PDFSplitterService.py_index.
  destruct (i <? 0) eqn:Hneg; [apply Z.ltb_lt in Hneg; lia|].
  rewrite Hneg, Hx. done.
Qed.

Lemma write_pages_spec (L : Libs) (pages : list page) (nums : list Z)
    (temp_dir output_filename : string) (w : world) :
  NoDup nums →
  (∀ n, n ∈ nums → 0 ≤ n < Z.of_nat (length pages)) →
  (∀ n, n ∈ nums → can_write w (page_path temp_dir output_filename n)) →
  ∃ w',
    PDFSplitterService.write_pages L pages nums temp_dir output_filename w
      = (Val (page_path temp_dir output_filename <$> nums), w')
    ∧ (∀ n pg, n ∈ nums → pages !! Z.to_nat n = Some pg →
         fs w' !! page_path temp_dir output_filename n = Some (File (pdf_file L [pg])))
    ∧ (∀ q, q ∉ (page_path temp_dir output_filename <$> nums) → fs w' !! q = fs w !! q)
    ∧ written w'
      = written w
        ++ omap (λ n, (λ pg, (page_path temp_dir output_filename n, pdf_file L [pg]))
                      <$> pages !! Z.to_nat n) nums.
Proof.
  revert w. induction nums as [|n nums IH]; intros w Hnd Hrange Hcw.
  { exists w. simpl. rewrite app_nil_r. repeat split; try done.
    intros n pg Hn. by apply not_elem_of_nil in Hn. }
  apply NoDup_cons in Hnd as [Hn Hnd].
  assert (0 ≤ n < Z.of_nat (length pages)) as Hn_range by (apply Hrange; left).
  destruct (lookup_lt_is_Some_2 pages (Z.to_nat n)) as [pg Hpg]; [lia|].
  set (p := page_path temp_dir output_filename n).
  set (w1 := after_write p (pdf_file L [pg]) w).
  destruct (IH w1) as (w' & Hrun & Hfiles & Hother & Hlog).
  - done.
  - intros m Hm. apply Hrange. by right.
  - intros m Hm. apply can_write_after_write; apply Hcw; [left|by right].
  - assert (p ∉ page_path temp_dir output_filename <$> nums) as Hp.
    { intros (m & Hpm & Hm)%list_elem_of_fmap.
      apply page_path_inj in Hpm. by subst. }
    exists w'. split; [|split; [|split]].
    + simpl. erewrite bind_val; [|apply py_index_ok; [lia|exact Hpg]].
      fold (page_path temp_dir output_filename n). fold p.
      erewrite bind_val; [|apply write_file_ok, Hcw; left].
      fold w1. erewrite bind_val; [|exact Hrun]. done.
    + intros m pg' [->|Hm]%elem_of_cons Hpg'.
      * rewrite Hother by done. simpl. fold p. rewrite lookup_insert_eq. congruence.
      * by apply Hfiles.
    + intros q Hq. apply not_elem_of_cons in Hq as [Hq1 Hq2].
      rewrite Hother by done. simpl. by rewrite lookup_insert_ne.
    + rewrite Hlog. simpl. rewrite Hpg. simpl. by rewrite <- app_assoc.
Qed.

(** C6: on a readable PDF of P pages whose outputs can be written,
    [_split_into_pages] succeeds, returns P paths, pairwise different, and
    the count P, and for every i in [1,P] the i-th path holds a PDF whose
    only page is page i of the input. *)
Theorem C6_split_into_pages
    (L : Libs) (input_file temp_dir output_filename : string) (w : world)
    (d : file_data) (pages : list page) :
  fs w !! input_file = Some (File d) →
  pdf_pages d = Some pages →
  (∀ n, 0 ≤ n < Z.of_nat (length pages) →
        can_write w (page_path temp_dir output_filename n)) →
  ∃ paths w',
    PDFSplitterService._split_into_pages L input_file temp_dir output_filename w
      = (Val (Success (SplitFiles paths (Z.of_nat (length pages)))), w')
    ∧ length paths = length pages
    ∧ NoDup paths
    ∧ ∀ i pg, pages !! i = Some pg →
        paths !! i = Some (page_path temp_dir output_filename (Z.of_nat i))
        ∧ fs w' !! page_path temp_dir output_filename (Z.of_nat i)
          = Some (File (pdf_file L [pg])).
Proof.
  intros Hin Hpages Hcw.
  set (nums := seqZ 0 (Z.of_nat (length pages))).
  destruct (write_pages_spec L pages nums temp_dir output_filename w)
    as (w' & Hrun & Hfiles & _ & _).
  - apply NoDup_seqZ.
  - intros n Hn%elem_of_seqZ. lia.
  - intros n Hn%elem_of_seqZ. apply Hcw. lia.
  - exists (page_path temp_dir output_filename <$> nums), w'.
    split; [|split; [|split]].
    + unfold PDFSplitterService._split_into_pages. apply try_except_val.
      unfold PDFSplitterService.read_pdf.
      erewrite bind_val; last first.
      { erewrite bind_val; [|by apply read_file_ok]. rewrite Hpages. done. }
      fold nums. erewrite bind_val; [|exact Hrun]. done.
    + rewrite length_fmap. unfold nums. rewrite length_seqZ. lia.
    + apply NoDup_fmap_2; [apply page_path_inj|apply NoDup_seqZ].
    + intros i pg Hi.
      assert (i < length pages)%nat as Hlt by by eapply lookup_lt_Some.
      split.
      * rewrite list_lookup_fmap. unfold nums.
        rewrite lookup_seqZ_lt by lia. simpl. by rewrite Z.add_0_l.
      * apply Hfiles; [apply elem_of_seqZ; lia|]. by rewrite Nat2Z.id.
Qed.

Lemma demo_can_write_empty_faults (w : world) (p : string) :
  faults w = ∅ → fs w !! p ≠ Some Dir → Os.parent_ok (fs w) p = true → can_write w p.
Proof. intros Hf ? ?. split; [|done]. rewrite Hf. apply not_elem_of_empty. Qed.

Lemma C6_split_into_pages_witness :
  ∃ paths w',
    PDFSplitterService._split_into_pages Demo.libs "uploads/j1/temp_0_a.pdf" "uploads/j1" "a.pdf"
        Demo.w_staged
      = (Val (Success (SplitFiles paths 6)), w')
    ∧ length paths = 6%nat
    ∧ paths !! 2%nat = Some "uploads/j1/a.pdf-page-3.pdf"
    ∧ fs w' !! "uploads/j1/a.pdf-page-3.pdf" = Some (File (pdf_file Demo.libs [SourcePage 3])).
Proof.
  destruct (C6_split_into_pages Demo.libs "uploads/j1/temp_0_a.pdf" "uploads/j1" "a.pdf"
              Demo.w_staged Demo.pdf6 (SourcePage <$> [1; 2; 3; 4; 5; 6]%N))
    as (paths & w' & Hrun & Hlen & _ & Hpage).
  - reflexivity.
  - reflexivity.
  - intros n Hn.
    assert (n = 0 ∨ n = 1 ∨ n = 2 ∨ n = 3 ∨ n = 4 ∨ n = 5) as Hcases by (simpl in Hn; lia).
    destruct Hcases as [->|[->|[->|[->|[->| ->]]]]];
      (apply demo_can_write_empty_faults;
       [reflexivity|vm_compute; discriminate|vm_compute; reflexivity]).
  - exists paths, w'. split; [exact Hrun|]. split; [exact Hlen|].
    exact (Hpage 2%nat (SourcePage 3) eq_refl).
Defined.

(** ** Splitting by ranges *)

Lemma spec_range_bounds (P : Z) (tok : string) (a b : Z) :
  spec_range P tok = Some (a, b) → 1 ≤ a ∧ a ≤ b ∧ b ≤ P.
Proof.
  unfold spec_range. destruct (token_pair tok) as [[x y]|].
  - destruct (Z.min P y <? Z.max 1 x) eqn:H; [done|].
    apply Z.ltb_ge in H. intros [= <- <-]. lia.
  - destruct (token_single tok) as [n|]; [|done].
    destruct ((n <? 1) || (P <? n)) eqn:H; [done|].
    apply orb_false_iff in H as [H1%Z.ltb_ge H2%Z.ltb_ge]. intros [= <- <-]. lia.
Qed.

Lemma add_range_spec (pages : list page) (k : nat) (lo : Z) (w : world) :
  0 ≤ lo → lo + Z.of_nat k ≤ Z.of_nat (length pages) →
  PDFSplitterService.add_range pages (seqZ lo (Z.of_nat k)) w
  = (Val (take k (drop (Z.to_nat lo) pages)), w).
Proof.
  revert lo. induction k as [|k IH]; intros lo Hlo Hhi.
  { done. }
  rewrite seqZ_cons by lia. simpl.
  destruct (lo <? Z.of_nat (length pages)) eqn:Hlt; [|apply Z.ltb_ge in Hlt; lia].
  destruct (lookup_lt_is_Some_2 pages (Z.to_nat lo)) as [pg Hpg]; [lia|].
  erewrite bind_val; [|by apply py_index_ok].
  replace (Z.pred (Z.of_nat (S k))) with (Z.of_nat k) by lia.
  erewrite bind_val; [|apply IH; lia].
  unfold ret. do 2 f_equal.
  rewrite (drop_S _ _ _ Hpg). simpl.
  by replace (Z.to_nat (Z.succ lo)) with (S (Z.to_nat lo)) by lia.
Qed.

Lemma int_or_raise_Some (s : PyStr.chars) (n : Z) (w : world) :
  PyStr.int_chars s = Some n → PDFSplitterService.int_or_raise s w = (Val n, w).
Proof. unfold PDFSplitterService.int_or_raise. by intros ->. Qed.

Lemma int_or_raise_None (s : PyStr.chars) (w : world) :
  PyStr.int_chars s = None →
  ∃ m, PDFSplitterService.int_or_raise s w = (Exc (ValueError m), w).
Proof. unfold PDFSplitterService.int_or_raise. intros ->. simpl. unfold raise. eauto. Qed.

(** The inner [try] of [_split_into_ranges] accepts exactly the tokens of
    the specification, with the pages of the clamped range. *)
Lemma parse_range_accepts (pages : list page) (tok : string) (a b : Z) (w : world) :
  spec_range (Z.of_nat (length pages)) tok = Some (a, b) →
  PDFSplitterService.parse_range pages tok w
  = (Val (Success (range_pages pages a b, range_desc tok a b)), w).
Proof.
  intros Hspec. pose proof (spec_range_bounds _ _ _ _ Hspec) as Hb.
  unfold spec_range, token_pair, token_single in Hspec.
  unfold PDFSplitterService.parse_range, try_except_only, range_desc.
  destruct (PyStr.has_char _ _).
  - destruct (PyStr.split_on _ _) as [|x [|y [|z l]]]; try done.
    destruct (PyStr.int_chars x) as [sa|] eqn:Hx; [|done].
    destruct (PyStr.int_chars y) as [sb|] eqn:Hy; [|done].
    destruct (Z.min _ sb <? Z.max 1 sa) eqn:Hlt; [done|].
    injection Hspec as <- <-.
    apply try_except_val.
    erewrite bind_val; [|by apply int_or_raise_Some].
    erewrite bind_val; [|by apply int_or_raise_Some].
    rewrite Hlt.
    set (s := Z.max 1 sa) in *. set (e := Z.min (Z.of_nat (length pages)) sb) in *.
    replace (e - (s - 1)) with (Z.of_nat (Z.to_nat (e - s + 1))) by lia.
    erewrite bind_val; [|apply add_range_spec; lia].
    done.
  - unfold PyStr.int in Hspec.
    destruct (PyStr.int_chars _) as [n|] eqn:Hn; [|done].
    destruct ((n <? 1) || (Z.of_nat (length pages) <? n)) eqn:Hout; [done|].
    injection Hspec as <- <-.
    apply try_except_val.
    erewrite bind_val; [|by apply int_or_raise_Some].
    rewrite Hout.
    destruct (lookup_lt_is_Some_2 pages (Z.to_nat (n - 1))) as [pg Hpg]; [lia|].
    erewrite bind_val; [|apply py_index_ok; [lia|exact Hpg]].
    unfold ret, range_pages. do 4 f_equal.
    replace (Z.to_nat (n - n + 1)) with 1%nat by lia.
    by rewrite (drop_S _ _ _ Hpg).
Qed.

(** A rejected token makes the inner [try] answer with the message of its
    kind, and the state is as before. *)
Lemma parse_range_rejects_message (pages : list page) (tok : string) (w : world) :
  spec_range (Z.of_nat (length pages)) tok = None →
  PDFSplitterService.parse_range pages tok w
  = (Val (Failure (reject_message (Z.of_nat (length pages)) tok)), w).
Proof.
  intros Hspec. unfold spec_range in Hspec. unfold reject_message.
  unfold token_pair, token_single in *.
  unfold PDFSplitterService.parse_range, try_except_only.
  destruct (PyStr.has_char _ _).
  - destruct (PyStr.split_on _ _) as [|x [|y [|z l]]].
    + erewrite try_except_exc; [|reflexivity]. done.
    + erewrite try_except_exc; [|reflexivity]. done.
    + destruct (PyStr.int_chars x) as [sa|] eqn:Hx.
      2:{ destruct (int_or_raise_None x w Hx) as [m Hm].
          erewrite try_except_exc; [|by apply bind_exc]. done. }
      destruct (PyStr.int_chars y) as [sb|] eqn:Hy.
      2:{ destruct (int_or_raise_None y w Hy) as [m Hm].
          erewrite try_except_exc; last first.
          { erewrite bind_val; [|by apply int_or_raise_Some]. by apply bind_exc. }
          done. }
      destruct (Z.min _ sb <? Z.max 1 sa) eqn:Hlt; [|done].
      apply try_except_val.
      erewrite bind_val; [|by apply int_or_raise_Some].
      erewrite bind_val; [|by apply int_or_raise_Some].
      by rewrite Hlt.
    + destruct (PyStr.int_chars x) as [sa|] eqn:Hx.
      2:{ destruct (int_or_raise_None x w Hx) as [m Hm].
          erewrite try_except_exc; [|by apply bind_exc]. done. }
      destruct (PyStr.int_chars y) as [sb|] eqn:Hy.
      2:{ destruct (int_or_raise_None y w Hy) as [m Hm].
          erewrite try_except_exc; last first.
          { erewrite bind_val; [|by apply int_or_raise_Some]. by apply bind_exc. }
          done. }
      erewrite try_except_exc; last first.
      { erewrite bind_val; [|by apply int_or_raise_Some].
        erewrite bind_val; [|by apply int_or_raise_Some]. done. }
      done.
  - unfold PyStr.int in *.
    destruct (PyStr.int_chars _) as [n|] eqn:Hn.
    2:{ destruct (int_or_raise_None _ w Hn) as [m Hm].
        erewrite try_except_exc; [|by apply bind_exc]. done. }
    destruct ((n <? 1) || (Z.of_nat (length pages) <? n)) eqn:Hout; [|done].
    apply try_except_val.
    erewrite bind_val; [|by apply int_or_raise_Some].
    by rewrite Hout.
Qed.

Lemma parse_range_rejects (pages : list page) (tok : string) (w : world) :
  spec_range (Z.of_nat (length pages)) tok = None →
  ∃ msg, PDFSplitterService.parse_range pages tok w = (Val (Failure msg), w).
Proof. intros Hspec. eexists. by apply parse_range_rejects_message. Qed.

Lemma pretty_N_go_no_dash (x : N) (s : string) :
  Forall (λ c, c ≠ "-"%char) (PyStr.to_chars s) →
  Forall (λ c, c ≠ "-"%char) (PyStr.to_chars (pretty_N_go x s)).
Proof.
  revert s. induction (N.lt_wf_0 x) as [x _ IH]; intros s Hs.
  assert (x = 0 ∨ 0 < x)%N as [->|Hx] by lia.
  - by rewrite pretty_N_go_0.
  - rewrite pretty_N_go_step by done. apply IH.
    { by apply N.div_lt. }
    simpl. constructor; [|done].
    unfold pretty_N_char. by repeat case_match.
Qed.

Lemma str_of_Z_no_dash (z : Z) :
  0 ≤ z → Forall (λ c, c ≠ "-"%char) (PyStr.to_chars (PyStr.str_of_Z z)).
Proof.
  intros Hz. unfold PyStr.str_of_Z, pretty, pretty_Z.
  destruct z as [|p|p]; [by repeat constructor| |lia].
  unfold pretty, pretty_positive, pretty, pretty_N.
  case_decide; [done|]. by apply pretty_N_go_no_dash.
Qed.

Lemma dash_split_unique (d1 d2 r1 r2 : PyStr.chars) :
  Forall (λ c, c ≠ "-"%char) d1 → Forall (λ c, c ≠ "-"%char) d2 →
  d1 ++ "-"%char :: r1 = d2 ++ "-"%char :: r2 → d1 = d2 ∧ r1 = r2.
Proof.
  revert d2. induction d1 as [|c d1 IH]; intros [|c2 d2] H1 H2 Heq; simpl in Heq.
  - by injection Heq as ->.
  - injection Heq as <- _. by inversion H2.
  - injection Heq as -> _. by inversion H1.
  - injection Heq as -> Heq. inversion H1; inversion H2; subst.
    destruct (IH d2) as [-> ->]; done.
Qed.

(** Two accepted tokens that are written to the same path stand for the
    same range. *)
Lemma range_path_inj (P : Z) (temp_dir output_filename tok tok' : string) (a b a' b' : Z) :
  spec_range P tok = Some (a, b) → spec_range P tok' = Some (a', b') →
  range_path temp_dir output_filename tok a b = range_path temp_dir output_filename tok' a' b' →
  a = a' ∧ b = b'.
Proof.
  intros Hs Hs' Hpath.
  pose proof (spec_range_bounds _ _ _ _ Hs) as Hb.
  pose proof (spec_range_bounds _ _ _ _ Hs') as Hb'.
  unfold range_path in Hpath. apply join_dash_inj, string_app_inv_tail in Hpath.
  unfold spec_range, token_pair, token_single in Hs, Hs'.
  unfold range_desc in Hpath.
  destruct (PyStr.has_char _ (PyStr.to_chars tok)) eqn:Ht;
    destruct (PyStr.has_char _ (PyStr.to_chars tok')) eqn:Ht'.
  - apply (inj (String.app "pages-")) in Hpath.
    apply (f_equal PyStr.to_chars) in Hpath.
    rewrite !to_chars_app in Hpath. simpl in Hpath.
    apply dash_split_unique in Hpath as [Ha Hrest];
      [|apply str_of_Z_no_dash; lia..].
    injection Hrest as Hrest.
    apply to_chars_inj, (inj pretty) in Ha.
    apply to_chars_inj, (inj pretty) in Hrest. done.
  - apply (f_equal PyStr.to_chars) in Hpath. simpl in Hpath. discriminate.
  - apply (f_equal PyStr.to_chars) in Hpath. simpl in Hpath. discriminate.
  - apply (inj (String.app "page-")), (inj pretty) in Hpath. subst a'.
    destruct (PyStr.int tok) as [n|]; [|done].
    destruct (PyStr.int tok') as [n'|]; [|done].
    destruct (_ || _); [done|]. destruct (_ || _); [done|].
    injection Hs as <- <-. injection Hs' as <- <-. done.
Qed.

Lemma apply_writes_lookup (m : gmap string node) (l : list (string * file_data))
    (p : string) (d : file_data) :
  (p, d) ∈ l → (∀ d', (p, d') ∈ l → d' = d) →
  apply_writes m l !! p = Some (File d).
Proof.
  revert m. induction l as [|[q dq] l IH] using rev_ind; intros m Hin Hsame.
  { by apply not_elem_of_nil in Hin. }
  unfold apply_writes. rewrite foldl_app. simpl.
  destruct (decide (q = p)) as [->|Hne].
  - rewrite lookup_insert_eq. f_equal. f_equal. apply Hsame.
    apply elem_of_app. right. by left.
  - rewrite lookup_insert_ne by done. apply IH.
    + apply elem_of_app in Hin as [?|Hin]; [done|].
      apply list_elem_of_singleton in Hin. congruence.
    + intros d' Hd'. apply Hsame, elem_of_app. by left.
Qed.

Lemma write_ranges_success_inv (L : Libs) (pages : list page) (toks : list string)
    (temp_dir output_filename : string) (w w' : world) (paths : list string) :
  PDFSplitterService.write_ranges L pages toks temp_dir output_filename w
    = (Val (Success paths), w') →
  ∃ outs,
    Forall2 (λ tok o, range_output L pages temp_dir output_filename tok = Some o) toks outs
    ∧ paths = outs.*1
    ∧ written w' = written w ++ outs
    ∧ fs w' = apply_writes (fs w) outs.
Proof.
  revert w paths. induction toks as [|tok toks IH]; intros w paths Hrun.
  { injection Hrun as <- <-. exists []. by rewrite app_nil_r. }
  simpl in Hrun.
  destruct (spec_range (Z.of_nat (length pages)) tok) as [[a b]|] eqn:Hspec.
  2:{ destruct (parse_range_rejects pages tok w Hspec) as [msg Hp].
      by rewrite (bind_val _ _ _ _ _ Hp) in Hrun. }
  rewrite (bind_val _ _ _ _ _ (parse_range_accepts pages tok a b w Hspec)) in Hrun.
  apply bind_inv in Hrun as ([] & w1 & Hw & Hrun).
  apply write_file_inv in Hw as [-> _].
  apply bind_inv in Hrun as (r & w2 & Hrest & Hrun).
  destruct r as [paths'|m]; [|done].
  injection Hrun as <- <-.
  destruct (IH _ _ Hrest) as (outs & Houts & -> & Hlog & Hfs).
  eexists (_ :: outs). split; [|split; [|split]].
  - constructor; [|exact Houts]. unfold range_output. by rewrite Hspec.
  - done.
  - rewrite Hlog. simpl. by rewrite <- app_assoc.
  - by rewrite Hfs.
Qed.

Lemma write_ranges_succeeds (L : Libs) (pages : list page) (toks : list string)
    (temp_dir output_filename : string) (w : world) :
  (∀ tok, tok ∈ toks →
     ∃ o, range_output L pages temp_dir output_filename tok = Some o ∧ can_write w o.1) →
  ∃ paths w',
    PDFSplitterService.write_ranges L pages toks temp_dir output_filename w
      = (Val (Success paths), w').
Proof.
  revert w. induction toks as [|tok toks IH]; intros w Hok.
  { by eexists _, _. }
  destruct (Hok tok) as ([p d] & Ho & Hcw); [by left|].
  unfold range_output in Ho.
  destruct (spec_range (Z.of_nat (length pages)) tok) as [[a b]|] eqn:Hspec; [|done].
  injection Ho as <- <-. simpl in Hcw.
  destruct (IH (after_write (range_path temp_dir output_filename tok a b)
                  (pdf_file L (range_pages pages a b)) w)) as (paths & w' & Hrun).
  { intros tok' Htok'. destruct (Hok tok') as (o & Ho & Hcw'); [by right|].
    exists o. split; [done|]. by apply can_write_after_write. }
  eexists _, _. simpl.
  erewrite bind_val; [|by apply parse_range_accepts].
  cbv beta iota. fold (range_path temp_dir output_filename tok a b).
  erewrite bind_val; [|by apply write_file_ok].
  erewrite bind_val; [|exact Hrun]. done.
Qed.

Lemma write_ranges_rejects (L : Libs) (pages : list page) (toks : list string)
    (temp_dir output_filename : string) (w w' : world) (paths : list string) (tok : string) :
  tok ∈ toks → spec_range (Z.of_nat (length pages)) tok = None →
  PDFSplitterService.write_ranges L pages toks temp_dir output_filename w
    ≠ (Val (Success paths), w').
Proof.
  intros Hin Hspec Hrun.
  apply write_ranges_success_inv in Hrun as (outs & Houts & _).
  apply list_elem_of_lookup in Hin as [i Hi].
  destruct (Forall2_lookup_l _ _ _ _ _ Houts Hi) as (o & _ & Ho).
  unfold range_output in Ho. by rewrite Hspec in Ho.
Qed.

(** The loop stops at the first rejected token: the outputs of the tokens
    before it are written, and the answer is the message of that token. *)
Lemma write_ranges_first_rejected (L : Libs) (pages : list page)
    (good : list string) (tok : string) (rest : list string)
    (temp_dir output_filename : string) (w : world) :
  (∀ t, t ∈ good →
     ∃ o, range_output L pages temp_dir output_filename t = Some o ∧ can_write w o.1) →
  spec_range (Z.of_nat (length pages)) tok = None →
  PDFSplitterService.write_ranges L pages (good ++ tok :: rest) temp_dir output_filename w
  = (Val (Failure (reject_message (Z.of_nat (length pages)) tok)),
     after_writes (range_outputs L pages temp_dir output_filename good) w).
Proof.
  intros Hok Hrej. revert w Hok. induction good as [|t good IH]; intros w Hok.
  { simpl. by rewrite (bind_val _ _ _ _ _ (parse_range_rejects_message pages tok w Hrej)). }
  destruct (Hok t) as ([p d] & Ho & Hcw); [by left|].
  unfold range_outputs. simpl. rewrite Ho. simpl.
  unfold range_output in Ho.
  destruct (spec_range (Z.of_nat (length pages)) t) as [[a b]|] eqn:Hspec; [|done].
  injection Ho as <- <-. simpl in Hcw.
  erewrite bind_val; [|by apply parse_range_accepts].
  cbv beta iota. fold (range_path temp_dir output_filename t a b).
  erewrite bind_val; [|by apply write_file_ok].
  erewrite bind_val; [|apply IH]; [done|].
  intros t' Ht'. destruct (Hok t') as (o & Ho & Hcw'); [by right|].
  exists o. split; [done|]. by apply can_write_after_write.
Qed.

(** A handler that turns every exception into a failure: the call
    returns, and returns a failure unless the body succeeds. *)
Lemma try_except_failure {A} (m : M (outcome A)) (f : exn → string) (w : world) :
  (∀ a w', m w ≠ (Val (Success a), w')) →
  ∃ msg w', try_except m (λ e, ret (Failure (f e))) w = (Val (Failure msg), w').
Proof.
  intros Hns. unfold try_except, ret.
  destruct (m w) as [[[a|msg]|e] w1] eqn:Hm; [|eauto..].
  by destruct (Hns a w1).
Qed.

(** C5: on a readable PDF of P pages, [_split_into_ranges] fails as soon
    as one token is an integer pair "a-b" with [max 1 a > min P b], a single
    integer outside [1, P], or neither an integer pair nor an integer; when
    it succeeds, every token is accepted and the i-th output holds exactly
    pages [max 1 a] through [min P b] of the input for a token "a-b", and
    page [n] for a token "n" (1-based inclusive); it does succeed when
    every token is accepted and every output can be written; and at the
    first rejected token it answers with the message of that token
    ("Invalid range: ... (start > end)", "Invalid page number: ..." or
    "Invalid page range format: ..."), having written the outputs of the
    tokens before it and nothing else.  An integer is what [int()] reads. *)
Theorem C5_split_into_ranges
    (L : Libs) (input_file temp_dir output_filename : string) (toks : list string)
    (w : world) (d : file_data) (pages : list page) :
  fs w !! input_file = Some (File d) →
  pdf_pages d = Some pages →
  let P := Z.of_nat (length pages) in
  let run := PDFSplitterService._split_into_ranges L input_file temp_dir output_filename toks w in
  let fails := ∃ msg w', run = (Val (Failure msg), w') in
  (∀ tok a b, tok ∈ toks → token_pair tok = Some (a, b)
     → Z.min P b < Z.max 1 a → fails)
  ∧ (∀ tok n, tok ∈ toks → token_pair tok = None → token_single tok = Some n
     → n < 1 ∨ P < n → fails)
  ∧ (∀ tok, tok ∈ toks → token_pair tok = None → token_single tok = None → fails)
  ∧ (∀ r w', run = (Val (Success r), w') →
       count r = Z.of_nat (length toks)
       ∧ length (files r) = length toks
       ∧ ∀ i tok, toks !! i = Some tok →
           ∃ a b,
             spec_range P tok = Some (a, b)
             ∧ (∀ a0 b0, token_pair tok = Some (a0, b0) → a = Z.max 1 a0 ∧ b = Z.min P b0)
             ∧ files r !! i = Some (range_path temp_dir output_filename tok a b)
             ∧ fs w' !! range_path temp_dir output_filename tok a b
               = Some (File (pdf_file L (range_pages pages a b))))
  ∧ (toks ≠ [] →
     (∀ tok, tok ∈ toks →
        ∃ a b, spec_range P tok = Some (a, b)
               ∧ can_write w (range_path temp_dir output_filename tok a b)) →
     ∃ r w', run = (Val (Success r), w'))
  ∧ (∀ good tok rest, toks = good ++ tok :: rest →
     (∀ t, t ∈ good →
        ∃ a b, spec_range P t = Some (a, b)
               ∧ can_write w (range_path temp_dir output_filename t a b)) →
     spec_range P tok = None →
     run = (Val (Failure (reject_message P tok)),
            after_writes (range_outputs L pages temp_dir output_filename good) w)).
Proof.
  intros Hin Hpages P run fails.
  assert (PDFSplitterService.read_pdf input_file w = (Val pages, w)) as Hread.
  { unfold PDFSplitterService.read_pdf.
    erewrite bind_val; [|by apply read_file_ok]. by rewrite Hpages. }
  assert (∀ tok, tok ∈ toks → spec_range P tok = None → fails) as Hreject.
  { intros tok Htok Hspec. unfold fails, run, PDFSplitterService._split_into_ranges.
    apply try_except_failure. intros r w' Hrun.
    destruct toks as [|t toks]; [done|].
    rewrite (bind_val _ _ _ _ _ Hread) in Hrun.
    apply bind_inv in Hrun as (r' & w1 & Hranges & Hrun).
    destruct r' as [paths|m]; [|done].
    by eapply write_ranges_rejects in Hranges. }
  split; [|split; [|split; [|split; [|split]]]].
  - intros tok a b Htok Hpair Hlt. apply (Hreject tok Htok).
    unfold spec_range. rewrite Hpair.
    destruct (Z.min P b <? Z.max 1 a) eqn:H; [done|]. apply Z.ltb_ge in H. lia.
  - intros tok n Htok Hpair Hsingle Hout. apply (Hreject tok Htok).
    unfold spec_range. rewrite Hpair, Hsingle.
    destruct ((n <? 1) || (P <? n)) eqn:H; [done|].
    apply orb_false_iff in H as [?%Z.ltb_ge ?%Z.ltb_ge]. lia.
  - intros tok Htok Hpair Hsingle. apply (Hreject tok Htok).
    unfold spec_range. by rewrite Hpair, Hsingle.
  - intros r w' Hrun. unfold run, PDFSplitterService._split_into_ranges in Hrun.
    apply (try_except_success_inv _ (λ e, "Error splitting PDF into ranges: " +:+ exn_str e))
      in Hrun.
    destruct toks as [|t toks]; [done|].
    rewrite (bind_val _ _ _ _ _ Hread) in Hrun.
    apply bind_inv in Hrun as (r' & w1 & Hranges & Hrun).
    destruct r' as [paths|m]; [|done].
    injection Hrun as <- <-. simpl.
    apply write_ranges_success_inv in Hranges as (outs & Houts & -> & Hlog & Hfs).
    pose proof (Forall2_length _ _ _ Houts) as Hlen.
    split; [|split].
    + rewrite length_fmap. simpl in Hlen. lia.
    + rewrite length_fmap. by simpl in Hlen.
    + intros i tok Hi.
      destruct (Forall2_lookup_l _ _ _ _ _ Houts Hi) as ([p dp] & Ho & Hout).
      unfold range_output in Hout. fold P in Hout.
      destruct (spec_range P tok) as [[a b]|] eqn:Hspec; [|done].
      injection Hout as <- <-.
      exists a, b. split; [done|]. split; [|split].
      * intros a0 b0 Hpair. unfold spec_range in Hspec. rewrite Hpair in Hspec.
        destruct (_ <? _); [done|]. by injection Hspec as <- <-.
      * by rewrite list_lookup_fmap, Ho.
      * rewrite Hfs. apply apply_writes_lookup.
        { by apply list_elem_of_lookup_2 in Ho. }
        intros d' Hd'. apply list_elem_of_lookup in Hd' as [j Hj].
        destruct (Forall2_lookup_r _ _ _ _ _ Houts Hj) as (tok' & _ & Hout').
        unfold range_output in Hout'. fold P in Hout'.
        destruct (spec_range P tok') as [[a' b']|] eqn:Hspec'; [|done].
        injection Hout' as Hpath <-.
        symmetry in Hpath.
        by destruct (range_path_inj P _ _ _ _ _ _ _ _ Hspec Hspec' Hpath) as [-> ->].
  - intros Hne Hok. unfold run, PDFSplitterService._split_into_ranges.
    destruct (write_ranges_succeeds L pages toks temp_dir output_filename w)
      as (paths & w' & Hranges).
    { intros tok Htok. destruct (Hok tok Htok) as (a & b & Hspec & Hcw).
      eexists. unfold range_output. fold P. rewrite Hspec. by split. }
    eexists _, _. apply try_except_val.
    destruct toks as [|t toks]; [done|].
    rewrite (bind_val _ _ _ _ _ Hread).
    rewrite (bind_val _ _ _ _ _ Hranges). done.
  - intros good tok rest -> Hgood Hrej.
    unfold run, PDFSplitterService._split_into_ranges.
    apply try_except_val.
    destruct (good ++ tok :: rest) as [|t toks'] eqn:Htoks; [by destruct good|].
    rewrite <- Htoks. rewrite (bind_val _ _ _ _ _ Hread).
    erewrite bind_val; [|apply write_ranges_first_rejected]; [done| |done].
    intros t0 Ht0. destruct (Hgood t0 Ht0) as (a & b & Hspec & Hcw).
    eexists. unfold range_output. fold P. rewrite Hspec. by split.
Qed.

Lemma C5_split_into_ranges_witness :
  (∃ msg w',
     PDFSplitterService._split_into_ranges Demo.libs "uploads/j1/temp_0_a.pdf" "uploads/j1"
       "a.pdf" ["1-3"; "4-2"] Demo.w_staged = (Val (Failure msg), w'))
  ∧ (∃ r w',
       PDFSplitterService._split_into_ranges Demo.libs "uploads/j1/temp_0_a.pdf" "uploads/j1"
         "a.pdf" ["1-3"; "5"; "1-10"] Demo.w_staged = (Val (Success r), w')
       ∧ count r = 3
       ∧ files r !! 2%nat = Some "uploads/j1/a.pdf-pages-1-to-6.pdf"
       ∧ fs w' !! "uploads/j1/a.pdf-pages-1-to-6.pdf"
         = Some (File (pdf_file Demo.libs (SourcePage <$> [1; 2; 3; 4; 5; 6]%N))))
  ∧ PDFSplitterService._split_into_ranges Demo.libs "uploads/j1/temp_0_a.pdf" "uploads/j1"
      "a.pdf" ["1-3"; "4-2"; "x"] Demo.w_staged
    = (Val (Failure "Invalid range: 4-2 (start > end)"),
       after_write "uploads/j1/a.pdf-pages-1-to-3.pdf"
         (pdf_file Demo.libs (SourcePage <$> [1; 2; 3]%N)) Demo.w_staged).
Proof.
  split; [|split].
  - destruct (C5_split_into_ranges Demo.libs "uploads/j1/temp_0_a.pdf" "uploads/j1" "a.pdf"
                ["1-3"; "4-2"] Demo.w_staged Demo.pdf6 (SourcePage <$> [1; 2; 3; 4; 5; 6]%N)
                eq_refl eq_refl) as (Hclamp & _).
    apply (Hclamp "4-2" 4 2).
    + apply (bool_decide_unpack _). vm_compute. exact I.
    + vm_compute. reflexivity.
    + vm_compute. reflexivity.
  - destruct (C5_split_into_ranges Demo.libs "uploads/j1/temp_0_a.pdf" "uploads/j1" "a.pdf"
                ["1-3"; "5"; "1-10"] Demo.w_staged Demo.pdf6 (SourcePage <$> [1; 2; 3; 4; 5; 6]%N)
                eq_refl eq_refl) as (_ & _ & _ & Houtputs & Htotal & _).
    destruct Htotal as (r & w' & Hrun).
    + discriminate.
    + intros tok Htok.
      assert (tok = "1-3" ∨ tok = "5" ∨ tok = "1-10") as [->|[->| ->]].
      { repeat (apply elem_of_cons in Htok as [Htok|Htok]; [by auto|]).
        by apply not_elem_of_nil in Htok. }
      * exists 1, 3. split; [vm_compute; reflexivity|].
        apply demo_can_write_empty_faults;
          [reflexivity|vm_compute; discriminate|vm_compute; reflexivity].
      * exists 5, 5. split; [vm_compute; reflexivity|].
        apply demo_can_write_empty_faults;
          [reflexivity|vm_compute; discriminate|vm_compute; reflexivity].
      * exists 1, 6. split; [vm_compute; reflexivity|].
        apply demo_can_write_empty_faults;
          [reflexivity|vm_compute; discriminate|vm_compute; reflexivity].
    + exists r, w'. split; [exact Hrun|].
      destruct (Houtputs r w' Hrun) as (Hcount & _ & Hfiles).
      split; [exact Hcount|].
      destruct (Hfiles 2%nat "1-10" eq_refl) as (a & b & Hspec & _ & Hpath & Hfs).
      vm_compute in Hspec. injection Hspec as <- <-.
      split; [exact Hpath|exact Hfs].
  - destruct (C5_split_into_ranges Demo.libs "uploads/j1/temp_0_a.pdf" "uploads/j1" "a.pdf"
                ["1-3"; "4-2"; "x"] Demo.w_staged Demo.pdf6
                (SourcePage <$> [1; 2; 3; 4; 5; 6]%N)
                eq_refl eq_refl) as (_ & _ & _ & _ & _ & Hfirst).
    apply (Hfirst ["1-3"] "4-2" ["x"] eq_refl).
    + intros tok Htok. apply list_elem_of_singleton in Htok as ->.
      exists 1, 3. split; [vm_compute; reflexivity|].
      apply demo_can_write_empty_faults;
        [reflexivity|vm_compute; discriminate|vm_compute; reflexivity].
    + vm_compute. reflexivity.
Defined.

(** ** Image layout *)

Lemma float_of_int_ok (z : Z) (w : world) :
  convertible z → float_of_int z w = (Val (PyFloat.of_int z), w).
Proof. unfold convertible, float_of_int. by intros ->. Qed.

Lemma div_int_ok (x : PyFloat.float) (n : Z) (w : world) :
  n ≠ 0 → convertible n →
  ImageToPDFService.div_int x n w = (Val (PyFloat.div x (PyFloat.of_int n)), w).
Proof.
  intros Hn Hf. unfold ImageToPDFService.div_int.
  erewrite bind_val; [|by apply float_of_int_ok].
  apply Z.eqb_neq in Hn. by rewrite Hn.
Qed.

Lemma int_mul_ok (n : Z) (x : PyFloat.float) (w : world) :
  convertible n →
  ImageToPDFService.int_mul n x w = (Val (PyFloat.mul (PyFloat.of_int n) x), w).
Proof.
  intros Hf. unfold ImageToPDFService.int_mul.
  by erewrite bind_val; [|by apply float_of_int_ok].
Qed.

Lemma int_add_ok (n : Z) (x : PyFloat.float) (w : world) :
  convertible n →
  ImageToPDFService.int_add n x w = (Val (PyFloat.add (PyFloat.of_int n) x), w).
Proof.
  intros Hf. unfold ImageToPDFService.int_add.
  by erewrite bind_val; [|by apply float_of_int_ok].
Qed.

Lemma convertible_2 : convertible 2.
Proof. reflexivity. Qed.


(** With a margin, the drawing is the layout of the formulas in floats. *)
Lemma place_image_margin (m iw ih : Z) (w : world) :
  m ≠ 0 → iw ≠ 0 → ih ≠ 0 → convertible m → convertible iw → convertible ih →
  let l := margin_layout float_arithmetic ImageToPDFService.page_width
             ImageToPDFService.page_height m iw ih in
  ImageToPDFService.place_image m (available m).1 (available m).2 iw ih w
  = (Val (Drawing iw ih (layout_x l) (layout_y l) (layout_width l) (layout_height l)), w).
Proof.
  intros Hm Hiw Hih Hfm Hfw Hfh l.
  unfold ImageToPDFService.place_image.
  apply Z.eqb_neq in Hm. rewrite Hm.
  erewrite bind_val; [|by apply div_int_ok].
  erewrite bind_val; [|by apply div_int_ok].
  erewrite bind_val; [|by apply int_mul_ok].
  erewrite bind_val; [|by apply int_mul_ok].
  erewrite bind_val; [|by apply div_int_ok; [|apply convertible_2]].
  erewrite bind_val; [|by apply int_add_ok].
  erewrite bind_val; [|by apply div_int_ok; [|apply convertible_2]].
  erewrite bind_val; [|by apply int_add_ok].
  reflexivity.
Qed.


Lemma stateless_ret {A} (a : A) : stateless (ret a).
Proof. by eexists. Qed.

Lemma stateless_raise {A} (e : exn) : stateless (raise e : M A).
Proof. by eexists. Qed.

Lemma stateless_bind {A B} (m : M A) (k : A → M B) :
  stateless m → (∀ a, stateless (k a)) → stateless (bind m k).
Proof.
  intros [[a|e] Hm] Hk.
  - destruct (Hk a) as [r Hr]. exists r. intros w. unfold bind. by rewrite Hm, Hr.
  - exists (Exc e). intros w. unfold bind. by rewrite Hm.
Qed.

Lemma stateless_float_of_int (z : Z) : stateless (float_of_int z).
Proof. unfold float_of_int. destruct (PyFloat.is_finite _); by eexists. Qed.

Lemma stateless_div_int (x : PyFloat.float) (n : Z) :
  stateless (ImageToPDFService.div_int x n).
Proof.
  apply stateless_bind; [apply stateless_float_of_int|]. intros fn.
  destruct (n =? 0); [apply stateless_raise|apply stateless_ret].
Qed.

Lemma stateless_int_mul (n : Z) (x : PyFloat.float) :
  stateless (ImageToPDFService.int_mul n x).
Proof.
  apply stateless_bind; [apply stateless_float_of_int|]. intros. apply stateless_ret.
Qed.

Lemma stateless_int_add (n : Z) (x : PyFloat.float) :
  stateless (ImageToPDFService.int_add n x).
Proof.
  apply stateless_bind; [apply stateless_float_of_int|]. intros. apply stateless_ret.
Qed.

Lemma stateless_place_image (m : Z) (aw ah : PyFloat.float) (iw ih : Z) :
  stateless (ImageToPDFService.place_image m aw ah iw ih).
Proof.
  unfold ImageToPDFService.place_image.
  destruct (m =? 0); [apply stateless_ret|].
  repeat (apply stateless_bind;
          [first [apply stateless_div_int|apply stateless_int_mul|apply stateless_int_add]
          |intros ?]).
  apply stateless_ret.
Qed.

Lemma place_image_pure (m : Z) (aw ah : PyFloat.float) (iw ih : Z) (w w' : world)
    (d : drawing) :
  ImageToPDFService.place_image m aw ah iw ih w = (Val d, w') →
  w' = w ∧ ∀ w0, ImageToPDFService.place_image m aw ah iw ih w0 = (Val d, w0).
Proof.
  destruct (stateless_place_image m aw ah iw ih) as [r Hr].
  rewrite Hr. intros [= -> <-]. split; [done|]. intros w0. by rewrite Hr.
Qed.

Lemma available_area_inv (margin : Z) (w w' : world) (a : PyFloat.float * PyFloat.float) :
  ImageToPDFService.available_area margin w = (Val a, w') →
  a = available margin ∧ w' = w ∧ convertible (2 * margin).
Proof.
  unfold ImageToPDFService.available_area, float_of_int, bind, convertible.
  destruct (PyFloat.is_finite (PyFloat.of_int (2 * margin))); [|discriminate].
  intros [= <- <-]. split; [reflexivity|]. split; reflexivity.
Qed.

Lemma available_area_exc (margin : Z) (w w' : world) (e : exn) :
  ImageToPDFService.available_area margin w = (Exc e, w') →
  w' = w ∧ is_ImportError e = false.
Proof.
  unfold ImageToPDFService.available_area, float_of_int, bind.
  destruct (PyFloat.is_finite (PyFloat.of_int (2 * margin))); [done|].
  by intros [= <- <-].
Qed.

Lemma available_area_ok (margin : Z) (w : world) :
  convertible (2 * margin) →
  ImageToPDFService.available_area margin w = (Val (available margin), w).
Proof.
  intros Hf. unfold ImageToPDFService.available_area.
  by erewrite bind_val; [|by apply float_of_int_ok].
Qed.

Lemma try_except_Some_inv {A} (m : M (option A)) (h : M unit) (w w' : world) (x : A) :
  try_except m (λ _, h ;;; ret None) w = (Val (Some x), w') → m w = (Val (Some x), w').
Proof.
  unfold try_except. destruct (m w) as [[o|e] w1]; [done|].
  unfold bind. destruct (h w1) as [[[]|e'] w2]; done.
Qed.

Lemma draw_images_inv (files : list upload) (last_id : option nat) (margin : Z)
    (area : PyFloat.float * PyFloat.float)
    (uid : string) (c c' : canvas) (tfs tfs' : list string) (w w' : world) :
  ImageToPDFService.draw_images files last_id margin area uid c tfs w
    = (Val (Some (c', tfs')), w') →
  ∃ ds,
    Forall2 (placed_in margin area) files ds
    ∧ c' = foldl (draw_step last_id) c (zip files ds)
    ∧ tfs' = tfs ++ (image_temp_path uid <$> files)
    ∧ written w' = written w ++ ((λ f, (image_temp_path uid f, stream f)) <$> files).
Proof.
  revert c tfs w. induction files as [|file files IH]; intros c tfs w Hrun.
  { injection Hrun as <- <- <-. exists []. by rewrite !app_nil_r. }
  simpl in Hrun. fold (image_temp_path uid file) in Hrun.
  apply bind_inv in Hrun as ([] & w1 & Hw & Hrun).
  apply write_file_inv in Hw as [-> _].
  apply bind_inv in Hrun as (r & w2 & Hbody & Hrun).
  destruct r as [c1|]; [|done].
  apply try_except_Some_inv in Hbody.
  apply bind_inv in Hbody as ([iw ih] & w3 & Hopen & Hbody).
  unfold ImageToPDFService.open_image in Hopen.
  apply bind_inv in Hopen as (d0 & w4 & Hread & Hopen).
  apply read_file_inv in Hread as [Hd0 ->].
  simpl in Hd0. rewrite lookup_insert_eq in Hd0. injection Hd0 as <-.
  apply of_option_inv in Hopen as [Hsz ->].
  apply bind_inv in Hbody as (d & w5 & Hplace & Hbody).
  apply place_image_pure in Hplace as [-> Hplace].
  injection Hbody as <- <-.
  destruct (IH _ _ _ Hrun) as (ds & Hds & -> & -> & Hlog).
  exists (d :: ds). split; [|split; [|split]].
  - constructor; [|done]. by exists iw, ih.
  - done.
  - by rewrite <- app_assoc.
  - rewrite Hlog. simpl. by rewrite <- app_assoc.
Qed.


Lemma write_file_exc_kind (p : string) (d : file_data) (w w' : world) (e : exn) :
  Os.write_file p d w = (Exc e, w') → is_ImportError e = false.
Proof.
  unfold Os.write_file. repeat case_match; intros [= <- _]; done.
Qed.

Lemma remove_exc_kind (p : string) (w w' : world) (e : exn) :
  Os.remove p w = (Exc e, w') → is_ImportError e = false.
Proof.
  unfold Os.remove. repeat case_match; intros [= <- _]; done.
Qed.

Lemma remove_temp_files_exc_kind (tfs : list string) (w w' : world) (e : exn) :
  ImageToPDFService.remove_temp_files tfs w = (Exc e, w') → is_ImportError e = false.
Proof.
  revert w. induction tfs as [|p tfs IH]; intros w; [done|].
  unfold ImageToPDFService.remove_temp_files in *. simpl.
  unfold bind at 1. unfold bind at 1. unfold Os.path_exists.
  case_bool_decide.
  - destruct (Os.remove p w) as [[[]|e'] w1] eqn:Hrm.
    + apply IH.
    + intros [= <- _]. by eapply remove_exc_kind.
  - unfold ret. apply IH.
Qed.

Lemma draw_images_exc_kind (files : list upload) (last_id : option nat) (margin : Z)
    (area : PyFloat.float * PyFloat.float)
    (uid : string) (c : canvas) (tfs : list string) (w w' : world) (e : exn) :
  ImageToPDFService.draw_images files last_id margin area uid c tfs w = (Exc e, w') →
  is_ImportError e = false.
Proof.
  revert c tfs w. induction files as [|file files IH]; intros c tfs w; [done|].
  simpl. unfold bind at 1.
  destruct (Os.write_file _ _ w) as [[[]|e1] w1] eqn:Hw.
  2:{ intros [= <- _]. by eapply write_file_exc_kind. }
  unfold bind at 1. unfold try_except at 1.
  destruct (bind (ImageToPDFService.open_image _) _ w1) as [[r|e2] w2].
  - destruct r as [c1|]; [apply IH|done].
  - unfold bind at 1.
    destruct (ImageToPDFService.remove_temp_files _ w2) as [[[]|e3] w3] eqn:Hrm; [done|].
    intros [= <- _]. by eapply remove_temp_files_exc_kind.
Qed.






(** ** Names of directory entries *)

Section EntryNames.
Import PyStr Werkzeug.

Lemma has_char_app c (l k : chars) : has_char c (l ++ k) = has_char c l || has_char c k.
Proof. unfold has_char. apply existsb_app. Qed.

Lemma has_char_false c (l : chars) : has_char c l = false ↔ Forall (λ x, x ≠ c) l.
Proof.
  unfold has_char. induction l as [|x l IH]; simpl.
  - split; [constructor|done].
  - rewrite orb_false_iff, IH, Forall_cons, bool_decide_eq_false. done.
Qed.

Lemma child_of_join (d name : string) :
  entry_name (to_chars name) → OsPath.child_of d (OsPath.join d name) = true.
Proof.
  intros [Hsep (c & Hc & Hdot)]. unfold OsPath.child_of.
  rewrite (join_relative d name); last first.
  { unfold startswith_chars. destruct (to_chars name) as [|x n]; [done|]. simpl.
    simpl in Hsep. apply orb_false_iff in Hsep as [Hx _].
    apply bool_decide_eq_false in Hx.
    rewrite decide_False by done. apply bool_decide_eq_false_2. by intros [? ?]. }
  rewrite to_chars_app, strip_prefix_app, Hsep. simpl.
  rewrite !bool_decide_eq_false_2; [done|..].
  - intros Hn. rewrite Hn in Hc. simpl in Hc.
    repeat (apply elem_of_cons in Hc as [Hc|Hc]; [done|]). by apply not_elem_of_nil in Hc.
  - intros Hn. rewrite Hn in Hc. simpl in Hc.
    repeat (apply elem_of_cons in Hc as [Hc|Hc]; [done|]). by apply not_elem_of_nil in Hc.
  - intros Hn. rewrite Hn in Hc. by apply not_elem_of_nil in Hc.
Qed.

Lemma lstrip_keeps p (s : chars) c : c ∈ s → p c = false → c ∈ lstrip p s.
Proof.
  intros Hc Hp. destruct (lstrip_suffix p s) as (d & Hd & Hall).
  rewrite Hd in Hc. apply elem_of_app in Hc as [Hc|Hc]; [|done].
  rewrite Forall_forall in Hall. specialize (Hall c Hc). congruence.
Qed.

Lemma rstrip_keeps p (s : chars) c : c ∈ s → p c = false → c ∈ rstrip p s.
Proof.
  intros Hc Hp. destruct (rstrip_prefix p s) as (d & Hd & Hall).
  rewrite Hd in Hc. apply elem_of_app in Hc as [Hc|Hc]; [done|].
  rewrite Forall_forall in Hall. specialize (Hall c Hc). congruence.
Qed.

Lemma join_keeps sep (ws : list chars) (word : chars) c :
  word ∈ ws → c ∈ word → c ∈ join sep ws.
Proof.
  induction ws as [|v ws IH]; intros Hw Hc.
  { by apply not_elem_of_nil in Hw. }
  apply elem_of_cons in Hw as [->|Hw].
  - destruct ws; simpl; [done|]. apply elem_of_app. by left.
  - destruct ws as [|v' ws]; [by apply not_elem_of_nil in Hw|].
    change (join sep (v :: v' :: ws)) with (v ++ sep ++ join sep (v' :: ws)).
    apply elem_of_app. right. apply elem_of_app. right. by apply IH.
Qed.

Lemma split_ws_go_keeps (cur : option chars) (s : chars) c :
  (c ∈ default [] cur ∨ (c ∈ s ∧ is_space c = false)) →
  (cur = None → c ∈ s) →
  ∃ word, word ∈ split_ws_go cur s ∧ c ∈ word.
Proof.
  revert cur. induction s as [|x s IH]; intros cur Hc Hnone.
  - destruct cur as [cur|]; simpl in *.
    + destruct Hc as [Hc|[Hc _]]; [|by apply not_elem_of_nil in Hc].
      exists (reverse cur). split; [by left|]. by apply elem_of_reverse.
    + specialize (Hnone eq_refl). by apply not_elem_of_nil in Hnone.
  - simpl. destruct (is_space x) eqn:Hx.
    + destruct Hc as [Hc|[Hc Hsp]].
      * destruct cur as [cur|]; simpl in Hc; [|by apply not_elem_of_nil in Hc].
        exists (reverse cur). split; [simpl; by left|]. by apply elem_of_reverse.
      * apply elem_of_cons in Hc as [->|Hc]; [congruence|].
        destruct (IH None) as (word & Hw & Hcw); [by right|done|].
        exists word. split; [|done]. apply elem_of_app. by right.
    + apply IH; [|done].
      destruct Hc as [Hc|[Hc Hsp]].
      * left. simpl. by right.
      * apply elem_of_cons in Hc as [->|Hc]; [left; simpl; by left|by right].
Qed.

Lemma split_join_keeps (s : chars) c :
  c ∈ s → is_space c = false → c ∈ join ["_"%char] (split_ws s).
Proof.
  intros Hc Hsp.
  destruct (split_ws_go_keeps None s c) as (word & Hw & Hcw); [by right|done|].
  by eapply join_keeps.
Qed.

Lemma alnum_facts c :
  is_alnum c = true →
  is_ascii c = true ∧ c ≠ OsPath.sep ∧ is_space c = false ∧ filename_char c = true
  ∧ dot_or_underscore c = false ∧ c ≠ "."%char.
Proof. destruct c as [[] [] [] [] [] [] [] []]; vm_compute; intros; repeat split; congruence. Qed.

Lemma secure_chars_keeps (s : chars) c :
  c ∈ s → is_alnum c = true → c ∈ secure_chars s.
Proof.
  intros Hc (Ha & Hsep & Hsp & Hf & Hd & _)%alnum_facts. unfold secure_chars, strip.
  apply rstrip_keeps; [|done]. apply lstrip_keeps; [|done].
  apply list_elem_of_filter. split; [done|].
  apply split_join_keeps; [|done].
  apply list_elem_of_fmap. exists c. split; [by rewrite decide_False|].
  by apply list_elem_of_filter.
Qed.

Lemma secure_filename_entry_name (s : string) c :
  c ∈ to_chars s → is_alnum c = true → entry_name (to_chars (secure_filename s)).
Proof.
  intros Hc Ha. split; [apply secure_filename_no_sep|].
  exists c. unfold secure_filename. rewrite to_of_chars.
  split; [by apply secure_chars_keeps|].
  by apply alnum_facts in Ha as (_ & _ & _ & _ & _ & ?).
Qed.

Lemma endswith_elem (s suffix : string) c :
  endswith s suffix = true → c ∈ to_chars suffix → c ∈ to_chars s.
Proof.
  unfold endswith, endswith_chars, startswith_chars.
  intros [r Hr]%bool_decide_eq_true Hc.
  apply strip_prefix_Some in Hr.
  apply (f_equal reverse) in Hr. rewrite reverse_involutive, reverse_app in Hr.
  rewrite reverse_involutive in Hr. rewrite Hr. apply elem_of_app. by right.
Qed.

Lemma secure_output_filename_entry_name (name default_name : string) :
  entry_name (to_chars (Utils.secure_output_filename name default_name)).
Proof.
  unfold Utils.secure_output_filename.
  apply (secure_filename_entry_name _ "p"%char); [|done].
  destruct (endswith _ ".pdf") eqn:He.
  - apply (endswith_elem _ ".pdf"); [done|]. simpl. right. by left.
  - rewrite to_chars_app. apply elem_of_app. right. simpl. right. by left.
Qed.

End EntryNames.

(** ** Where a computation writes *)

Lemma log_extends_refl P w : log_extends P w w.
Proof. exists []. by rewrite app_nil_r. Qed.

Lemma log_extends_same P w w' : written w' = written w → log_extends P w w'.
Proof. intros H. exists []. by rewrite app_nil_r. Qed.

Lemma log_extends_trans P w1 w2 w3 :
  log_extends P w1 w2 → log_extends P w2 w3 → log_extends P w1 w3.
Proof.
  intros (n1 & H1 & F1) (n2 & H2 & F2). exists (n1 ++ n2).
  split; [by rewrite H2, H1, app_assoc|by apply Forall_app].
Qed.

Section WritesOnly.
Context {A B : Type} (P : string → Prop).

Lemma writes_only_ret (a : A) : writes_only P (ret a).
Proof. intros w. apply log_extends_refl. Qed.

Lemma writes_only_raise (e : exn) : writes_only P (raise e : M A).
Proof. intros w. apply log_extends_refl. Qed.

Lemma writes_only_bind (m : M A) (k : A → M B) :
  writes_only P m → (∀ a, writes_only P (k a)) → writes_only P (bind m k).
Proof.
  intros Hm Hk w. unfold bind. specialize (Hm w).
  destruct (m w) as [[a|e] w1]; simpl in *; [|done].
  eapply log_extends_trans; [exact Hm|apply Hk].
Qed.

Lemma writes_only_try_except (m : M A) (h : exn → M A) :
  writes_only P m → (∀ e, writes_only P (h e)) → writes_only P (try_except m h).
Proof.
  intros Hm Hh w. unfold try_except. specialize (Hm w).
  destruct (m w) as [[a|e] w1]; simpl in *; [done|].
  eapply log_extends_trans; [exact Hm|apply Hh].
Qed.

Lemma writes_only_try_except_only (k : exn → bool) (m : M A) (h : exn → M A) :
  writes_only P m → (∀ e, writes_only P (h e)) → writes_only P (try_except_only k m h).
Proof.
  intros Hm Hh. apply writes_only_try_except; [done|].
  intros e. destruct (k e); [apply Hh|apply writes_only_raise].
Qed.

Lemma writes_only_of_option (o : option A) (e : exn) : writes_only P (of_option o e).
Proof. destruct o; [apply writes_only_ret|apply writes_only_raise]. Qed.

Lemma writes_only_same (m : M A) :
  (∀ w, written (m w).2 = written w) → writes_only P m.
Proof. intros H w. by apply log_extends_same. Qed.

End WritesOnly.

Lemma writes_only_for_each {A} (P : string → Prop) (xs : list A) (body : A → M unit) :
  (∀ x, writes_only P (body x)) → writes_only P (for_each xs body).
Proof.
  intros Hb. induction xs as [|x xs IH]; simpl.
  - apply writes_only_ret.
  - apply writes_only_bind; [apply Hb|done].
Qed.

Lemma writes_only_write_file (P : string → Prop) (p : string) (d : file_data) :
  P p → writes_only P (Os.write_file p d).
Proof.
  intros Hp w. unfold Os.write_file.
  repeat case_match; simpl; try apply log_extends_refl;
    (exists [(p, d)]; split; [done|]; by repeat constructor).
Qed.

Lemma writes_only_path_exists P p : writes_only P (Os.path_exists p).
Proof. by apply writes_only_same. Qed.
Lemma writes_only_isfile P p : writes_only P (Os.isfile p).
Proof. by apply writes_only_same. Qed.
Lemma writes_only_isdir P p : writes_only P (Os.isdir p).
Proof. by apply writes_only_same. Qed.
Lemma writes_only_listdir P p : writes_only P (Os.listdir p).
Proof. apply writes_only_same. intros w. unfold Os.listdir. by repeat case_match. Qed.
Lemma writes_only_remove P p : writes_only P (Os.remove p).
Proof. apply writes_only_same. intros w. unfold Os.remove. by repeat case_match. Qed.
Lemma writes_only_rmdir P p : writes_only P (Os.rmdir p).
Proof. apply writes_only_same. intros w. unfold Os.rmdir. by repeat case_match. Qed.
Lemma writes_only_mkdir P p : writes_only P (Os.mkdir p).
Proof. apply writes_only_same. intros w. unfold Os.mkdir. by repeat case_match. Qed.
Lemma writes_only_read_file P p : writes_only P (Os.read_file p).
Proof. apply writes_only_same. intros w. unfold Os.read_file. by repeat case_match. Qed.
Lemma writes_only_getsize P p : writes_only P (Os.getsize p).
Proof. apply writes_only_same. intros w. unfold Os.getsize. by repeat case_match. Qed.
Lemma writes_only_start_thread P t : writes_only P (Os.start_thread t).
Proof. by apply writes_only_same. Qed.

Lemma writes_only_py_index {A} P (l : list A) i : writes_only P (PDFSplitterService.py_index l i).
Proof.
  unfold PDFSplitterService.py_index.
  case_match; [apply writes_only_raise|apply writes_only_of_option].
Qed.

Lemma writes_only_makedirs P p : writes_only P (Os.makedirs p).
Proof.
  unfold Os.makedirs. generalize (String.length p) as fuel. intros fuel.
  revert p. induction fuel as [|fuel IH]; intros p; simpl.
  - apply writes_only_bind; [apply writes_only_path_exists|]. intros _.
    apply writes_only_bind; [apply writes_only_ret|]. intros _.
    apply writes_only_try_except; [apply writes_only_mkdir|]. intros e.
    apply writes_only_bind; [apply writes_only_isdir|]. intros [].
    + apply writes_only_ret.
    + apply writes_only_raise.
  - apply writes_only_bind; [apply writes_only_path_exists|]. intros b.
    apply writes_only_bind.
    { case_match; [apply IH|apply writes_only_ret]. }
    intros _.
    apply writes_only_try_except; [apply writes_only_mkdir|]. intros e.
    apply writes_only_bind; [apply writes_only_isdir|]. intros [].
    + apply writes_only_ret.
    + apply writes_only_raise.
Qed.

Lemma writes_only_cleanup_files P paths delay : writes_only P (Utils.cleanup_files paths delay).
Proof.
  apply writes_only_same. intros w. unfold Utils.cleanup_files.
  case_match; [done|]. rewrite delayed_cleanup_fold. simpl. apply cleanup_fold_written.
Qed.

Lemma writes_only_create_temp_directory P base uid :
  writes_only P (Utils.create_temp_directory base uid).
Proof.
  unfold Utils.create_temp_directory.
  apply writes_only_bind; [apply writes_only_makedirs|]. intros _. apply writes_only_ret.
Qed.

Create HintDb writes discriminated.
#[export] Hint Resolve
  writes_only_ret writes_only_raise writes_only_of_option
  writes_only_path_exists writes_only_isfile writes_only_isdir writes_only_listdir
  writes_only_remove writes_only_rmdir writes_only_mkdir writes_only_read_file
  writes_only_getsize writes_only_start_thread writes_only_py_index
  writes_only_makedirs writes_only_cleanup_files writes_only_create_temp_directory
  : writes.

(** Walks through binds, handlers and case distinctions. *)
Ltac writes_step :=
  first
    [ apply writes_only_bind; [|intros ?]
    | apply writes_only_try_except_only; [|intros ?]
    | apply writes_only_try_except; [|intros ?]
    | apply writes_only_for_each; intros ?
    | solve [auto with writes]
    | match goal with
      | |- writes_only _ (match ?x with _ => _ end) => destruct x
      | |- writes_only _ (if ?x then _ else _) => destruct x
      | |- writes_only _ (let '(_, _) := ?x in _) => destruct x
      end ].
Ltac writes_auto := repeat writes_step.

(** ** Every tool writes where its layout says *)

Lemma pretty_N_go_Forall (P : ascii → Prop) (x : N) (s : string) :
  (∀ n, P (pretty_N_char n)) →
  Forall P (PyStr.to_chars s) → Forall P (PyStr.to_chars (pretty_N_go x s)).
Proof.
  intros HP. revert s. induction (N.lt_wf_0 x) as [x _ IH]; intros s Hs.
  assert (x = 0 ∨ 0 < x)%N as [->|Hx] by lia.
  - by rewrite pretty_N_go_0.
  - rewrite pretty_N_go_step by done. apply IH.
    { by apply N.div_lt. }
    simpl. by constructor.
Qed.

Lemma str_of_Z_no_sep (z : Z) :
  PyStr.has_char OsPath.sep (PyStr.to_chars (PyStr.str_of_Z z)) = false.
Proof.
  apply has_char_false.
  assert (∀ n, pretty_N_char n ≠ OsPath.sep) as Hdig.
  { intros n. unfold pretty_N_char. by repeat case_match. }
  assert (∀ p : positive,
            Forall (λ x, x ≠ OsPath.sep) (PyStr.to_chars (pretty p))) as Hpos.
  { intros p. unfold pretty, pretty_positive, pretty, pretty_N.
    case_decide; [done|]. by apply pretty_N_go_Forall. }
  unfold PyStr.str_of_Z, pretty, pretty_Z. destruct z as [|p|p].
  - by repeat constructor.
  - apply Hpos.
  - rewrite to_chars_app. apply Forall_app. split; [by repeat constructor|apply Hpos].
Qed.

Lemma entry_name_no_sep (n : string) :
  entry_name (PyStr.to_chars n) → PyStr.has_char OsPath.sep (PyStr.to_chars n) = false.
Proof. by intros [? _]. Qed.

(** Proves that a name put together with [+:+] has no separator. *)
Ltac no_sep :=
  rewrite ?to_chars_app, ?has_char_app;
  repeat (apply orb_false_iff; split);
  first [ reflexivity | apply str_of_Z_no_sep | apply secure_filename_no_sep
        | apply entry_name_no_sep; assumption
        | apply entry_name_no_sep, secure_output_filename_entry_name
        | assumption ].

Lemma staged_name_entry (i : Z) (raw : string) :
  entry_name (PyStr.to_chars
    ("temp_" +:+ PyStr.str_of_Z i +:+ "_" +:+ Werkzeug.secure_filename raw)).
Proof.
  split; [no_sep|]. exists "t"%char. split; [|done].
  rewrite to_chars_app. apply elem_of_app. left. simpl. by left.
Qed.

Lemma writes_only_save_uploaded_files (temp_dir : string) (files : list upload) (i : Z) :
  writes_only (λ p, OsPath.child_of temp_dir p = true)
    (Utils.save_uploaded_files_from i files temp_dir).
Proof.
  revert i. induction files as [|file files IH]; intros i; simpl.
  - apply writes_only_ret.
  - destruct (truthy (filename file)); [|apply IH].
    apply writes_only_bind.
    { apply writes_only_write_file, child_of_join, staged_name_entry. }
    intros _. apply writes_only_bind; [apply IH|]. intros ?. apply writes_only_ret.
Qed.

Lemma writes_only_append_all P temp_files acc :
  writes_only P (PDFMergerService.append_all temp_files acc).
Proof.
  revert acc. induction temp_files as [|f fs IH]; intros acc; simpl.
  - apply writes_only_ret.
  - apply writes_only_bind.
    { writes_auto. }
    intros [ps|m]; [apply IH|apply writes_only_ret].
Qed.

Lemma writes_only_bind_val {A B} (P : string → Prop) (Q : A → Prop)
    (m : M A) (k : A → M B) :
  writes_only P m → (∀ w a w', m w = (Val a, w') → Q a) →
  (∀ a, Q a → writes_only P (k a)) → writes_only P (bind m k).
Proof.
  intros Hm HQ Hk w. unfold bind. specialize (Hm w). specialize (HQ w).
  destruct (m w) as [[a|e] w1]; simpl in *; [|done].
  eapply log_extends_trans; [exact Hm|]. apply Hk. by eapply HQ.
Qed.

Lemma create_temp_directory_val (base uid : string) (w w' : world) (a : string) :
  Utils.create_temp_directory base uid w = (Val a, w') → a = OsPath.join base uid.
Proof.
  unfold Utils.create_temp_directory. intros H.
  apply bind_inv in H as (? & ? & _ & H). by injection H as <- _.
Qed.

(** The body of a service after the job directory has been created. *)
Lemma writes_only_in_temp_directory {B} (P : string → Prop) (base uid : string)
    (k : string → M B) :
  writes_only P (k (OsPath.join base uid)) →
  writes_only P (bind (Utils.create_temp_directory base uid) k).
Proof.
  intros Hk.
  apply (writes_only_bind_val P (λ a, a = OsPath.join base uid)).
  - auto with writes.
  - intros w a w'. apply create_temp_directory_val.
  - by intros a ->.
Qed.

Lemma writes_only_merge_files (cfg : config) (L : Libs) (uid : string)
    (files : list upload) (output_filename : string) :
  writes_only (in_job_dir cfg uid)
    (PDFMergerService.merge_files cfg L uid files output_filename).
Proof.
  unfold PDFMergerService.merge_files, in_job_dir, job_dir.
  apply writes_only_try_except; [|intros e; apply writes_only_ret].
  destruct (Utils.validate_pdf_files cfg files 2); [|apply writes_only_ret].
  apply writes_only_in_temp_directory.
  apply writes_only_bind; [apply writes_only_save_uploaded_files|]. intros temp_files.
  apply writes_only_bind.
  { unfold PDFMergerService._merge_pdf_files.
    apply writes_only_try_except; [|intros e; apply writes_only_ret].
    apply writes_only_bind; [apply writes_only_append_all|]. intros [pages|m].
    - apply writes_only_bind; [|intros _; apply writes_only_ret].
      apply writes_only_write_file, child_of_join, secure_output_filename_entry_name.
    - apply writes_only_ret. }
  intros r. writes_auto.
Qed.

Lemma merge_files_result (cfg : config) (L : Libs) (uid : string)
    (files : list upload) (output_filename : string) (w w' : world) (r : job_result) :
  PDFMergerService.merge_files cfg L uid files output_filename w = (Val (Success r), w') →
  unique_id r = uid
  ∧ result_filename r = Utils.secure_output_filename output_filename "merged-document.pdf".
Proof.
  intros H. unfold PDFMergerService.merge_files in H.
  apply (try_except_success_inv _ (λ e, "An error occurred during merge: " +:+ exn_str e)) in H.
  destruct (Utils.validate_pdf_files cfg files 2); [|done].
  apply bind_inv in H as (temp_dir & w1 & _ & H).
  apply bind_inv in H as (temp_files & w2 & _ & H).
  apply bind_inv in H as (r0 & w3 & _ & H).
  destruct r0; [|by apply bind_inv in H as (? & ? & _ & H)].
  apply bind_inv in H as (? & ? & _ & H). by injection H as <- _.
Qed.

Lemma job_path_in_job_dir (cfg : config) (uid name : string) :
  entry_name (PyStr.to_chars name) →
  in_job_dir cfg uid (OsPath.join3 (UPLOAD_FOLDER cfg) uid name).
Proof. intros Hn. unfold in_job_dir, job_dir, OsPath.join3. by apply child_of_join. Qed.

Lemma dash_name_entry (prefix rest : string) :
  PyStr.has_char OsPath.sep (PyStr.to_chars prefix) = false →
  PyStr.has_char OsPath.sep (PyStr.to_chars rest) = false →
  entry_name (PyStr.to_chars (prefix +:+ "-" +:+ rest)).
Proof.
  intros Hp Hr. split; [no_sep|]. exists "-"%char. split; [|done].
  rewrite !to_chars_app. apply elem_of_app. right. apply elem_of_app. left. simpl. by left.
Qed.

Lemma writes_only_write_pages (L : Libs) (pages : list page) (nums : list Z)
    (temp_dir output_filename : string) :
  PyStr.has_char OsPath.sep (PyStr.to_chars output_filename) = false →
  writes_only (λ p, OsPath.child_of temp_dir p = true)
    (PDFSplitterService.write_pages L pages nums temp_dir output_filename).
Proof.
  intros Hout. induction nums as [|n nums IH]; simpl.
  - apply writes_only_ret.
  - apply writes_only_bind; [auto with writes|]. intros pg.
    apply writes_only_bind.
    { apply writes_only_write_file, child_of_join.
      apply (dash_name_entry output_filename
               ("page-" +:+ PyStr.str_of_Z (n + 1) +:+ ".pdf")); [done|no_sep]. }
    intros _. apply writes_only_bind; [exact IH|]. intros ?. apply writes_only_ret.
Qed.

Lemma parse_range_desc_no_sep (pages : list page) (tok : string) (w w' : world)
    (ps : list page) (desc : string) :
  PDFSplitterService.parse_range pages tok w = (Val (Success (ps, desc)), w') →
  PyStr.has_char OsPath.sep (PyStr.to_chars desc) = false.
Proof.
  intros H.
  destruct (spec_range (Z.of_nat (length pages)) tok) as [[a b]|] eqn:Hspec.
  - rewrite (parse_range_accepts pages tok a b w Hspec) in H.
    injection H as _ <- _. unfold range_desc. case_match; no_sep.
  - destruct (parse_range_rejects pages tok w Hspec) as [msg Hm]. congruence.
Qed.

Lemma parse_range_log (pages : list page) (tok : string) (w : world) :
  written (PDFSplitterService.parse_range pages tok w).2 = written w.
Proof.
  destruct (spec_range (Z.of_nat (length pages)) tok) as [[a b]|] eqn:Hspec.
  - by rewrite (parse_range_accepts pages tok a b w Hspec).
  - destruct (parse_range_rejects pages tok w Hspec) as [msg Hm]. by rewrite Hm.
Qed.

Lemma writes_only_write_ranges (L : Libs) (pages : list page) (toks : list string)
    (temp_dir output_filename : string) :
  PyStr.has_char OsPath.sep (PyStr.to_chars output_filename) = false →
  writes_only (λ p, OsPath.child_of temp_dir p = true)
    (PDFSplitterService.write_ranges L pages toks temp_dir output_filename).
Proof.
  intros Hout. induction toks as [|tok toks IH]; simpl.
  - apply writes_only_ret.
  - apply (writes_only_bind_val _
             (λ r, match r with
                   | Success (_, desc) =>
                       PyStr.has_char OsPath.sep (PyStr.to_chars desc) = false
                   | Failure _ => True
                   end)).
    + apply writes_only_same, parse_range_log.
    + intros w [[ps desc]|m] w' H; [|done]. by eapply parse_range_desc_no_sep.
    + intros [[ps desc]|m] Hdesc; [|apply writes_only_ret].
      apply writes_only_bind.
      { apply writes_only_write_file, child_of_join.
        apply (dash_name_entry output_filename (desc +:+ ".pdf")); [done|no_sep]. }
      intros _. apply writes_only_bind; [exact IH|]. intros [?|?]; apply writes_only_ret.
Qed.

Lemma writes_only_zip_entries P (paths : list string) :
  writes_only P (PDFSplitterService.zip_entries paths).
Proof.
  induction paths as [|p paths IH]; simpl; [apply writes_only_ret|].
  apply writes_only_bind; [auto with writes|]. intros d.
  apply writes_only_bind; [exact IH|]. intros ?. apply writes_only_ret.
Qed.

Lemma writes_only_split_pdf (cfg : config) (L : Libs) (uid : string) (file : upload)
    (split_type : string) (page_ranges : list string) (output_filename : string) :
  writes_only (in_job_dir cfg uid)
    (PDFSplitterService.split_pdf cfg L uid file split_type page_ranges output_filename).
Proof.
  unfold PDFSplitterService.split_pdf, in_job_dir, job_dir.
  apply writes_only_try_except; [|intros e; apply writes_only_ret].
  destruct (Utils.validate_pdf_files cfg [file] 1); [|apply writes_only_ret].
  apply writes_only_bind; [auto with writes|]. intros valid_file.
  apply writes_only_in_temp_directory.
  apply writes_only_bind; [apply writes_only_save_uploaded_files|]. intros temp_files.
  apply writes_only_bind; [auto with writes|]. intros input_file.
  set (out := Utils.secure_output_filename _ "split-pdf").
  assert (PyStr.has_char OsPath.sep (PyStr.to_chars out) = false) as Hout.
  { apply entry_name_no_sep, secure_output_filename_entry_name. }
  assert (∀ r : outcome split_files,
            writes_only (λ p, OsPath.child_of (OsPath.join (UPLOAD_FOLDER cfg) uid) p = true)
              (match r with
               | Success result =>
                   zip_success <- PDFSplitterService._create_zip_file L (files result)
                                    (OsPath.join (OsPath.join (UPLOAD_FOLDER cfg) uid)
                                       (out +:+ "-split.zip")) ;;
                   if zip_success : bool then
                     Utils.cleanup_files (temp_files ++ files result) 0 ;;;
                     ret (Success (SplitResult uid (out +:+ "-split.zip")
                            ("PDF split successfully into " +:+ PyStr.str_of_Z (count result)
                             +:+ " files!")
                            (count result)))
                   else
                     Utils.cleanup_files
                       (temp_files ++ files result ++ [OsPath.join (UPLOAD_FOLDER cfg) uid]) 0 ;;;
                     ret (Failure "Error creating ZIP file")
               | Failure m =>
                   Utils.cleanup_files (temp_files ++ [OsPath.join (UPLOAD_FOLDER cfg) uid]) 0 ;;;
                   ret (Failure m)
               end)) as Hfinish.
  { intros [result|m]; [|writes_auto].
    apply writes_only_bind; [|intros []; writes_auto].
    unfold PDFSplitterService._create_zip_file.
    assert (OsPath.child_of (OsPath.join (UPLOAD_FOLDER cfg) uid)
              (OsPath.join (OsPath.join (UPLOAD_FOLDER cfg) uid) (out +:+ "-split.zip")) = true)
      as Hzip.
    { apply child_of_join. apply (dash_name_entry out "split.zip"); [done|reflexivity]. }
    apply writes_only_try_except; [|intros e; apply writes_only_ret].
    apply writes_only_bind; [by apply writes_only_write_file|]. intros _.
    apply writes_only_bind; [by apply writes_only_zip_entries|]. intros es.
    apply writes_only_bind; [by apply writes_only_write_file|]. intros _.
    apply writes_only_ret. }
  destruct (bool_decide (split_type = "pages")).
  { apply writes_only_bind; [|exact Hfinish].
    unfold PDFSplitterService._split_into_pages.
    apply writes_only_try_except; [|intros e; apply writes_only_ret].
    apply writes_only_bind.
    { unfold PDFSplitterService.read_pdf. writes_auto. }
    intros pages. apply writes_only_bind; [by apply writes_only_write_pages|].
    intros ?. apply writes_only_ret. }
  destruct (bool_decide (split_type = "ranges")); [|apply writes_only_ret].
  apply writes_only_bind; [|exact Hfinish].
  unfold PDFSplitterService._split_into_ranges.
  apply writes_only_try_except; [|intros e; apply writes_only_ret].
  destruct page_ranges as [|t toks]; [apply writes_only_ret|].
  apply writes_only_bind.
  { unfold PDFSplitterService.read_pdf. writes_auto. }
  intros pages. apply writes_only_bind; [by apply writes_only_write_ranges|].
  intros [?|?]; apply writes_only_ret.
Qed.

Lemma split_pdf_result (cfg : config) (L : Libs) (uid : string) (file : upload)
    (split_type : string) (page_ranges : list string) (output_filename : string)
    (w w' : world) (r : split_result) :
  PDFSplitterService.split_pdf cfg L uid file split_type page_ranges output_filename w
    = (Val (Success r), w') →
  split_unique_id r = uid
  ∧ ∃ x, split_filename r = Utils.secure_output_filename x "split-pdf" +:+ "-split.zip".
Proof.
  intros H. unfold PDFSplitterService.split_pdf in H.
  apply (try_except_success_inv _ (λ e, "An error occurred during split: " +:+ exn_str e)) in H.
  destruct (Utils.validate_pdf_files cfg [file] 1); [|done].
  apply bind_inv in H as (valid_file & w1 & _ & H).
  apply bind_inv in H as (temp_dir & w2 & _ & H).
  apply bind_inv in H as (temp_files & w3 & _ & H).
  apply bind_inv in H as (input_file & w4 & _ & H).
  assert (∀ (r0 : outcome split_files) w5,
            match r0 with
            | Success result =>
                zip_success <- PDFSplitterService._create_zip_file L (files result)
                  (OsPath.join temp_dir
                     (Utils.secure_output_filename
                        (if truthy output_filename then output_filename
                         else (OsPath.splitext (filename valid_file)).1) "split-pdf"
                      +:+ "-split.zip")) ;;
                if zip_success : bool then
                  Utils.cleanup_files (temp_files ++ files result) 0 ;;;
                  ret (Success (SplitResult uid
                         (Utils.secure_output_filename
                            (if truthy output_filename then output_filename
                             else (OsPath.splitext (filename valid_file)).1) "split-pdf"
                          +:+ "-split.zip")
                         ("PDF split successfully into " +:+ PyStr.str_of_Z (count result)
                          +:+ " files!")
                         (count result)))
                else
                  Utils.cleanup_files (temp_files ++ files result ++ [temp_dir]) 0 ;;;
                  ret (Failure "Error creating ZIP file")
            | Failure m =>
                Utils.cleanup_files (temp_files ++ [temp_dir]) 0 ;;; ret (Failure m)
            end w5 = (Val (Success r), w') →
            split_unique_id r = uid
            ∧ ∃ x, split_filename r
                   = Utils.secure_output_filename x "split-pdf" +:+ "-split.zip") as Hfinish.
  { intros [result|m] w5 Hr.
    - apply bind_inv in Hr as (zs & w6 & _ & Hr). destruct zs.
      + apply bind_inv in Hr as (? & ? & _ & Hr). injection Hr as <- _. simpl. eauto.
      + by apply bind_inv in Hr as (? & ? & _ & Hr).
    - by apply bind_inv in Hr as (? & ? & _ & Hr). }
  destruct (bool_decide (split_type = "pages")).
  { apply bind_inv in H as (r0 & w5 & _ & H). by eapply Hfinish. }
  destruct (bool_decide (split_type = "ranges")); [|done].
  apply bind_inv in H as (r0 & w5 & _ & H). by eapply Hfinish.
Qed.

Lemma split_zip_name_entry (x : string) :
  entry_name (PyStr.to_chars (Utils.secure_output_filename x "split-pdf" +:+ "-split.zip")).
Proof.
  apply (dash_name_entry _ "split.zip"); [|reflexivity].
  apply entry_name_no_sep, secure_output_filename_entry_name.
Qed.

Lemma splitext_root_no_sep (o : string) :
  PyStr.has_char OsPath.sep (PyStr.to_chars o) = false →
  PyStr.has_char OsPath.sep (PyStr.to_chars (OsPath.splitext o).1) = false.
Proof.
  intros Ho. unfold OsPath.splitext, OsPath.splitext_chars. simpl.
  rewrite to_of_chars. case_match; simpl; [|done].
  apply has_char_false, Forall_take. by apply has_char_false.
Qed.

Lemma docx_name_entry (x : string) :
  entry_name (PyStr.to_chars
    (docx_name (Utils.secure_output_filename x "converted-document.docx"))).
Proof.
  unfold docx_name.
  pose proof (secure_output_filename_entry_name x "converted-document.docx") as Ho.
  case_match; [done|].
  split.
  - rewrite to_chars_app, has_char_app. apply orb_false_iff. split; [|reflexivity].
    apply splitext_root_no_sep. by destruct Ho.
  - exists "d"%char. split; [|done]. rewrite to_chars_app. apply elem_of_app. right.
    simpl. right. by left.
Qed.

Lemma writes_only_convert_file (cfg : config) (L : Libs) (uid : string)
    (files : list upload) (output_filename : string) :
  writes_only (in_job_dir cfg uid)
    (PDFToWordService.convert_file cfg L uid files output_filename).
Proof.
  unfold PDFToWordService.convert_file, in_job_dir, job_dir.
  apply writes_only_try_except; [|intros e; apply writes_only_ret].
  destruct (Utils.validate_pdf_files cfg files 1) as [valid_files|]; [|apply writes_only_ret].
  destruct (1 <? _); [apply writes_only_ret|].
  apply writes_only_in_temp_directory.
  apply writes_only_bind; [apply writes_only_save_uploaded_files|]. intros temp_files.
  destruct temp_files as [|tf temp_files]; [apply writes_only_ret|].
  apply writes_only_bind; [auto with writes|]. intros first_file.
  apply writes_only_bind; [auto with writes|]. intros temp_file.
  apply writes_only_bind; [|intros r; writes_auto].
  unfold PDFToWordService._convert_pdf_to_word.
  apply writes_only_try_except; [|intros e; writes_auto].
  destruct (negb (pdf2docx_available L)); [apply writes_only_ret|].
  apply writes_only_bind; [auto with writes|]. intros d.
  apply writes_only_bind; [auto with writes|]. intros out.
  apply writes_only_bind; [|intros _; writes_auto].
  apply writes_only_write_file, child_of_join.
  match goal with
  | |- entry_name (PyStr.to_chars (if PyStr.endswith ?o ".docx" then _ else _)) =>
      change (entry_name (PyStr.to_chars (docx_name o)))
  end.
  apply docx_name_entry.
Qed.

Lemma convert_file_result (cfg : config) (L : Libs) (uid : string)
    (files : list upload) (output_filename : string) (w w' : world) (r : job_result) :
  PDFToWordService.convert_file cfg L uid files output_filename w = (Val (Success r), w') →
  unique_id r = uid
  ∧ ∃ x, result_filename r
         = docx_name (Utils.secure_output_filename x "converted-document.docx").
Proof.
  intros H. unfold PDFToWordService.convert_file in H.
  apply (try_except_success_inv _
           (λ e, "An error occurred during conversion: " +:+ exn_str e)) in H.
  destruct (Utils.validate_pdf_files cfg files 1) as [valid_files|]; [|done].
  destruct (1 <? _); [done|].
  apply bind_inv in H as (temp_dir & w1 & _ & H).
  apply bind_inv in H as (temp_files & w2 & _ & H).
  destruct temp_files as [|tf temp_files]; [done|].
  apply bind_inv in H as (first_file & w3 & _ & H).
  apply bind_inv in H as (temp_file & w4 & _ & H).
  apply bind_inv in H as (r0 & w5 & _ & H).
  destruct r0; [|by apply bind_inv in H as (? & ? & _ & H)].
  apply bind_inv in H as (? & ? & _ & H). unfold ret in H.
  match type of H with
  | (Val (Success ?x), _) = _ => remember x as r' eqn:Hr'
  end.
  injection H as <- _. rewrite Hr'.
  split; [reflexivity|]. eexists. reflexivity.
Qed.

Lemma writes_only_convert_word_to_pdf (cfg : config) (L : Libs) (uid : string)
    (file : upload) (output_filename : string) :
  writes_only (in_job_dir cfg uid)
    (WordToPDFService.convert_word_to_pdf cfg L uid file output_filename).
Proof.
  unfold WordToPDFService.convert_word_to_pdf, in_job_dir, job_dir.
  apply writes_only_try_except; [|intros e; apply writes_only_ret].
  destruct (WordToPDFService._validate_word_file [file]); [|apply writes_only_ret].
  apply writes_only_bind; [auto with writes|]. intros valid_file.
  apply writes_only_in_temp_directory.
  apply writes_only_bind; [apply writes_only_save_uploaded_files|]. intros temp_files.
  apply writes_only_bind; [auto with writes|]. intros input_file.
  apply writes_only_bind; [|intros r; writes_auto].
  unfold WordToPDFService._convert_docx_to_pdf.
  apply writes_only_try_except; [|intros e; writes_auto].
  apply writes_only_bind; [auto with writes|]. intros d.
  apply writes_only_bind; [auto with writes|]. intros out.
  apply writes_only_bind; [|intros _; writes_auto].
  apply writes_only_write_file, child_of_join, secure_output_filename_entry_name.
Qed.

Lemma convert_word_to_pdf_result (cfg : config) (L : Libs) (uid : string)
    (file : upload) (output_filename : string) (w w' : world) (r : job_result) :
  WordToPDFService.convert_word_to_pdf cfg L uid file output_filename w
    = (Val (Success r), w') →
  unique_id r = uid
  ∧ ∃ x, result_filename r = Utils.secure_output_filename x "word-to-pdf.pdf".
Proof.
  intros H. unfold WordToPDFService.convert_word_to_pdf in H.
  apply (try_except_success_inv _
           (λ e, "An error occurred during conversion: " +:+ exn_str e)) in H.
  destruct (WordToPDFService._validate_word_file [file]); [|done].
  apply bind_inv in H as (valid_file & w1 & _ & H).
  apply bind_inv in H as (temp_dir & w2 & _ & H).
  apply bind_inv in H as (temp_files & w3 & _ & H).
  apply bind_inv in H as (input_file & w4 & _ & H).
  apply bind_inv in H as (r0 & w5 & _ & H).
  destruct r0; [|by apply bind_inv in H as (? & ? & _ & H)].
  apply bind_inv in H as (? & ? & _ & H). unfold ret in H.
  match type of H with
  | (Val (Success ?x), _) = _ => remember x as r' eqn:Hr'
  end.
  injection H as <- _. rewrite Hr'.
  split; [reflexivity|]. eexists. reflexivity.
Qed.

Lemma writes_only_compress_pdf (L : Libs) (uid : string) (file : upload)
    (output_filename lvl : string) :
  writes_only (in_flat_layout uid)
    (PDFCompressorService.compress_pdf L uid file output_filename lvl).
Proof.
  unfold PDFCompressorService.compress_pdf.
  apply writes_only_try_except; [|intros e; apply writes_only_ret].
  destruct (negb (truthy (filename file))); [apply writes_only_ret|].
  destruct (negb (PyStr.endswith _ _)); [apply writes_only_ret|].
  cbv zeta.
  apply writes_only_bind.
  { apply writes_only_write_file. left. by eexists. }
  intros _. apply writes_only_bind; [auto with writes|]. intros osz.
  match goal with
  | |- context [PDFCompressorService._compress_pdf_file L _ ?op lvl] =>
      assert (in_flat_layout uid op) as Hop by (right; by eexists)
  end.
  apply writes_only_bind.
  { unfold PDFCompressorService._compress_pdf_file,
      PDFCompressorService._compress_with_advanced_method,
      PDFCompressorService._compress_with_basic_method.
    apply writes_only_try_except; [|intros e; apply writes_only_ret].
    apply writes_only_bind.
    - apply writes_only_try_except; [|intros e; apply writes_only_ret].
      apply writes_only_bind; [writes_auto|]. intros _.
      apply writes_only_bind; [auto with writes|]. intros doc.
      apply writes_only_bind; [auto with writes|]. intros new_doc.
      apply writes_only_bind; [by apply writes_only_write_file|]. intros _.
      apply writes_only_ret.
    - intros []; [apply writes_only_ret|].
      apply writes_only_try_except; [|intros e; apply writes_only_ret].
      apply writes_only_bind; [auto with writes|]. intros d.
      apply writes_only_bind; [auto with writes|]. intros pages.
      apply writes_only_bind; [apply writes_only_raise|]. intros _.
      apply writes_only_bind; [by apply writes_only_write_file|]. intros _.
      apply writes_only_ret. }
  intros success. writes_auto.
Qed.

Lemma compress_output_path_flat (uid : string) (file : upload) (output_filename : string) :
  flat_result uid (compress_output_path uid file output_filename)
  ∧ PDFCompressorService.get_file_path uid (compress_output_name file output_filename)
    = compress_output_path uid file output_filename.
Proof.
  unfold compress_output_path, compress_output_name, PDFCompressorService.get_file_path.
  split; [by eexists|]. by rewrite secure_filename_idemp.
Qed.

Lemma writes_only_remove_temp_files P tfs :
  writes_only P (ImageToPDFService.remove_temp_files tfs).
Proof. unfold ImageToPDFService.remove_temp_files. writes_auto. Qed.

Lemma writes_only_stateless {A} (P : string → Prop) (m : M A) :
  stateless m → writes_only P m.
Proof.
  intros [r Hr] w. exists []. rewrite Hr. simpl. by rewrite app_nil_r.
Qed.

Lemma stateless_available_area (margin : Z) :
  stateless (ImageToPDFService.available_area margin).
Proof.
  apply stateless_bind; [apply stateless_float_of_int|]. intros. apply stateless_ret.
Qed.

Lemma writes_only_draw_images (files : list upload) (last_id : option nat) (margin : Z)
    (area : PyFloat.float * PyFloat.float) (uid : string) (c : canvas) (tfs : list string) :
  writes_only (in_flat_layout uid)
    (ImageToPDFService.draw_images files last_id margin area uid c tfs).
Proof.
  revert c tfs. induction files as [|file files IH]; intros c tfs; simpl.
  - apply writes_only_ret.
  - apply writes_only_bind.
    { apply writes_only_write_file. left. by eexists. }
    intros _. apply writes_only_bind.
    + apply writes_only_try_except.
      * apply writes_only_bind.
        { unfold ImageToPDFService.open_image. writes_auto. }
        intros sz. apply writes_only_bind.
        { apply writes_only_stateless, stateless_place_image. }
        intros d. apply writes_only_ret.
      * intros e. apply writes_only_bind; [apply writes_only_remove_temp_files|].
        intros _. apply writes_only_ret.
    + intros [c'|]; [apply IH|apply writes_only_ret].
Qed.

Lemma writes_only_open_images (files : list upload) (uid : string)
    (images : list (Z * Z)) (tfs : list string) :
  writes_only (in_flat_layout uid) (ImageToPDFService.open_images files uid images tfs).
Proof.
  revert images tfs. induction files as [|file files IH]; intros images tfs; simpl.
  - apply writes_only_ret.
  - apply writes_only_bind.
    { apply writes_only_write_file. left. by eexists. }
    intros _. apply writes_only_bind.
    + apply writes_only_try_except.
      * unfold ImageToPDFService.open_image. writes_auto.
      * intros e. apply writes_only_bind; [apply writes_only_remove_temp_files|].
        intros _. apply writes_only_ret.
    + intros [sz|]; [apply IH|apply writes_only_ret].
Qed.

Lemma writes_only_convert_images_with_margins (L : Libs) (files : list upload)
    (output_path : string) (margin : Z) (uid : string) :
  in_flat_layout uid output_path →
  writes_only (in_flat_layout uid)
    (ImageToPDFService._convert_images_with_margins L files output_path margin uid).
Proof.
  intros Hop. unfold ImageToPDFService._convert_images_with_margins.
  apply writes_only_try_except; [|intros e; apply writes_only_ret].
  apply writes_only_try_except_only.
  - apply writes_only_bind; [writes_auto|]. intros _.
    apply writes_only_bind.
    { apply writes_only_stateless, stateless_available_area. }
    intros area.
    apply writes_only_bind; [apply writes_only_draw_images|]. intros [[c tfs]|].
    + apply writes_only_bind; [by apply writes_only_write_file|]. intros _.
      apply writes_only_bind; [apply writes_only_remove_temp_files|]. intros _.
      apply writes_only_ret.
    + apply writes_only_ret.
  - intros e. unfold ImageToPDFService._convert_images_simple.
    apply writes_only_try_except; [|intros e'; apply writes_only_ret].
    apply writes_only_bind; [apply writes_only_open_images|]. intros [[images tfs]|].
    + destruct images.
      * apply writes_only_bind; [apply writes_only_remove_temp_files|]. intros _.
        apply writes_only_ret.
      * apply writes_only_bind; [by apply writes_only_write_file|]. intros _.
        apply writes_only_bind; [apply writes_only_remove_temp_files|]. intros _.
        apply writes_only_ret.
    + apply writes_only_ret.
Qed.

Lemma writes_only_convert_images_to_pdf (L : Libs) (uid : string) (files : list upload)
    (output_filename margin_size : string) :
  writes_only (in_flat_layout uid)
    (ImageToPDFService.convert_images_to_pdf L uid files output_filename margin_size).
Proof.
  unfold ImageToPDFService.convert_images_to_pdf.
  apply writes_only_try_except; [|intros e; apply writes_only_ret].
  destruct files as [|f files]; [apply writes_only_ret|].
  destruct (filter _ (f :: files)) as [|v valid_files]; [apply writes_only_ret|].
  apply writes_only_bind; [auto with writes|]. intros margin.
  apply writes_only_bind.
  { apply writes_only_convert_images_with_margins. right. by eexists. }
  intros success. writes_auto.
Qed.

Lemma convert_images_to_pdf_result (L : Libs) (uid : string) (files : list upload)
    (output_filename margin_size : string) (w w' : world) (r : image_result) :
  ImageToPDFService.convert_images_to_pdf L uid files output_filename margin_size w
    = (Val (Success r), w') →
  i_unique_id r = uid
  ∧ flat_result uid (i_file_path r)
  ∧ ImageToPDFService.get_file_path uid (i_filename r) = i_file_path r.
Proof.
  intros H. unfold ImageToPDFService.convert_images_to_pdf in H.
  apply (try_except_success_inv _ (λ e, "Conversion failed: " +:+ exn_str e)) in H.
  destruct files as [|f files]; [done|].
  destruct (filter _ (f :: files)) as [|v valid_files]; [done|].
  apply bind_inv in H as (margin & w1 & _ & H).
  apply bind_inv in H as (success & w2 & _ & H).
  destruct success; [|done]. cbv beta iota zeta delta [negb ret] in H.
  match type of H with
  | (Val (Success ?x), _) = _ => remember x as r' eqn:Hr'
  end.
  injection H as <- _. rewrite Hr'.
  split; [reflexivity|]. split; [by eexists|].
  cbn [i_filename i_file_path]. unfold ImageToPDFService.get_file_path.
  by rewrite secure_filename_idemp.
Qed.

(** C1, as stated, fails for the compressor (and the image service): a
    successful compression stages its input and writes its result directly
    in the upload folder, and the download path is that file, outside the
    directory named by the job identifier. *)
Lemma C1_flat_layout_counterexample :
  let uid := "3f2b8c1e-0d4a-4e6f-9a7b-5c1d2e3f4a5b" in
  ∃ r w',
    PDFCompressorService.compress_pdf Demo.libs uid Demo.a_pdf "" "medium" Demo.w0
      = (Val (Success r), w')
    ∧ (written w').*1
      = ["uploads/temp_3f2b8c1e-0d4a-4e6f-9a7b-5c1d2e3f4a5b_a.pdf";
         "uploads/3f2b8c1e-0d4a-4e6f-9a7b-5c1d2e3f4a5b_a_compressed.pdf"]
    ∧ Forall (λ p, OsPath.child_of (job_dir default_config uid) p = false) (written w').*1
    ∧ Routes.download_path default_config uid (c_filename r) = c_file_path r
    ∧ OsPath.child_of (job_dir default_config uid)
        (Routes.download_path default_config uid (c_filename r)) = false.
Proof.
  eexists _, _. split; [vm_compute; reflexivity|].
  split; [vm_compute; reflexivity|].
  split; [repeat constructor|].
  split; vm_compute; reflexivity.
Qed.

(** C1, amended: the merge, split, PDF-to-Word and Word-to-PDF services
    write every file of a job (staged copies and results) directly inside
    the directory [<uploadRoot>/<jobID>], and the path their
    [get_file_path] gives for the result lies in that directory; the
    compressor and the image service write directly in the default upload
    folder, the staged copy as [temp_<jobID>_<name>] and the result as
    [<jobID>_<filename>], and their [get_file_path] gives the path of that
    result. *)
Theorem C1_files_follow_service_layout
    (cfg : config) (L : Libs) (uid : string) (w : world) :
  (∀ files output_filename r w',
     PDFMergerService.merge_files cfg L uid files output_filename w = (Val (Success r), w') →
     unique_id r = uid
     ∧ log_extends (in_job_dir cfg uid) w w'
     ∧ in_job_dir cfg uid (Routes.get_file_path cfg Merger uid (result_filename r)))
  ∧ (∀ file split_type page_ranges output_filename r w',
       PDFSplitterService.split_pdf cfg L uid file split_type page_ranges output_filename w
         = (Val (Success r), w') →
       split_unique_id r = uid
       ∧ log_extends (in_job_dir cfg uid) w w'
       ∧ in_job_dir cfg uid (Routes.get_file_path cfg Splitter uid (split_filename r)))
  ∧ (∀ files output_filename r w',
       PDFToWordService.convert_file cfg L uid files output_filename w = (Val (Success r), w') →
       unique_id r = uid
       ∧ log_extends (in_job_dir cfg uid) w w'
       ∧ in_job_dir cfg uid (Routes.get_file_path cfg ToWord uid (result_filename r)))
  ∧ (∀ file output_filename r w',
       WordToPDFService.convert_word_to_pdf cfg L uid file output_filename w
         = (Val (Success r), w') →
       unique_id r = uid
       ∧ log_extends (in_job_dir cfg uid) w w'
       ∧ in_job_dir cfg uid (Routes.get_file_path cfg WordToPDF uid (result_filename r)))
  ∧ (∀ file output_filename lvl r w',
       PDFCompressorService.compress_pdf L uid file output_filename lvl w
         = (Val (Success r), w') →
       c_unique_id r = uid
       ∧ log_extends (in_flat_layout uid) w w'
       ∧ flat_result uid (c_file_path r)
       ∧ Routes.get_file_path cfg Compressor uid (c_filename r) = c_file_path r)
  ∧ (∀ files output_filename margin_size r w',
       ImageToPDFService.convert_images_to_pdf L uid files output_filename margin_size w
         = (Val (Success r), w') →
       i_unique_id r = uid
       ∧ log_extends (in_flat_layout uid) w w'
       ∧ flat_result uid (i_file_path r)
       ∧ Routes.get_file_path cfg ImageToPDF uid (i_filename r) = i_file_path r).
Proof.
  split; [|split; [|split; [|split; [|split]]]].
  - intros fs out r w' H. split; [|split].
    + by apply merge_files_result in H as [? _].
    + pose proof (writes_only_merge_files cfg L uid fs out w) as Hw.
      by rewrite H in Hw.
    + apply merge_files_result in H as [_ ->].
      apply job_path_in_job_dir, secure_output_filename_entry_name.
  - intros file split_type page_ranges out r w' H. split; [|split].
    + by apply split_pdf_result in H as [? _].
    + pose proof (writes_only_split_pdf cfg L uid file split_type page_ranges out w) as Hw.
      by rewrite H in Hw.
    + apply split_pdf_result in H as [_ [x ->]].
      apply job_path_in_job_dir, split_zip_name_entry.
  - intros fs out r w' H. split; [|split].
    + by apply convert_file_result in H as [? _].
    + pose proof (writes_only_convert_file cfg L uid fs out w) as Hw.
      by rewrite H in Hw.
    + apply convert_file_result in H as [_ [x ->]].
      apply job_path_in_job_dir, docx_name_entry.
  - intros file out r w' H. split; [|split].
    + by apply convert_word_to_pdf_result in H as [? _].
    + pose proof (writes_only_convert_word_to_pdf cfg L uid file out w) as Hw.
      by rewrite H in Hw.
    + apply convert_word_to_pdf_result in H as [_ [x ->]].
      apply job_path_in_job_dir, secure_output_filename_entry_name.
  - intros file out lvl r w' H. split; [|split].
    + by apply compress_pdf_success_inv in H as (d' & _ & _ & -> & _).
    + pose proof (writes_only_compress_pdf L uid file out lvl w) as Hw.
      by rewrite H in Hw.
    + apply compress_pdf_success_inv in H as (d' & _ & _ & -> & _).
      apply compress_output_path_flat.
  - intros fs out margin_size r w' H. split; [|split].
    + by apply convert_images_to_pdf_result in H as [? _].
    + pose proof (writes_only_convert_images_to_pdf L uid fs out margin_size w) as Hw.
      by rewrite H in Hw.
    + by apply convert_images_to_pdf_result in H as (_ & ? & ?).
Qed.

Lemma C1_files_follow_service_layout_witness :
  let uid := "3f2b8c1e-0d4a-4e6f-9a7b-5c1d2e3f4a5b" in
  let run :=
    PDFMergerService.merge_files default_config Demo.libs uid [Demo.a_pdf; Demo.b_pdf] "out"
      Demo.w0 in
  run.1 = Val (Success (JobResult uid "out.pdf" "PDF files merged successfully!"))
  ∧ log_extends (in_job_dir default_config uid) Demo.w0 run.2
  ∧ in_job_dir default_config uid (Routes.get_file_path default_config Merger uid "out.pdf").
Proof.
  intros uid run.
  assert (run = (Val (Success (JobResult uid "out.pdf" "PDF files merged successfully!")),
                 run.2)) as Hrun.
  { vm_compute. reflexivity. }
  destruct (C1_files_follow_service_layout default_config Demo.libs uid Demo.w0)
    as (Hmerge & _).
  destruct (Hmerge [Demo.a_pdf; Demo.b_pdf] "out" _ _ Hrun) as (_ & Hlog & Hpath).
  split; [by rewrite Hrun|]. split; [exact Hlog|exact Hpath].
Defined.

(** * Further properties of the services *)

(** ** Lemmas *)

Lemma after_write_fold_fs (l : list (string * file_data)) (w : world) :
  fs (foldl (λ w e, after_write e.1 e.2 w) w l) = apply_writes (fs w) l.
Proof.
  revert w. induction l as [|e l IH]; intros w; simpl; [done|].
  by rewrite IH.
Qed.

Lemma after_write_fold_written (l : list (string * file_data)) (w : world) :
  written (foldl (λ w e, after_write e.1 e.2 w) w l) = written w ++ l.
Proof.
  revert w. induction l as [|[p d] l IH]; intros w; simpl.
  - by rewrite app_nil_r.
  - rewrite IH. simpl. by rewrite <- app_assoc.
Qed.

Lemma after_write_fold_faults (l : list (string * file_data)) (w : world) :
  faults (foldl (λ w e, after_write e.1 e.2 w) w l) = faults w.
Proof.
  revert w. induction l as [|e l IH]; intros w; simpl; [done|].
  by rewrite IH.
Qed.

Lemma after_write_fold_threads (l : list (string * file_data)) (w : world) :
  threads (foldl (λ w e, after_write e.1 e.2 w) w l) = threads w.
Proof.
  revert w. induction l as [|e l IH]; intros w; simpl; [done|].
  by rewrite IH.
Qed.

Lemma named_from_cons (i : Z) (file : upload) (files : list upload) :
  named_from i (file :: files)
  = if truthy (filename file) then (i, file) :: named_from (i + 1) files
    else named_from (i + 1) files.
Proof.
  unfold named_from. rewrite imap_cons. simpl.
  assert (imap ((λ n f, (i + Z.of_nat n, f)) ∘ S) files
          = imap (λ n f, (i + 1 + Z.of_nat n, f)) files) as ->.
  { apply imap_ext. intros n f _. simpl. f_equal. lia. }
  replace (i + Z.of_nat 0) with i by lia.
  unfold truthy. rewrite filter_cons. simpl.
  case_decide as Hn; case_bool_decide; simpl; congruence.
Qed.

Lemma named_from_index (i : Z) (files : list upload) (e : Z * upload) :
  e ∈ named_from i files →
  i ≤ e.1 ∧ files !! Z.to_nat (e.1 - i) = Some e.2 ∧ filename e.2 ≠ "".
Proof.
  unfold named_from. intros [Hn Hin]%list_elem_of_filter.
  apply elem_of_lookup_imap in Hin as (n & f & -> & Hf). simpl in *.
  split; [lia|]. split; [|done]. by replace (Z.to_nat (i + Z.of_nat n - i)) with n by lia.
Qed.

(** Staging succeeds exactly by writing, in order, one file for each
    upload that has a name. *)
Lemma save_uploaded_files_from_inv (i : Z) (files : list upload) (temp_dir : string)
    (w w' : world) (paths : list string) :
  Utils.save_uploaded_files_from i files temp_dir w = (Val paths, w') →
  paths = (staged_write temp_dir <$> named_from i files).*1
  ∧ w' = foldl (λ w e, after_write e.1 e.2 w) w (staged_write temp_dir <$> named_from i files).
Proof.
  revert i w paths. induction files as [|file files IH]; intros i w paths H.
  - by injection H as <- <-.
  - rewrite named_from_cons. simpl in H. destruct (truthy (filename file)).
    + apply bind_inv in H as ([] & w1 & Hw & H).
      apply bind_inv in H as (rest & w2 & Hrest & H).
      injection H as <- <-.
      apply write_file_inv in Hw as [-> _].
      apply IH in Hrest as [-> ->]. done.
    + by apply IH.
Qed.

Lemma save_uploaded_files_from_ok (i : Z) (files : list upload) (temp_dir : string)
    (w : world) :
  (∀ e, e ∈ named_from i files → can_write w (staged_path temp_dir e.1 e.2)) →
  ∃ w', Utils.save_uploaded_files_from i files temp_dir w
        = (Val (staged_write temp_dir <$> named_from i files).*1, w').
Proof.
  revert i w. induction files as [|file files IH]; intros i w Hcw.
  - by eexists.
  - rewrite named_from_cons in *. simpl. destruct (truthy (filename file)).
    + assert (can_write w (staged_path temp_dir i file)) as Hc.
      { apply (Hcw (i, file)). by left. }
      destruct (IH (i + 1) (after_write (staged_path temp_dir i file) (stream file) w))
        as [w' Hw'].
      { intros e He. apply can_write_after_write; [done|]. apply Hcw. by right. }
      exists w'.
      rewrite (bind_val _ _ w (after_write (staged_path temp_dir i file) (stream file) w) tt)
        by by apply write_file_ok.
      fold (staged_path temp_dir i file). erewrite bind_val by exact Hw'. done.
    + by apply IH.
Qed.

Lemma pretty_Z_no_underscore (z : Z) :
  Forall (λ c, c ≠ "_"%char) (PyStr.to_chars (PyStr.str_of_Z z)).
Proof.
  assert (∀ n, pretty_N_char n ≠ "_"%char) as Hdig.
  { intros n. unfold pretty_N_char. by repeat case_match. }
  assert (∀ p : positive,
            Forall (λ x, x ≠ "_"%char) (PyStr.to_chars (pretty p))) as Hpos.
  { intros p. unfold pretty, pretty_positive, pretty, pretty_N.
    case_decide; [done|]. by apply pretty_N_go_Forall. }
  unfold PyStr.str_of_Z, pretty, pretty_Z. destruct z as [|p|p].
  - by repeat constructor.
  - apply Hpos.
  - rewrite to_chars_app. apply Forall_app. split; [by repeat constructor|apply Hpos].
Qed.

Lemma char_split_unique (c : ascii) (d1 d2 r1 r2 : PyStr.chars) :
  Forall (λ x, x ≠ c) d1 → Forall (λ x, x ≠ c) d2 →
  d1 ++ c :: r1 = d2 ++ c :: r2 → d1 = d2 ∧ r1 = r2.
Proof.
  revert d2. induction d1 as [|x d1 IH]; intros d2 H1 H2 H.
  - destruct d2 as [|y d2]; simpl in H.
    + by injection H as ->.
    + injection H as <- _. by apply Forall_cons in H2 as [? _].
  - destruct d2 as [|y d2]; simpl in H.
    + injection H as -> _. by apply Forall_cons in H1 as [? _].
    + injection H as -> H. apply Forall_cons in H1 as [_ H1].
      apply Forall_cons in H2 as [_ H2].
      destruct (IH d2 H1 H2 H) as [-> ->]. done.
Qed.

(** Entries of one directory with the same name are the same path only. *)
Lemma join_entry_inj (dir x y : string) :
  PyStr.startswith_chars [OsPath.sep] (PyStr.to_chars x) = false →
  PyStr.startswith_chars [OsPath.sep] (PyStr.to_chars y) = false →
  OsPath.join dir x = OsPath.join dir y → x = y.
Proof.
  intros Hx Hy. rewrite (join_relative dir x), (join_relative dir y) by done.
  intros H. apply (f_equal PyStr.to_chars) in H. rewrite !to_chars_app in H.
  apply app_inv_head in H. by apply to_chars_inj.
Qed.

Lemma no_sep_relative (n : string) :
  PyStr.has_char OsPath.sep (PyStr.to_chars n) = false →
  PyStr.startswith_chars [OsPath.sep] (PyStr.to_chars n) = false.
Proof.
  intros H. destruct (PyStr.to_chars n) as [|c l] eqn:Hn; [done|].
  unfold PyStr.startswith_chars. simpl in *.
  apply orb_false_iff in H as [H _]. apply bool_decide_eq_false in H.
  rewrite decide_False by congruence. done.
Qed.

(** The ordinal in the name of a staged copy tells staged copies apart. *)
Lemma staged_path_index_inj (temp_dir : string) (i j : Z) (f g : upload) :
  staged_path temp_dir i f = staged_path temp_dir j g → i = j.
Proof.
  unfold staged_path. intros H.
  apply join_entry_inj in H;
    [|apply no_sep_relative, entry_name_no_sep, staged_name_entry..].
  apply (f_equal PyStr.to_chars) in H. rewrite !to_chars_app in H.
  apply app_inv_head in H. simpl in H.
  apply char_split_unique in H as [H _]; [|apply pretty_Z_no_underscore..].
  apply to_chars_inj in H. by apply (inj pretty) in H.
Qed.

Lemma named_from_fst_lt (i : Z) (files : list upload) (e : Z * upload) :
  e ∈ named_from (i + 1) files → i < e.1.
Proof. intros (? & _)%named_from_index. lia. Qed.

Lemma staged_paths_NoDup (temp_dir : string) (i : Z) (files : list upload) :
  NoDup (staged_write temp_dir <$> named_from i files).*1.
Proof.
  revert i. induction files as [|file files IH]; intros i.
  - constructor.
  - rewrite named_from_cons. destruct (truthy (filename file)); [|apply IH].
    simpl. constructor; [|apply IH].
    intros Hin. apply list_elem_of_fmap in Hin as ([p d] & Hp & Hin). simpl in Hp.
    apply list_elem_of_fmap in Hin as (e & He & Hin).
    injection He as -> ->.
    apply staged_path_index_inj in Hp. apply named_from_fst_lt in Hin. lia.
Qed.

Lemma staged_lookup (temp_dir : string) (i : Z) (files : list upload)
    (m : gmap string node) (e : Z * upload) :
  e ∈ named_from i files →
  apply_writes m (staged_write temp_dir <$> named_from i files)
    !! staged_path temp_dir e.1 e.2 = Some (File (stream e.2)).
Proof.
  intros He. apply apply_writes_lookup.
  - apply list_elem_of_fmap. by exists e.
  - intros d' Hd'. apply list_elem_of_fmap in Hd' as (e' & Heq & He').
    injection Heq as Hp ->. apply staged_path_index_inj in Hp.
    apply named_from_index in He as (_ & He & _).
    apply named_from_index in He' as (_ & He' & _).
    rewrite Hp, He' in He. by injection He as ->.
Qed.

(** ** Paths *)

Lemma rfind_from_absent (c : ascii) (s : PyStr.chars) (i found : Z) :
  PyStr.has_char c s = false → PyStr.rfind_from c s i found = found.
Proof.
  revert i found. induction s as [|x s IH]; intros i found H; simpl in *; [done|].
  apply orb_false_iff in H as [Hx H]. apply bool_decide_eq_false in Hx.
  rewrite decide_False by done. by apply IH.
Qed.

Lemma rfind_from_last (c : ascii) (l r : PyStr.chars) (i found : Z) :
  PyStr.has_char c r = false →
  PyStr.rfind_from c (l ++ c :: r) i found = i + Z.of_nat (length l).
Proof.
  intros Hr. revert i found. induction l as [|x l IH]; intros i found; simpl.
  - rewrite decide_True by done. rewrite rfind_from_absent by done. lia.
  - rewrite IH. lia.
Qed.

Lemma rfind_last (c : ascii) (l r : PyStr.chars) :
  PyStr.has_char c r = false → PyStr.rfind c (l ++ c :: r) = Z.of_nat (length l).
Proof. intros Hr. unfold PyStr.rfind. by rewrite rfind_from_last. Qed.

Lemma join_chars_plain (d name : PyStr.chars) :
  d ≠ [] → PyStr.endswith_chars [OsPath.sep] d = false →
  PyStr.has_char OsPath.sep name = false →
  OsPath.join_chars d name = d ++ OsPath.sep :: name.
Proof.
  intros Hd He Hn. unfold OsPath.join_chars.
  assert (PyStr.startswith_chars [OsPath.sep] name = false) as ->.
  { destruct name as [|c l]; [done|]. unfold PyStr.startswith_chars. simpl in *.
    apply orb_false_iff in Hn as [Hn _]. apply bool_decide_eq_false in Hn.
    rewrite decide_False by congruence. done. }
  rewrite He. rewrite bool_decide_eq_false_2 by done. done.
Qed.

Lemma rstrip_sep_plain (d : PyStr.chars) :
  d ≠ [] → PyStr.endswith_chars [OsPath.sep] d = false →
  PyStr.rstrip (λ c, bool_decide (c = OsPath.sep)) (d ++ [OsPath.sep]) = d
  ∧ forallb (λ c, bool_decide (c = OsPath.sep)) (d ++ [OsPath.sep]) = false.
Proof.
  intros Hd He. unfold PyStr.endswith_chars, PyStr.startswith_chars in He.
  unfold PyStr.rstrip. rewrite reverse_app. simpl.
  destruct (reverse d) as [|x t] eqn:Hr.
  { apply (f_equal reverse) in Hr. rewrite reverse_involutive in Hr. done. }
  change (reverse [OsPath.sep]) with [OsPath.sep] in He. simpl in He.
  assert (x ≠ OsPath.sep) as Hx.
  { intros ->. rewrite decide_True in He by done. simpl in He. done. }
  split.
  - simpl. rewrite bool_decide_eq_false_2 by done.
    rewrite <- Hr. by rewrite reverse_involutive.
  - apply not_true_iff_false. intros Hall.
    rewrite forallb_forall in Hall.
    assert (In x (d ++ [OsPath.sep])) as Hin.
    { apply in_or_app. left. apply list_elem_of_In, elem_of_reverse. rewrite Hr. by left. }
    apply Hall, bool_decide_eq_true in Hin. done.
Qed.

Lemma dirname_join (d name : string) :
  plain_dir d → PyStr.has_char OsPath.sep (PyStr.to_chars name) = false →
  OsPath.dirname (OsPath.join d name) = d.
Proof.
  intros [Hd He] Hn. unfold OsPath.dirname, OsPath.join. rewrite to_of_chars.
  rewrite join_chars_plain by done. unfold OsPath.dirname_chars.
  rewrite rfind_last by done.
  replace (Z.to_nat (Z.of_nat (length (PyStr.to_chars d)) + 1))
    with (length (PyStr.to_chars d ++ [OsPath.sep]))
    by (rewrite length_app; simpl; lia).
  replace (PyStr.to_chars d ++ OsPath.sep :: PyStr.to_chars name)
    with ((PyStr.to_chars d ++ [OsPath.sep]) ++ PyStr.to_chars name)
    by by rewrite <- app_assoc.
  rewrite take_app_length.
  destruct (rstrip_sep_plain _ Hd He) as [-> ->].
  rewrite bool_decide_eq_false_2 by by destruct (PyStr.to_chars d).
  simpl. apply of_to_chars.
Qed.

Lemma basename_join (d name : string) :
  plain_dir d → PyStr.has_char OsPath.sep (PyStr.to_chars name) = false →
  OsPath.basename (OsPath.join d name) = name.
Proof.
  intros [Hd He] Hn. unfold OsPath.basename, OsPath.join. rewrite to_of_chars.
  rewrite join_chars_plain by done. unfold OsPath.basename_chars.
  rewrite rfind_last by done.
  replace (Z.to_nat (Z.of_nat (length (PyStr.to_chars d)) + 1))
    with (length (PyStr.to_chars d ++ [OsPath.sep]))
    by (rewrite length_app; simpl; lia).
  replace (PyStr.to_chars d ++ OsPath.sep :: PyStr.to_chars name)
    with ((PyStr.to_chars d ++ [OsPath.sep]) ++ PyStr.to_chars name)
    by by rewrite <- app_assoc.
  rewrite drop_app_length. apply of_to_chars.
Qed.

Lemma join_plain (d name : string) :
  plain_dir d → entry_name (PyStr.to_chars name) → plain_dir (OsPath.join d name).
Proof.
  intros [Hd He] [Hn (c & Hc & _)]. unfold plain_dir, OsPath.join.
  rewrite to_of_chars, join_chars_plain by done. split.
  { by destruct (PyStr.to_chars d). }
  unfold PyStr.endswith_chars, PyStr.startswith_chars.
  replace (PyStr.to_chars d ++ OsPath.sep :: PyStr.to_chars name)
    with ((PyStr.to_chars d ++ [OsPath.sep]) ++ PyStr.to_chars name)
    by by rewrite <- app_assoc.
  rewrite reverse_app.
  destruct (reverse (PyStr.to_chars name)) as [|x t] eqn:Hr.
  { apply (f_equal reverse) in Hr. rewrite reverse_involutive in Hr.
    rewrite Hr in Hc. by apply not_elem_of_nil in Hc. }
  change (reverse [OsPath.sep]) with [OsPath.sep]. simpl.
  assert (x ≠ OsPath.sep) as Hx.
  { apply has_char_false in Hn. rewrite Forall_forall in Hn. apply Hn.
    apply elem_of_reverse. rewrite Hr. by left. }
  rewrite decide_False by congruence. apply bool_decide_eq_false. by intros [? ?].
Qed.

Lemma join_ne_dir (d name : string) :
  plain_dir d → PyStr.has_char OsPath.sep (PyStr.to_chars name) = false →
  OsPath.join d name ≠ d.
Proof.
  intros [Hd He] Hn H. apply (f_equal PyStr.to_chars) in H.
  unfold OsPath.join in H. rewrite to_of_chars, join_chars_plain in H by done.
  apply (f_equal length) in H. rewrite length_app in H. simpl in H. lia.
Qed.

(** ** Creating the job directory *)

Lemma set_fs_id (w : world) : set_fs (λ m, m) w = w.
Proof. by destruct w. Qed.

(** [create_temp_directory] under an existing upload folder: the job
    directory is created, or left alone when it is already a directory. *)
Lemma create_temp_directory_ok (base uid : string) (w : world) :
  plain_dir base → PyStr.has_char OsPath.sep (PyStr.to_chars uid) = false →
  fs w !! base = Some Dir →
  (∀ d, fs w !! OsPath.join base uid ≠ Some (File d)) →
  Utils.create_temp_directory base uid w
  = (Val (OsPath.join base uid), set_fs (insert (OsPath.join base uid) Dir) w).
Proof.
  intros Hb Hu Hbase Hfile. unfold Utils.create_temp_directory, Os.makedirs.
  set (p := OsPath.join base uid) in *.
  assert (OsPath.dirname p = base) as Hdir by by apply dirname_join.
  assert (∀ fuel, Os.makedirs_go fuel p w = (Val tt, set_fs (insert p Dir) w)) as Hgo.
  { intros fuel.
    assert (Os.makedirs_go fuel p
            = (head_exists <- Os.path_exists (OsPath.dirname p) ;;
               (match fuel with
                | S fuel' =>
                    if negb (bool_decide (OsPath.dirname p = "")) && negb head_exists
                    then Os.makedirs_go fuel' (OsPath.dirname p)
                    else ret tt
                | O => ret tt
                end) ;;;
               try_except (Os.mkdir p)
                 (λ e, d <- Os.isdir p ;; if d then ret tt else raise e))) as ->
      by by destruct fuel.
    unfold bind at 1. rewrite Hdir, (path_exists_exact base w Dir Hbase).
    rewrite andb_false_r.
    assert (∀ m : M unit, (m = ret tt) →
              (m ;;; try_except (Os.mkdir p)
                       (λ e, d <- Os.isdir p ;; if d then ret tt else raise e)) w
              = (Val tt, set_fs (insert p Dir) w)) as Hrest.
    { intros m ->.
      unfold bind, ret, try_except, Os.mkdir, Os.isdir, Os.parent_ok.
      destruct (fs w !! p) as [[d|]|] eqn:Hp.
      - by destruct (Hfile d).
      - rewrite Hp. f_equal. destruct w as [m ? ? ?]. unfold set_fs. simpl in *.
        by rewrite insert_id.
      - rewrite Hdir, Hbase. by rewrite orb_true_r. }
    apply Hrest. by destruct fuel. }
  unfold bind. by rewrite Hgo.
Qed.

(** ** Cleanup *)

Lemma delete_all_lookup (paths : list string) (m : gmap string node) (k : string) :
  delete_all paths m !! k = if decide (k ∈ paths) then None else m !! k.
Proof.
  revert m. induction paths as [|p paths IH]; intros m.
  - destruct (decide (k ∈ [])) as [H|_]; [by apply not_elem_of_nil in H|done].
  - unfold delete_all in *. cbn [foldl]. rewrite IH.
    destruct (decide (k ∈ paths)) as [Hin|Hnin].
    + destruct (decide (k ∈ p :: paths)) as [_|Hn]; [done|].
      destruct Hn. by right.
    + destruct (decide (k = p)) as [->|Hne].
      * rewrite lookup_delete_eq.
        destruct (decide (p ∈ p :: paths)) as [_|Hn]; [done|]. destruct Hn. by left.
      * rewrite lookup_delete_ne by done.
        destruct (decide (k ∈ p :: paths)) as [[?|?]%elem_of_cons|_]; done.
Qed.

Lemma apply_writes_lookup_other (m : gmap string node) (l : list (string * file_data))
    (k : string) :
  k ∉ l.*1 → apply_writes m l !! k = m !! k.
Proof.
  revert m. induction l as [|[p d] l IH]; intros m Hk; [done|].
  unfold apply_writes in *. simpl. rewrite IH.
  - apply lookup_insert_ne. intros <-. apply Hk. by left.
  - intros ?. apply Hk. by right.
Qed.

Lemma apply_writes_lookup_file (m : gmap string node) (l : list (string * file_data))
    (k : string) :
  k ∈ l.*1 → ∃ d, apply_writes m l !! k = Some (File d).
Proof.
  revert m. induction l as [|[p d] l IH]; intros m Hk.
  { by apply not_elem_of_nil in Hk. }
  destruct (decide (k ∈ l.*1)) as [Hin|Hnin].
  - apply (IH (<[p := File d]> m) Hin).
  - exists d. unfold apply_writes. simpl. fold (apply_writes (<[p := File d]> m) l).
    rewrite apply_writes_lookup_other by done.
    apply elem_of_cons in Hk as [->|?]; [|done]. apply lookup_insert_eq.
Qed.

(** Cleaning up regular files that can be deleted deletes exactly them. *)
Lemma cleanup_fold_files (paths : list string) (w : world) :
  Forall (λ p, (p ∉ faults w) ∧ fs w !! p ≠ Some Dir) paths →
  foldl (λ w p, cleanup_effect p w) w paths = set_fs (delete_all paths) w.
Proof.
  revert w. induction paths as [|p paths IH]; intros w H.
  - by destruct w.
  - apply Forall_cons in H as [[Hf Hd] H]. simpl.
    assert (cleanup_effect p w = set_fs (delete p) w) as ->.
    { unfold cleanup_effect. rewrite decide_False by done.
      destruct (fs w !! p) as [[d|]|] eqn:Hp; [done|done|].
      destruct w as [m ? ? ?]; unfold set_fs; simpl in *. by rewrite delete_id. }
    rewrite IH.
    + by destruct w.
    + eapply Forall_impl; [exact H|]. intros q [Hqf Hqd]. split; [done|].
      simpl. destruct (decide (q = p)) as [->|Hne].
      * by rewrite lookup_delete_eq.
      * by rewrite lookup_delete_ne.
Qed.

(** Cleaning up the files of a directory and then the directory removes
    the directory, when the files listed are all its entries. *)
Lemma cleanup_fold_workspace (paths : list string) (dir : string) (w : world) :
  Forall (λ p, (p ∉ faults w) ∧ fs w !! p ≠ Some Dir) paths →
  dir ∉ faults w → fs w !! dir = Some Dir →
  (∀ k, is_Some (fs w !! k) → OsPath.dirname k = dir → k ≠ dir → k ∈ paths) →
  foldl (λ w p, cleanup_effect p w) w (paths ++ [dir])
  = set_fs (λ m, delete dir (delete_all paths m)) w.
Proof.
  intros Hp Hf Hd Hall. rewrite foldl_app, (cleanup_fold_files paths w) by done. simpl.
  assert (dir ∉ paths) as Hnin.
  { intros Hin. rewrite Forall_forall in Hp. by destruct (Hp _ Hin) as [_ ?]. }
  unfold cleanup_effect. simpl. rewrite decide_False by done.
  rewrite delete_all_lookup, decide_False, Hd by done.
  assert (Os.entries (delete_all paths (fs w)) dir = []) as ->.
  { apply entries_nil_iff. intros k [x Hk] [Hkd Hne].
    rewrite delete_all_lookup in Hk. case_decide as Hin; [done|].
    apply Hin, Hall; eauto. }
  by destruct w.
Qed.

(** ** A fresh workspace *)

Lemma after_write_fold_world (l : list (string * file_data)) (w : world) :
  foldl (λ w e, after_write e.1 e.2 w) w l
  = World (apply_writes (fs w) l) (faults w) (threads w) (written w ++ l).
Proof.
  revert w. induction l as [|[p d] l IH]; intros w; simpl.
  - rewrite app_nil_r. by destruct w.
  - rewrite IH. simpl. by rewrite <- app_assoc.
Qed.

Lemma job_dir_plain (cfg : config) (uid : string) (w : world) :
  fresh_job cfg uid w → plain_dir (job_dir cfg uid).
Proof. intros (Hb & Hu & _). by apply join_plain. Qed.

Lemma job_entry_facts (cfg : config) (uid : string) (w : world) (name : string) :
  fresh_job cfg uid w → PyStr.has_char OsPath.sep (PyStr.to_chars name) = false →
  let p := OsPath.join (job_dir cfg uid) name in
  OsPath.dirname p = job_dir cfg uid ∧ p ≠ job_dir cfg uid
  ∧ fs w !! p = None ∧ p ∉ faults w.
Proof.
  intros Hfresh Hn p.
  pose proof (job_dir_plain _ _ _ Hfresh) as Hjd.
  assert (OsPath.dirname p = job_dir cfg uid) as Hd by by apply dirname_join.
  destruct Hfresh as (_ & _ & _ & _ & _ & Hk).
  split; [done|]. split; [by apply join_ne_dir|]. by apply Hk.
Qed.

Lemma staged_path_facts (cfg : config) (uid : string) (w : world) (i : Z) (f : upload) :
  fresh_job cfg uid w →
  let p := staged_path (job_dir cfg uid) i f in
  OsPath.dirname p = job_dir cfg uid ∧ p ≠ job_dir cfg uid
  ∧ fs w !! p = None ∧ p ∉ faults w.
Proof.
  intros Hfresh. apply job_entry_facts; [done|].
  apply entry_name_no_sep, staged_name_entry.
Qed.

Lemma staged_elem (temp_dir : string) (i : Z) (files : list upload) (p : string) :
  p ∈ (staged_write temp_dir <$> named_from i files).*1 →
  ∃ j f, p = staged_path temp_dir j f.
Proof.
  intros Hin. apply list_elem_of_fmap in Hin as ([q d] & -> & Hin).
  apply list_elem_of_fmap in Hin as ([j f] & [= -> ->] & _). by exists j, f.
Qed.

(** Creating the job directory and staging the uploads, in a fresh
    workspace: both succeed and lead to [staged_world]. *)
Lemma stage_ok {B} (cfg : config) (uid : string) (files : list upload) (w : world)
    (k : string → list string → M B) :
  fresh_job cfg uid w →
  (temp_dir <- Utils.create_temp_directory (UPLOAD_FOLDER cfg) uid ;;
   temp_files <- Utils.save_uploaded_files files temp_dir ;;
   k temp_dir temp_files) w
  = k (job_dir cfg uid) (staged_write (job_dir cfg uid) <$> named_from 0 files).*1
      (staged_world cfg uid files w).
Proof.
  intros Hfresh. pose proof Hfresh as (Hb & Hu & Hbase & Hjd & Hjf & Hk).
  rewrite (bind_val _ _ w (set_fs (insert (job_dir cfg uid) Dir) w) (job_dir cfg uid)).
  2:{ apply create_temp_directory_ok; try done.
      - by apply entry_name_no_sep.
      - intros d. unfold job_dir in Hjd. by rewrite Hjd. }
  set (w1 := set_fs (insert (job_dir cfg uid) Dir) w).
  destruct (save_uploaded_files_from_ok 0 files (job_dir cfg uid) w1) as [w2 Hsave].
  { intros [j f] _. simpl.
    destruct (staged_path_facts cfg uid w j f Hfresh) as (Hd & Hne & Hnone & Hnf).
    split; [done|]. split.
    - simpl. rewrite lookup_insert_ne by done. by rewrite Hnone.
    - unfold Os.parent_ok. rewrite Hd. simpl. rewrite lookup_insert_eq.
      apply orb_true_r. }
  unfold Utils.save_uploaded_files.
  rewrite (bind_val _ _ w1 w2 _ Hsave).
  apply save_uploaded_files_from_inv in Hsave as [_ ->].
  by rewrite after_write_fold_world.
Qed.

Lemma staged_world_lookup_other (cfg : config) (uid : string) (files : list upload)
    (w : world) (k : string) :
  k ∉ (staged_write (job_dir cfg uid) <$> named_from 0 files).*1 →
  fs (staged_world cfg uid files w) !! k = <[job_dir cfg uid := Dir]> (fs w) !! k.
Proof. intros Hk. simpl. by apply apply_writes_lookup_other. Qed.

Lemma staged_world_dir (cfg : config) (uid : string) (files : list upload) (w : world) :
  fresh_job cfg uid w →
  fs (staged_world cfg uid files w) !! job_dir cfg uid = Some Dir.
Proof.
  intros Hfresh. rewrite staged_world_lookup_other; [apply lookup_insert_eq|].
  intros (j & f & Hp)%staged_elem.
  by destruct (staged_path_facts cfg uid w j f Hfresh) as (_ & Hne & _).
Qed.

(** What is left of a job directory once everything but the result has
    been deleted. *)
Lemma workspace_after_cleanup (m0 : gmap string node) (jd out : string) (d : file_data)
    (l : list (string * file_data)) (paths : list string) :
  (∀ p, p ∈ l.*1 → p ∈ paths) → out ∉ paths → jd ∉ paths →
  (∀ p, p ∈ paths → m0 !! p = None) →
  delete_all paths (<[out := File d]> (apply_writes (<[jd := Dir]> m0) l))
  = <[out := File d]> (<[jd := Dir]> m0).
Proof.
  intros Hl Hout Hjd Hnone. apply map_eq. intros k.
  rewrite delete_all_lookup. case_decide as Hin.
  - rewrite !lookup_insert_ne by congruence. by rewrite Hnone.
  - destruct (decide (k = out)) as [->|Hne]; [by rewrite !lookup_insert_eq|].
    rewrite !(lookup_insert_ne _ out) by done.
    apply apply_writes_lookup_other. intros ?. by apply Hin, Hl.
Qed.

(** After a failure the staged copies and the job directory are deleted:
    the filesystem is as it was before the job. *)
Lemma failure_cleanup_restores (cfg : config) (uid : string) (files : list upload)
    (w : world) :
  fresh_job cfg uid w →
  let st := staged_write (job_dir cfg uid) <$> named_from 0 files in
  fs (foldl (λ w p, cleanup_effect p w) (staged_world cfg uid files w)
        (st.*1 ++ [job_dir cfg uid]))
  = fs w.
Proof.
  intros Hfresh st. pose proof Hfresh as (Hb & Hu & Hbase & Hjd & Hjf & Hk).
  rewrite cleanup_fold_workspace.
  - simpl. apply map_eq. intros k.
    destruct (decide (k = job_dir cfg uid)) as [->|Hne].
    { by rewrite lookup_delete_eq. }
    rewrite lookup_delete_ne by done. rewrite delete_all_lookup.
    case_decide as Hin.
    + apply staged_elem in Hin as (j & f & ->).
      by destruct (staged_path_facts cfg uid w j f Hfresh) as (_ & _ & -> & _).
    + rewrite apply_writes_lookup_other by done. by rewrite lookup_insert_ne.
  - apply Forall_forall. intros p Hp. split.
    + apply staged_elem in Hp as (j & f & ->).
      by destruct (staged_path_facts cfg uid w j f Hfresh) as (_ & _ & _ & ?).
    + destruct (apply_writes_lookup_file (<[job_dir cfg uid := Dir]> (fs w)) st p Hp)
        as [d Hd]. simpl. fold st. by rewrite Hd.
  - done.
  - by apply staged_world_dir.
  - intros k [x Hx] Hd Hne.
    destruct (decide (k ∈ st.*1)) as [|Hnin]; [done|].
    rewrite staged_world_lookup_other, lookup_insert_ne in Hx by done.
    destruct (Hk k Hd) as [Hnone _]. by rewrite Hnone in Hx.
Qed.

(** ** Merge *)

Lemma named_from_all (i : Z) (files : list upload) :
  Forall (λ f, filename f ≠ "") files → (named_from i files).*2 = files.
Proof.
  revert i. induction files as [|f files IH]; intros i H; [done|].
  apply Forall_cons in H as [Hf H]. rewrite named_from_cons.
  unfold truthy. rewrite bool_decide_eq_false_2 by done. simpl. by rewrite IH.
Qed.

Lemma validate_pdf_files_inv (cfg : config) (files valid : list upload) (min_files : Z) :
  Utils.validate_pdf_files cfg files min_files = Success valid →
  valid = filter (λ f, truthy (filename f) && Utils.allowed_file cfg (filename f) = true) files
  ∧ min_files ≤ Z.of_nat (length valid)
  ∧ Forall (λ f, filename f ≠ "") valid.
Proof.
  unfold Utils.validate_pdf_files. destruct files as [|f files]; [done|].
  set (v := filter _ (f :: files)).
  destruct (Z.of_nat (length v) <? min_files) eqn:Hlen; [done|].
  intros [= <-]. split; [done|]. split; [by apply Z.ltb_ge in Hlen|].
  apply Forall_forall. intros x Hx. apply list_elem_of_filter in Hx as [Hx _].
  apply andb_true_iff in Hx as [Hx _]. unfold truthy in Hx.
  apply negb_true_iff, bool_decide_eq_false in Hx. done.
Qed.

Lemma append_all_staged (temp_dir : string) (es : list (Z * upload))
    (pagess : list (list page)) (acc : list page) (w : world) :
  (∀ e, e ∈ es → fs w !! staged_path temp_dir e.1 e.2 = Some (File (stream e.2))) →
  Forall2 (λ e ps, pdf_pages (stream e.2) = Some ps) es pagess →
  PDFMergerService.append_all (staged_write temp_dir <$> es).*1 acc w
  = (Val (Success (acc ++ concat pagess)), w).
Proof.
  intros Hfs H. revert acc. induction H as [|e ps es pagess He H IH]; intros acc.
  - simpl. by rewrite app_nil_r.
  - simpl. unfold bind at 1, try_except.
    rewrite (bind_val _ _ w w (stream e.2)).
    2:{ apply read_file_ok, Hfs. by left. }
    rewrite He. unfold bind, ret, of_option. simpl.
    rewrite app_assoc. apply IH.
    intros e' He'. apply Hfs. by right.
Qed.

Lemma append_all_staged_fails (temp_dir : string) (es : list (Z * upload))
    (acc : list page) (w : world) :
  (∀ e, e ∈ es → fs w !! staged_path temp_dir e.1 e.2 = Some (File (stream e.2))) →
  Exists (λ e, pdf_pages (stream e.2) = None) es →
  ∃ m, PDFMergerService.append_all (staged_write temp_dir <$> es).*1 acc w
       = (Val (Failure m), w).
Proof.
  intros Hfs H. revert acc. induction es as [|e es IH]; intros acc.
  { by apply Exists_nil in H. }
  simpl. unfold bind at 1, try_except.
  rewrite (bind_val _ _ w w (stream e.2)).
  2:{ apply read_file_ok, Hfs. by left. }
  destruct (pdf_pages (stream e.2)) as [ps|] eqn:He; unfold bind, ret, of_option; simpl.
  - apply IH.
    + intros e' He'. apply Hfs. by right.
    + apply Exists_cons in H as [H|H]; [congruence|done].
  - by eexists.
Qed.

Lemma startswith_app (p s : string) : PyStr.startswith (p +:+ s) p = true.
Proof.
  unfold PyStr.startswith, PyStr.startswith_chars.
  rewrite to_chars_app, strip_prefix_app. apply bool_decide_eq_true. by eexists.
Qed.

Lemma staged_world_staged (cfg : config) (uid : string) (files : list upload)
    (w : world) (e : Z * upload) :
  e ∈ named_from 0 files →
  fs (staged_world cfg uid files w) !! staged_path (job_dir cfg uid) e.1 e.2
  = Some (File (stream e.2)).
Proof. intros He. simpl. by apply staged_lookup. Qed.

(** A result whose name does not begin like a staged copy is not one. *)
Lemma result_not_staged (temp_dir name : string) (i : Z) (files : list upload) :
  PyStr.has_char OsPath.sep (PyStr.to_chars name) = false →
  PyStr.startswith name "temp_" = false →
  OsPath.join temp_dir name ∉ (staged_write temp_dir <$> named_from i files).*1.
Proof.
  intros Hn Hs (j & f & Hp)%staged_elem. unfold staged_path in Hp.
  apply join_entry_inj in Hp;
    [|by apply no_sep_relative
     |apply no_sep_relative, entry_name_no_sep, staged_name_entry].
  rewrite Hp in Hs. by rewrite startswith_app in Hs.
Qed.

Lemma can_write_result (cfg : config) (uid : string) (files : list upload) (w : world)
    (name : string) :
  fresh_job cfg uid w →
  PyStr.has_char OsPath.sep (PyStr.to_chars name) = false →
  PyStr.startswith name "temp_" = false →
  can_write (staged_world cfg uid files w) (OsPath.join (job_dir cfg uid) name).
Proof.
  intros Hfresh Hn Hs.
  destruct (job_entry_facts cfg uid w name Hfresh Hn) as (Hd & Hne & Hnone & Hnf).
  split; [done|]. split.
  - rewrite staged_world_lookup_other by by apply result_not_staged.
    rewrite lookup_insert_ne by done. by rewrite Hnone.
  - unfold Os.parent_ok. rewrite Hd, staged_world_dir by done. apply orb_true_r.
Qed.

(** After a success the staged copies are deleted: the job directory
    holds the result and nothing else. *)
Lemma success_cleanup_keeps (cfg : config) (uid : string) (files : list upload)
    (w : world) (name : string) (d : file_data) :
  fresh_job cfg uid w →
  PyStr.has_char OsPath.sep (PyStr.to_chars name) = false →
  PyStr.startswith name "temp_" = false →
  let st := staged_write (job_dir cfg uid) <$> named_from 0 files in
  let out := OsPath.join (job_dir cfg uid) name in
  fs (foldl (λ w p, cleanup_effect p w)
        (after_write out d (staged_world cfg uid files w)) st.*1)
  = <[out := File d]> (<[job_dir cfg uid := Dir]> (fs w)).
Proof.
  intros Hfresh Hn Hs st out.
  assert (out ∉ st.*1) as Hout by by apply result_not_staged.
  rewrite cleanup_fold_files.
  - simpl. apply workspace_after_cleanup; [done|done| |].
    + intros (j & f & Hp)%staged_elem.
      by destruct (staged_path_facts cfg uid w j f Hfresh) as (_ & Hne & _).
    + intros p (j & f & ->)%staged_elem.
      by destruct (staged_path_facts cfg uid w j f Hfresh) as (_ & _ & ? & _).
  - apply Forall_forall. intros p Hp. split.
    + apply staged_elem in Hp as (j & f & ->).
      by destruct (staged_path_facts cfg uid w j f Hfresh) as (_ & _ & _ & ?).
    + simpl. rewrite lookup_insert_ne by (intros <-; done).
      destruct (apply_writes_lookup_file (<[job_dir cfg uid := Dir]> (fs w)) st p Hp)
        as [d' Hd']. fold st. by rewrite Hd'.
Qed.

Lemma cleanup_files_now (paths : list string) (w : world) :
  Utils.cleanup_files paths 0 w = (Val tt, foldl (λ w p, cleanup_effect p w) w paths).
Proof. unfold Utils.cleanup_files. simpl. apply delayed_cleanup_fold. Qed.

Lemma merge_files_ok (cfg : config) (L : Libs) (uid : string)
    (files valid : list upload) (pagess : list (list page)) (output_filename : string)
    (w : world) :
  let name := Utils.secure_output_filename output_filename "merged-document.pdf" in
  fresh_job cfg uid w →
  Utils.validate_pdf_files cfg files 2 = Success valid →
  Forall2 (λ f ps, pdf_pages (stream f) = Some ps) valid pagess →
  PyStr.startswith name "temp_" = false →
  ∃ w',
    PDFMergerService.merge_files cfg L uid files output_filename w
    = (Val (Success (JobResult uid name "PDF files merged successfully!")), w')
    ∧ fs w' = <[PDFMergerService.get_file_path cfg uid name
                 := File (pdf_file L (concat pagess))]>
                (<[job_dir cfg uid := Dir]> (fs w))
    ∧ threads w' = threads w ∧ faults w' = faults w.
Proof.
  intros name Hfresh Hvalid Hpages Hname.
  assert (PyStr.has_char OsPath.sep (PyStr.to_chars name) = false) as Hsep
    by apply entry_name_no_sep, secure_output_filename_entry_name.
  apply validate_pdf_files_inv in Hvalid as Hv. destruct Hv as (_ & _ & Hnamed).
  set (out := OsPath.join (job_dir cfg uid) name).
  set (W2 := staged_world cfg uid valid w).
  set (st := staged_write (job_dir cfg uid) <$> named_from 0 valid).
  assert (PDFMergerService._merge_pdf_files L st.*1 (job_dir cfg uid) name W2
          = (Val (Success out), after_write out (pdf_file L (concat pagess)) W2)) as Hmerge.
  { unfold PDFMergerService._merge_pdf_files.
    apply try_except_val.
    rewrite (bind_val _ _ W2 W2 (Success (concat pagess))).
    2:{ apply (append_all_staged (job_dir cfg uid) (named_from 0 valid) pagess []).
        - intros e He. by apply staged_world_staged.
        - rewrite <- (named_from_all 0 valid Hnamed) in Hpages.
          by apply Forall2_fmap_l in Hpages. }
    rewrite (bind_val _ _ W2 (after_write out (pdf_file L (concat pagess)) W2) tt).
    2:{ apply write_file_ok. by apply can_write_result. }
    done. }
  eexists. split; [|split; [|split]].
  - unfold PDFMergerService.merge_files. apply try_except_val.
    rewrite Hvalid. rewrite stage_ok by done.
    fold name. rewrite (bind_val _ _ _ _ _ Hmerge).
    rewrite (bind_val _ _ _ _ tt (cleanup_files_now _ _)). done.
  - apply success_cleanup_keeps; done.
  - by rewrite cleanup_fold_threads.
  - by rewrite cleanup_fold_faults.
Qed.

Lemma merge_files_unreadable (cfg : config) (L : Libs) (uid : string)
    (files valid : list upload) (output_filename : string) (w : world) :
  fresh_job cfg uid w →
  Utils.validate_pdf_files cfg files 2 = Success valid →
  Exists (λ f, pdf_pages (stream f) = None) valid →
  ∃ m w',
    PDFMergerService.merge_files cfg L uid files output_filename w
    = (Val (Failure m), w')
    ∧ fs w' = fs w ∧ threads w' = threads w.
Proof.
  intros Hfresh Hvalid Hbad.
  apply validate_pdf_files_inv in Hvalid as Hv. destruct Hv as (_ & _ & Hnamed).
  set (W2 := staged_world cfg uid valid w).
  set (st := staged_write (job_dir cfg uid) <$> named_from 0 valid).
  destruct (append_all_staged_fails (job_dir cfg uid) (named_from 0 valid) [] W2)
    as [m Happ].
  { intros e He. by apply staged_world_staged. }
  { rewrite <- (named_from_all 0 valid Hnamed) in Hbad.
    by apply Exists_fmap in Hbad. }
  exists m. eexists. split; [|split].
  - unfold PDFMergerService.merge_files. apply try_except_val.
    rewrite Hvalid. rewrite stage_ok by done.
    rewrite (bind_val _ _ W2 W2 (Failure m)).
    2:{ unfold PDFMergerService._merge_pdf_files. apply try_except_val.
        by rewrite (bind_val _ _ _ _ _ Happ). }
    rewrite (bind_val _ _ _ _ tt (cleanup_files_now _ _)). done.
  - by apply failure_cleanup_restores.
  - by rewrite cleanup_fold_threads.
Qed.

(** ** Download and the cleanup threads *)

Lemma select_service_routed (cfg : config) (name uid x p : string) :
  let svc := (Routes.select_service name).1.1 in
  Routes.get_file_path cfg svc uid x
  = (if flat_routed name
     then OsPath.join (UPLOAD_FOLDER default_config)
            (uid +:+ "_" +:+ Werkzeug.secure_filename x)
     else OsPath.join3 (UPLOAD_FOLDER cfg) uid x)
  ∧ Routes.cleanup_processed_file cfg svc p
    = (if flat_routed name then Os.start_thread (RemoveFileThread 5 p)
       else Utils.cleanup_files [p; OsPath.dirname p] (CLEANUP_DELAY cfg))
  ∧ Routes.construct svc
    = (if flat_routed name then PDFCompressorService.ensure_upload_directory
       else ret tt).
Proof.
  unfold Routes.select_service, flat_routed.
  destruct (PyStr.endswith name ".docx"); [done|].
  destruct (PyStr.startswith name "images-to-pdf"); [done|].
  destruct (PyStr.contains "compressed" name); [done|].
  destruct (PyStr.contains "split" name && PyStr.endswith name ".zip"); [done|].
  destruct (PyStr.startswith name "word-to-pdf" || PyStr.contains "word-to-pdf" name); done.
Qed.

(** The constructor of the image and compressor services creates the
    upload folder of the default configuration when it is missing, and
    does nothing else. *)
Lemma ensure_upload_directory_run (w : world) :
  PDFCompressorService.ensure_upload_directory w = (Val tt, ensure_uploads w).
Proof.
  unfold PDFCompressorService.ensure_upload_directory, ensure_uploads,
    PDFCompressorService.upload_folder, bind, Os.path_exists.
  case_bool_decide as Hex; [done|].
  assert (fs w !! UPLOAD_FOLDER default_config = None) as Hnone.
  { apply lookup_None. destruct (Os.lookup _ _) eqn:H; [|done]. destruct Hex. by eexists. }
  change (UPLOAD_FOLDER default_config) with "uploads" in *.
  simpl negb. cbv iota.
  unfold Os.makedirs. change (String.length "uploads") with 7%nat.
  change (Os.makedirs_go 7 "uploads")
    with (head_exists <- Os.path_exists (OsPath.dirname "uploads") ;;
          (if negb (bool_decide (OsPath.dirname "uploads" = "")) && negb head_exists
           then Os.makedirs_go 6 (OsPath.dirname "uploads")
           else ret tt) ;;;
          try_except (Os.mkdir "uploads")
            (λ e, d <- Os.isdir "uploads" ;; if d then ret tt else raise e)).
  change (OsPath.dirname "uploads") with "".
  unfold bind, Os.path_exists, try_except, Os.mkdir, Os.parent_ok, ret.
  cbn [negb]. rewrite (bool_decide_eq_true_2 ("" = "")) by done. cbn [negb andb].
  rewrite Hnone. change (OsPath.dirname "uploads") with "".
  by rewrite (bool_decide_eq_true_2 ("" = "")).
Qed.

Lemma construct_run (cfg : config) (name : string) (w : world) :
  Routes.construct (Routes.select_service name).1.1 w = (Val tt, constructed name w).
Proof.
  destruct (select_service_routed cfg name "" "" "") as (_ & _ & ->).
  unfold constructed. destruct (flat_routed name); [|done].
  apply ensure_upload_directory_run.
Qed.

Lemma constructed_facts (name : string) (w : world) :
  threads (constructed name w) = threads w
  ∧ written (constructed name w) = written w
  ∧ faults (constructed name w) = faults w
  ∧ (fs (constructed name w) = fs w
     ∨ (fs w !! UPLOAD_FOLDER default_config = None
        ∧ fs (constructed name w) = <[UPLOAD_FOLDER default_config := Dir]> (fs w)))
  ∧ (is_Some (fs w !! UPLOAD_FOLDER default_config) → constructed name w = w)
  ∧ (flat_routed name = false → constructed name w = w).
Proof.
  unfold constructed, ensure_uploads.
  destruct (flat_routed name); [|by auto 10].
  case_bool_decide as Hex.
  - repeat split; auto.
  - repeat split; try done.
    + right. split; [|done]. apply lookup_None.
      destruct (Os.lookup _ _) eqn:H; [|done]. destruct Hex. by eexists.
    + intros [n Hn]. destruct Hex. rewrite (lookup_exact _ _ _ Hn). by eexists.
Qed.

(** The download endpoint, run: after the constructor of the service, the
    node the path names decides.  Nothing there: the not-found redirect.
    A file: the cleanup thread is started and the file is sent.  A
    directory: the cleanup thread is started, [send_file] raises and the
    handler redirects to the PDF-to-Word page. *)
Lemma download_file_run (cfg : config) (uid filename : string) (w : world) :
  0 < CLEANUP_DELAY cfg →
  let name := Werkzeug.secure_filename filename in
  let path := Routes.download_path cfg uid filename in
  let w0 := constructed name w in
  Routes.download_file cfg uid filename w
  = match Os.lookup (fs w0) path with
    | Some (File _) =>
        (Val (SendFile path name (Routes.select_service name).1.2),
         with_thread (download_thread cfg name path) w0)
    | Some Dir =>
        (Val (Redirect "main.pdf_to_word"
                ("Error downloading file: " +:+ exn_str (OSError "Is a directory"))),
         with_thread (download_thread cfg name path) w0)
    | None =>
        (Val (Redirect (Routes.select_service name).2 "File not found or has expired."), w0)
    end.
Proof.
  intros Hdelay name path w0. unfold Routes.download_file, Routes.download_path in *.
  fold name in path |- *.
  pose proof (select_service_routed cfg name uid name path) as (_ & Hclean & _).
  pose proof (construct_run cfg name w) as Hcons.
  cbv zeta in Hclean. fold path in Hclean. fold w0 in Hcons.
  destruct (Routes.select_service name) as [[svc mime] redir] eqn:Hsel.
  cbn [fst snd] in *. fold path.
  unfold try_except. rewrite (bind_val _ _ _ _ _ Hcons).
  unfold bind at 1. unfold Os.path_exists at 1.
  destruct (Os.lookup (fs w0) path) as [x|] eqn:Hp.
  2:{ rewrite bool_decide_eq_false_2 by by intros [? ?]. done. }
  rewrite bool_decide_eq_true_2 by by eexists. cbn [negb].
  assert (Routes.cleanup_processed_file cfg svc path w0
          = (Val tt, with_thread (download_thread cfg name path) w0)) as Hth.
  { rewrite Hclean. unfold download_thread, Utils.cleanup_files.
    destruct (flat_routed name); [done|].
    destruct (0 <? CLEANUP_DELAY cfg) eqn:Hd; [done|].
    apply Z.ltb_ge in Hd. lia. }
  rewrite (bind_val _ _ _ _ _ Hth).
  unfold Routes.send_file. cbn [fs with_thread]. rewrite Hp.
  by destruct x.
Qed.

Lemma download_file_missing (cfg : config) (uid filename : string) (w : world) :
  let name := Werkzeug.secure_filename filename in
  let w0 := constructed name w in
  Os.lookup (fs w0) (Routes.download_path cfg uid filename) = None →
  Routes.download_file cfg uid filename w
  = (Val (Redirect (Routes.select_service name).2 "File not found or has expired."), w0).
Proof.
  intros name w0 Hp. unfold Routes.download_file, Routes.download_path in *.
  fold name in Hp |- *.
  pose proof (construct_run cfg name w) as Hcons. fold w0 in Hcons.
  destruct (Routes.select_service name) as [[svc mime] redir] eqn:Hsel.
  cbn [fst snd] in *.
  unfold try_except. rewrite (bind_val _ _ _ _ _ Hcons).
  unfold bind at 1. unfold Os.path_exists at 1. rewrite Hp.
  rewrite bool_decide_eq_false_2 by by intros [? ?]. done.
Qed.

Lemma run_remove_thread (delay : Z) (path : string) (w : world) :
  run_thread (RemoveFileThread delay path) w
  = (Val tt,
     if decide (path ∈ faults w) then w
     else match fs w !! path with
          | Some (File _) => set_fs (delete path) w
          | _ => w
          end).
Proof.
  unfold run_thread, try_except, bind, Os.path_exists, Os.remove, ret.
  destruct (fs w !! path) as [n|] eqn:Hp.
  - rewrite (lookup_exact _ _ _ Hp), bool_decide_eq_true_2 by by eexists.
    destruct n; destruct (decide (path ∈ faults w)); by rewrite ?Hp.
  - case_bool_decide; rewrite ?Hp; by destruct (decide (path ∈ faults w)).
Qed.

(** A job directory that holds only a result: cleaning up the result and
    then the directory restores the filesystem from before the job. *)
Lemma result_cleanup_restores (cfg : config) (uid name : string) (d : file_data)
    (w w1 : world) :
  fresh_job cfg uid w →
  PyStr.has_char OsPath.sep (PyStr.to_chars name) = false →
  let out := OsPath.join (job_dir cfg uid) name in
  fs w1 = <[out := File d]> (<[job_dir cfg uid := Dir]> (fs w)) →
  faults w1 = faults w →
  fs (foldl (λ w p, cleanup_effect p w) w1 [out; OsPath.dirname out]) = fs w.
Proof.
  intros Hfresh Hn out Hfs Hfa.
  destruct (job_entry_facts cfg uid w name Hfresh Hn) as (Hd & Hne & Hnone & Hnf).
  fold out in Hd, Hne, Hnone, Hnf. rewrite Hd.
  pose proof Hfresh as (_ & _ & _ & Hjd & Hjf & Hk).
  change [out; job_dir cfg uid] with ([out] ++ [job_dir cfg uid]).
  rewrite cleanup_fold_workspace.
  - simpl. rewrite Hfs. apply map_eq. intros k.
    destruct (decide (k = job_dir cfg uid)) as [->|Hkj].
    { by rewrite lookup_delete_eq. }
    rewrite lookup_delete_ne by done.
    destruct (decide (k = out)) as [->|Hko].
    { by rewrite lookup_delete_eq. }
    by rewrite lookup_delete_ne, !lookup_insert_ne.
  - constructor; [|constructor]. split; [by rewrite Hfa|].
    by rewrite Hfs, lookup_insert_eq.
  - by rewrite Hfa.
  - rewrite Hfs, lookup_insert_ne by done. apply lookup_insert_eq.
  - intros k [x Hx] Hkd Hkne.
    destruct (decide (k = out)) as [->|Hko]; [by left|].
    rewrite Hfs, !lookup_insert_ne in Hx by done.
    destruct (Hk k Hkd) as [Hkn _]. by rewrite Hkn in Hx.
Qed.

Lemma demo_fresh_job : fresh_job default_config "j1" Demo.w0.
Proof.
  split; [|split; [|split; [|split; [|split]]]].
  - split; [done|]. vm_compute. reflexivity.
  - split; [vm_compute; reflexivity|]. exists "j"%char. split; [|done].
    simpl. by left.
  - vm_compute. reflexivity.
  - vm_compute. reflexivity.
  - simpl. apply not_elem_of_empty.
  - intros k Hk. split; [|simpl; apply not_elem_of_empty].
    simpl. destruct (decide (k = "uploads")) as [->|Hne].
    + vm_compute in Hk. discriminate.
    + by rewrite lookup_singleton_ne.
Qed.

(** X1: whatever name the client asks for, the output file a service
    writes under a directory is an entry of that directory: the name
    [secure_output_filename] returns is not empty, has no separator and is
    neither [.] nor [..]. *)
Theorem X1_secure_output_filename_stays_inside (dir name default_name : string) :
  OsPath.child_of dir (OsPath.join dir (Utils.secure_output_filename name default_name))
  = true.
Proof. apply child_of_join, secure_output_filename_entry_name. Qed.

(** X2: when [save_uploaded_files] returns, it has written one file for
    each upload that has a name, in the order of the uploads and called
    [temp_<position>_<sanitised name>] after the position of the upload in
    the whole list; the paths are pairwise distinct, lie directly in the
    directory, and each file holds the bytes of its upload. *)
Theorem X2_save_uploaded_files_stages
    (files : list upload) (temp_dir : string) (w w' : world) (paths : list string) :
  Utils.save_uploaded_files files temp_dir w = (Val paths, w') →
  paths = (λ e, staged_path temp_dir e.1 e.2) <$> named_from 0 files
  ∧ NoDup paths
  ∧ Forall (λ p, OsPath.child_of temp_dir p = true) paths
  ∧ ∀ e, e ∈ named_from 0 files →
      fs w' !! staged_path temp_dir e.1 e.2 = Some (File (stream e.2)).
Proof.
  intros H. apply save_uploaded_files_from_inv in H as [-> ->].
  rewrite <- list_fmap_compose.
  split; [done|]. split; [|split].
  - rewrite list_fmap_compose. apply staged_paths_NoDup.
  - apply Forall_fmap, Forall_forall. intros e _. simpl.
    apply child_of_join, staged_name_entry.
  - intros e He. rewrite after_write_fold_fs. by apply staged_lookup.
Qed.

Lemma X2_save_uploaded_files_stages_witness :
  ∃ w',
    Utils.save_uploaded_files [Demo.a_pdf; Demo.nameless; Demo.b_pdf] "uploads/j1" Demo.w_job
    = (Val ["uploads/j1/temp_0_a.pdf"; "uploads/j1/temp_2_b_b.PDF"], w')
    ∧ fs w' !! "uploads/j1/temp_2_b_b.PDF" = Some (File Demo.pdf6).
Proof.
  eexists. split; [vm_compute; reflexivity|].
  eapply (X2_save_uploaded_files_stages [Demo.a_pdf; Demo.nameless; Demo.b_pdf] "uploads/j1"
            Demo.w_job _ _ ltac:(vm_compute; reflexivity)) with (e := (2, Demo.b_pdf)).
  vm_compute. right. left.
Defined.

(** X3: under an upload folder that exists, [create_temp_directory]
    returns [<base>/<unique_id>] and that path is a directory afterwards;
    nothing else changes, and a job directory that is already there is
    reused without an error ([exist_ok]). *)
Theorem X3_create_temp_directory_creates (base uid : string) (w : world) :
  plain_dir base → PyStr.has_char OsPath.sep (PyStr.to_chars uid) = false →
  fs w !! base = Some Dir →
  (∀ d, fs w !! OsPath.join base uid ≠ Some (File d)) →
  ∃ w',
    Utils.create_temp_directory base uid w = (Val (OsPath.join base uid), w')
    ∧ fs w' !! OsPath.join base uid = Some Dir
    ∧ (∀ k, k ≠ OsPath.join base uid → fs w' !! k = fs w !! k)
    ∧ (fs w !! OsPath.join base uid = Some Dir → w' = w)
    ∧ threads w' = threads w ∧ written w' = written w.
Proof.
  intros Hb Hu Hbase Hfile. eexists. split; [by apply create_temp_directory_ok|].
  simpl. split; [apply lookup_insert_eq|]. split; [|split; [|done]].
  - intros k Hk. by apply lookup_insert_ne.
  - intros Hd. destruct w as [m ? ? ?]. unfold set_fs. simpl in *.
    by rewrite insert_id.
Qed.

Lemma X3_create_temp_directory_creates_witness :
  ∃ w',
    Utils.create_temp_directory "uploads" "j1" Demo.w0 = (Val "uploads/j1", w')
    ∧ fs w' !! "uploads/j1" = Some Dir.
Proof.
  destruct (X3_create_temp_directory_creates "uploads" "j1" Demo.w0)
    as (w' & Hrun & Hdir & _).
  - split; [done|]. vm_compute. reflexivity.
  - vm_compute. reflexivity.
  - vm_compute. reflexivity.
  - intros d. vm_compute. discriminate.
  - exists w'. split; [exact Hrun|exact Hdir].
Defined.

(** X4: [cleanup_files] called without delay on the files of a directory
    followed by the directory itself removes all of them, when the listed
    paths are deletable regular files (or already gone) and include every
    entry of the directory; every other path is left alone. *)
Theorem X4_cleanup_files_destroys_workspace
    (paths : list string) (dir : string) (w : world) :
  Forall (λ p, (p ∉ faults w) ∧ fs w !! p ≠ Some Dir) paths →
  dir ∉ faults w → fs w !! dir = Some Dir →
  (∀ k, is_Some (fs w !! k) → OsPath.dirname k = dir → k ≠ dir → k ∈ paths) →
  ∃ w',
    Utils.cleanup_files (paths ++ [dir]) 0 w = (Val tt, w')
    ∧ fs w' !! dir = None
    ∧ (∀ p, p ∈ paths → fs w' !! p = None)
    ∧ (∀ k, k ∉ paths → k ≠ dir → fs w' !! k = fs w !! k).
Proof.
  intros Hp Hf Hd Hall. eexists. split; [apply cleanup_files_now|].
  rewrite cleanup_fold_workspace by done. simpl. split; [|split].
  - apply lookup_delete_eq.
  - intros p Hin. destruct (decide (p = dir)) as [->|Hne]; [apply lookup_delete_eq|].
    rewrite lookup_delete_ne, delete_all_lookup by done. by rewrite decide_True.
  - intros k Hk Hne. rewrite lookup_delete_ne, delete_all_lookup by done.
    by rewrite decide_False.
Qed.

Lemma X4_cleanup_files_destroys_workspace_witness :
  ∃ w',
    Utils.cleanup_files (["uploads/j1/out.pdf"] ++ ["uploads/j1"]) 0 Demo.w_job = (Val tt, w')
    ∧ fs w' !! "uploads/j1" = None
    ∧ fs w' !! "uploads" = Some Dir.
Proof.
  destruct (X4_cleanup_files_destroys_workspace ["uploads/j1/out.pdf"] "uploads/j1" Demo.w_job)
    as (w' & Hrun & Hdir & _ & Hother).
  - constructor; [|constructor]. split; [simpl; apply not_elem_of_empty|].
    vm_compute. discriminate.
  - simpl. apply not_elem_of_empty.
  - vm_compute. reflexivity.
  - intros k [x Hk] Hd Hne. simpl in Hk.
    destruct (decide (k = "uploads/j1/out.pdf")) as [->|H1]; [by left|].
    destruct (decide (k = "uploads/j1")) as [->|H2]; [done|].
    destruct (decide (k = "uploads")) as [->|H3]; [vm_compute in Hd; discriminate|].
    rewrite !lookup_insert_ne in Hk by done.
    rewrite ?lookup_singleton_ne, ?lookup_empty in Hk by done. done.
  - exists w'. split; [exact Hrun|]. split; [exact Hdir|].
    rewrite Hother; [vm_compute; reflexivity| |done].
    intros [?|?%not_elem_of_nil]%elem_of_cons; done.
Defined.

(** X5: in a fresh workspace, merging uploads that validation accepts
    and that are all readable PDFs succeeds; the result file holds the
    pages of the accepted uploads, concatenated in the order of the uploads,
    and once [merge_files] has returned the job directory holds the result
    and nothing else (the staged copies are gone).  The name of the result
    must not begin like a staged copy. *)
Theorem X5_merge_files_concatenates (cfg : config) (L : Libs) (uid : string)
    (files valid : list upload) (pagess : list (list page)) (output_filename : string)
    (w : world) :
  let name := Utils.secure_output_filename output_filename "merged-document.pdf" in
  fresh_job cfg uid w →
  Utils.validate_pdf_files cfg files 2 = Success valid →
  Forall2 (λ f ps, pdf_pages (stream f) = Some ps) valid pagess →
  PyStr.startswith name "temp_" = false →
  ∃ w',
    PDFMergerService.merge_files cfg L uid files output_filename w
    = (Val (Success (JobResult uid name "PDF files merged successfully!")), w')
    ∧ fs w' = <[PDFMergerService.get_file_path cfg uid name
                 := File (pdf_file L (concat pagess))]>
                (<[job_dir cfg uid := Dir]> (fs w))
    ∧ threads w' = threads w.
Proof.
  intros name Hfresh Hvalid Hpages Hname.
  destruct (merge_files_ok cfg L uid files valid pagess output_filename w
              Hfresh Hvalid Hpages Hname) as (w' & Hrun & Hfs & Hth & _).
  by exists w'.
Qed.

Lemma X5_merge_files_concatenates_witness :
  ∃ w',
    PDFMergerService.merge_files default_config Demo.libs "j1"
      [Demo.a_pdf; Demo.nameless; Demo.b_pdf] "all" Demo.w0
    = (Val (Success (JobResult "j1" "all.pdf" "PDF files merged successfully!")), w')
    ∧ fs w' !! "uploads/j1/all.pdf"
      = Some (File (pdf_file Demo.libs
           ([SourcePage 1; SourcePage 2; SourcePage 3]
            ++ (SourcePage <$> [1; 2; 3; 4; 5; 6]%N)))).
Proof.
  destruct (X5_merge_files_concatenates default_config Demo.libs "j1"
              [Demo.a_pdf; Demo.nameless; Demo.b_pdf] [Demo.a_pdf; Demo.b_pdf]
              [[SourcePage 1; SourcePage 2; SourcePage 3]; SourcePage <$> [1; 2; 3; 4; 5; 6]%N]
              "all" Demo.w0)
    as (w' & Hrun & Hfs & _).
  - exact demo_fresh_job.
  - vm_compute. reflexivity.
  - repeat constructor.
  - vm_compute. reflexivity.
  - exists w'. split; [exact Hrun|]. rewrite Hfs. vm_compute. reflexivity.
Defined.

(** X6: in a fresh workspace, when one of the uploads that validation
    accepts is not a readable PDF, [merge_files] reports a failure and
    leaves the filesystem exactly as it found it: the staged copies and the
    job directory are removed, and no thread is started. *)
Theorem X6_merge_files_unreadable_restores (cfg : config) (L : Libs) (uid : string)
    (files valid : list upload) (output_filename : string) (w : world) :
  fresh_job cfg uid w →
  Utils.validate_pdf_files cfg files 2 = Success valid →
  Exists (λ f, pdf_pages (stream f) = None) valid →
  ∃ m w',
    PDFMergerService.merge_files cfg L uid files output_filename w
    = (Val (Failure m), w')
    ∧ fs w' = fs w ∧ threads w' = threads w.
Proof. apply merge_files_unreadable. Qed.

Lemma X6_merge_files_unreadable_restores_witness :
  ∃ m w',
    PDFMergerService.merge_files default_config Demo.libs "j1"
      [Demo.a_pdf; Demo.broken_pdf] "all" Demo.w0
    = (Val (Failure m), w')
    ∧ fs w' = fs Demo.w0.
Proof.
  destruct (X6_merge_files_unreadable_restores default_config Demo.libs "j1"
              [Demo.a_pdf; Demo.broken_pdf] [Demo.a_pdf; Demo.broken_pdf] "all" Demo.w0)
    as (m & w' & Hrun & Hfs & _).
  - exact demo_fresh_job.
  - vm_compute. reflexivity.
  - right. left. reflexivity.
  - exists m, w'. split; [exact Hrun|exact Hfs].
Defined.

Lemma secure_output_filename_fixed (name default_name : string) :
  Werkzeug.secure_filename (Utils.secure_output_filename name default_name)
  = Utils.secure_output_filename name default_name.
Proof. unfold Utils.secure_output_filename. apply secure_filename_idemp. Qed.

Lemma download_path_routed (cfg : config) (uid name : string) :
  Werkzeug.secure_filename name = name →
  Routes.download_path cfg uid name
  = if flat_routed name
    then OsPath.join (UPLOAD_FOLDER default_config) (uid +:+ "_" +:+ name)
    else OsPath.join (job_dir cfg uid) name.
Proof.
  intros Hfix. unfold Routes.download_path. rewrite Hfix.
  destruct (select_service_routed cfg name uid name "") as [-> _].
  by rewrite Hfix.
Qed.

Lemma has_char_join_plain (d name : string) :
  plain_dir d → PyStr.has_char OsPath.sep (PyStr.to_chars name) = false →
  PyStr.has_char OsPath.sep (PyStr.to_chars (OsPath.join d name)) = true.
Proof.
  intros [Hd He] Hn. unfold OsPath.join.
  rewrite to_of_chars, join_chars_plain, has_char_app by done. simpl.
  apply orb_true_r.
Qed.

(** A path of the flat layout is neither a job directory nor in one. *)
Lemma flat_path_not_job (cfg : config) (uid name : string) (w : world) :
  fresh_job cfg uid w →
  PyStr.has_char OsPath.sep (PyStr.to_chars name) = false →
  let flat := OsPath.join (UPLOAD_FOLDER default_config) (uid +:+ "_" +:+ name) in
  flat ≠ job_dir cfg uid ∧ flat ≠ OsPath.join (job_dir cfg uid) name.
Proof.
  intros Hfresh Hn flat. pose proof Hfresh as (Hb & Hu & _).
  pose proof (entry_name_no_sep _ Hu) as Hus.
  assert (plain_dir (UPLOAD_FOLDER default_config)) as Hup.
  { split; [done|]. vm_compute. reflexivity. }
  assert (PyStr.has_char OsPath.sep (PyStr.to_chars (uid +:+ "_" +:+ name)) = false) as Hx.
  { rewrite !to_chars_app, !has_char_app, Hus, Hn. done. }
  assert (OsPath.dirname flat = UPLOAD_FOLDER default_config) as Hdf
    by by apply dirname_join.
  split.
  - intros Heq. pose proof Hdf as Hd2. rewrite Heq in Hd2.
    unfold job_dir in Hd2. rewrite dirname_join in Hd2 by done.
    unfold flat, job_dir in Heq. rewrite Hd2 in Heq.
    apply join_entry_inj in Heq; [|by apply no_sep_relative..].
    apply (f_equal PyStr.to_chars) in Heq. rewrite !to_chars_app in Heq.
    apply (f_equal length) in Heq. rewrite !length_app in Heq. simpl in Heq. lia.
  - intros Heq. pose proof Hdf as Hd2. rewrite Heq in Hd2.
    rewrite dirname_join in Hd2 by (by eapply job_dir_plain || done).
    pose proof (has_char_join_plain (UPLOAD_FOLDER cfg) uid Hb Hus) as Hsep.
    fold (job_dir cfg uid) in Hsep. rewrite Hd2 in Hsep. vm_compute in Hsep. done.
Qed.

(** The path of an entry with a name does not end in a separator. *)
Lemma join_entry_plain (d name : string) :
  plain_dir d → PyStr.has_char OsPath.sep (PyStr.to_chars name) = false →
  name ≠ "" → PyStr.endswith (OsPath.join d name) "/" = false.
Proof.
  intros [Hd He] Hn Hne. unfold PyStr.endswith, PyStr.endswith_chars, OsPath.join.
  rewrite to_of_chars, join_chars_plain by done.
  assert (PyStr.to_chars name ≠ []) as Hne'.
  { intros H. apply Hne. apply to_chars_inj. by rewrite H. }
  destruct (PyStr.to_chars name) as [|c l] using rev_ind; [done|]. clear IHl.
  rewrite has_char_app in Hn. apply orb_false_iff in Hn as [_ Hc].
  simpl in Hc. rewrite orb_false_r in Hc. apply bool_decide_eq_false in Hc.
  rewrite app_comm_cons, app_assoc, reverse_snoc. simpl.
  unfold PyStr.startswith_chars. simpl.
  rewrite decide_False by (intros H; by apply Hc). apply bool_decide_eq_false_2.
  by intros [? ?].
Qed.



(** X8: the whole life of a merge job.  After a successful merge in a
    fresh workspace, downloading the result under the identifier and name
    the service returned sends the merged file, leaves it in place for the
    time being and starts one thread; once that thread has run, the result
    and the job directory are gone and the filesystem is as it was before
    the job.  The name must be one the endpoint resolves in a job directory. *)
Theorem X8_merge_download_cleanup_restores (cfg : config) (L : Libs) (uid : string)
    (files valid : list upload) (pagess : list (list page)) (output_filename : string)
    (w : world) :
  let name := Utils.secure_output_filename output_filename "merged-document.pdf" in
  fresh_job cfg uid w →
  Utils.validate_pdf_files cfg files 2 = Success valid →
  Forall2 (λ f ps, pdf_pages (stream f) = Some ps) valid pagess →
  PyStr.startswith name "temp_" = false →
  flat_routed name = false →
  0 < CLEANUP_DELAY cfg →
  ∃ r w1 mime w2 t w3,
    PDFMergerService.merge_files cfg L uid files output_filename w = (Val (Success r), w1)
    ∧ Routes.download_file cfg (unique_id r) (result_filename r) w1
      = (Val (SendFile (PDFMergerService.get_file_path cfg uid name) name mime), w2)
    ∧ fs w2 = fs w1
    ∧ threads w2 = threads w ++ [t]
    ∧ run_thread t w2 = (Val tt, w3)
    ∧ fs w3 = fs w.
Proof.
  intros name Hfresh Hvalid Hpages Hname Hroute Hdelay.
  destruct (merge_files_ok cfg L uid files valid pagess output_filename w
              Hfresh Hvalid Hpages Hname) as (w1 & Hrun & Hfs & Hth & Hfa).
  fold name in Hrun, Hfs.
  assert (PyStr.has_char OsPath.sep (PyStr.to_chars name) = false) as Hsep
    by apply entry_name_no_sep, secure_output_filename_entry_name.
  assert (Werkzeug.secure_filename name = name) as Hfix
    by apply secure_output_filename_fixed.
  assert (Routes.download_path cfg uid name = PDFMergerService.get_file_path cfg uid name)
    as Hpath.
  { rewrite download_path_routed by done. by rewrite Hroute. }
  set (out := PDFMergerService.get_file_path cfg uid name) in *.
  eexists _, w1, _, _, _, _. split; [exact Hrun|]. cbn [unique_id result_filename].
  rewrite download_file_run by done. rewrite Hfix, Hpath.
  unfold constructed. rewrite Hroute.
  rewrite (lookup_exact _ _ (File (pdf_file L (concat pagess))))
    by (rewrite Hfs; apply lookup_insert_eq).
  split; [reflexivity|]. cbn [fs threads faults written with_thread].
  split; [done|]. split; [by rewrite Hth|].
  unfold download_thread. rewrite Hroute. cbn [run_thread].
  split; [apply delayed_cleanup_fold|].
  by apply (result_cleanup_restores cfg uid name (pdf_file L (concat pagess)) w).
Qed.

Lemma X8_merge_download_cleanup_restores_witness :
  ∃ w1 w2 w3,
    PDFMergerService.merge_files default_config Demo.libs "j1"
      [Demo.a_pdf; Demo.b_pdf] "all" Demo.w0
    = (Val (Success (JobResult "j1" "all.pdf" "PDF files merged successfully!")), w1)
    ∧ Routes.download_file default_config "j1" "all.pdf" w1
      = (Val (SendFile "uploads/j1/all.pdf" "all.pdf" "application/pdf"), w2)
    ∧ run_thread (CleanupThread 10 ["uploads/j1/all.pdf"; "uploads/j1"]) w2 = (Val tt, w3)
    ∧ fs w3 = fs Demo.w0.
Proof.
  destruct (X8_merge_download_cleanup_restores default_config Demo.libs "j1"
              [Demo.a_pdf; Demo.b_pdf] [Demo.a_pdf; Demo.b_pdf]
              [[SourcePage 1; SourcePage 2; SourcePage 3]; SourcePage <$> [1; 2; 3; 4; 5; 6]%N]
              "all" Demo.w0)
    as (r & w1 & mime & w2 & t & w3 & Hrun & Hdl & _ & Hth & Hthread & Hfs).
  - exact demo_fresh_job.
  - vm_compute. reflexivity.
  - repeat constructor.
  - vm_compute. reflexivity.
  - vm_compute. reflexivity.
  - simpl. lia.
  - vm_compute in Hrun. injection Hrun as <- <-.
    vm_compute in Hdl. injection Hdl as <- <-.
    vm_compute in Hth. injection Hth as <-.
    eexists _, _, w3. split; [vm_compute; reflexivity|].
    split; [vm_compute; reflexivity|]. split; [exact Hthread|exact Hfs].
Defined.

(** X9: a merged document whose name the download endpoint resolves in
    the flat layout (a name that begins with [images-to-pdf] or contains
    [compressed]) cannot be downloaded: the endpoint looks for
    [uploads/<id>_<name>], does not find it, redirects with the not-found
    message and starts no cleanup, so the result stays in its job
    directory.  The endpoint leaves the state as it is when the merger works
    in the upload folder of the default configuration; under another
    folder, the constructor of the service it picked may create that of the
    default configuration. *)
Theorem X9_merged_result_misrouted (cfg : config) (L : Libs) (uid : string)
    (files valid : list upload) (pagess : list (list page)) (output_filename : string)
    (w : world) :
  let name := Utils.secure_output_filename output_filename "merged-document.pdf" in
  fresh_job cfg uid w →
  Utils.validate_pdf_files cfg files 2 = Success valid →
  Forall2 (λ f ps, pdf_pages (stream f) = Some ps) valid pagess →
  PyStr.startswith name "temp_" = false →
  flat_routed name = true →
  fs w !! OsPath.join (UPLOAD_FOLDER default_config) (uid +:+ "_" +:+ name) = None →
  ∃ r w1 endpoint w2,
    PDFMergerService.merge_files cfg L uid files output_filename w = (Val (Success r), w1)
    ∧ Routes.download_file cfg (unique_id r) (result_filename r) w1
      = (Val (Redirect endpoint "File not found or has expired."), w2)
    ∧ threads w2 = threads w1 ∧ written w2 = written w1
    ∧ (fs w2 = fs w1 ∨ fs w2 = <[UPLOAD_FOLDER default_config := Dir]> (fs w1))
    ∧ (UPLOAD_FOLDER cfg = UPLOAD_FOLDER default_config → w2 = w1)
    ∧ is_Some (fs w2 !! PDFMergerService.get_file_path cfg uid name).
Proof.
  intros name Hfresh Hvalid Hpages Hname Hroute Hflat.
  destruct (merge_files_ok cfg L uid files valid pagess output_filename w
              Hfresh Hvalid Hpages Hname) as (w1 & Hrun & Hfs & Hth & Hfa).
  fold name in Hrun, Hfs.
  assert (PyStr.has_char OsPath.sep (PyStr.to_chars name) = false) as Hsep
    by apply entry_name_no_sep, secure_output_filename_entry_name.
  assert (Werkzeug.secure_filename name = name) as Hfix
    by apply secure_output_filename_fixed.
  destruct (flat_path_not_job cfg uid name w Hfresh Hsep) as [Hne1 Hne2].
  set (flat := OsPath.join (UPLOAD_FOLDER default_config) (uid +:+ "_" +:+ name)) in *.
  set (out := PDFMergerService.get_file_path cfg uid name) in *.
  assert (plain_dir (UPLOAD_FOLDER default_config)) as Hup.
  { split; [done|]. vm_compute. reflexivity. }
  pose proof Hfresh as (_ & Hu & Hbase & _).
  pose proof (entry_name_no_sep _ Hu) as Hus.
  assert (PyStr.has_char OsPath.sep (PyStr.to_chars (uid +:+ "_" +:+ name)) = false) as Hx.
  { rewrite !to_chars_app, !has_char_app, Hus, Hsep. done. }
  assert (uid +:+ "_" +:+ name ≠ "") as Hxne.
  { intros H. apply (f_equal PyStr.to_chars) in H. rewrite !to_chars_app in H.
    change (PyStr.to_chars "_") with ["_"%char] in H.
    change (PyStr.to_chars "") with (@nil ascii) in H.
    by destruct (PyStr.to_chars uid). }
  destruct (constructed_facts name w1) as (Hcth & Hcwr & _ & Hcfs & Hcid & _).
  set (w2 := constructed name w1) in *.
  assert (fs w1 !! flat = None) as Hflat1.
  { rewrite Hfs. by rewrite !lookup_insert_ne. }
  assert (Os.lookup (fs w2) flat = None) as Hmiss.
  { rewrite lookup_plain by by apply join_entry_plain.
    destruct Hcfs as [->|[_ ->]]; [done|].
    rewrite lookup_insert_ne; [done|]. intros H. symmetry in H. revert H.
    by apply join_ne_dir. }
  eexists _, w1, _, w2. split; [exact Hrun|]. cbn [unique_id result_filename].
  split.
  { rewrite download_file_missing; [by rewrite Hfix|].
    rewrite Hfix. fold w2. by rewrite download_path_routed, Hroute by done. }
  split; [done|]. split; [done|].
  assert (fs w1 !! out = Some (File (pdf_file L (concat pagess)))) as Hout
    by (rewrite Hfs; apply lookup_insert_eq).
  split; [|split].
  - destruct Hcfs as [?|[_ ?]]; [by left|by right].
  - intros Hcfg. apply Hcid. rewrite <- Hcfg, Hfs.
    rewrite lookup_insert_ne.
    + rewrite lookup_insert_ne; [by rewrite Hbase|].
      apply join_ne_dir; [by destruct Hfresh|done].
    + unfold out, PDFMergerService.get_file_path, OsPath.join3.
      intros H. pose proof (f_equal OsPath.dirname H) as Hd.
      fold (job_dir cfg uid) in Hd.
      rewrite dirname_join in Hd by (by eapply job_dir_plain || done).
      pose proof (has_char_join_plain (UPLOAD_FOLDER cfg) uid
                    ltac:(by destruct Hfresh) Hus) as Hj.
      fold (job_dir cfg uid) in Hj. rewrite Hd, Hcfg in Hj. vm_compute in Hj. done.
  - destruct Hcfs as [->|[Hn ->]]; [by eexists|].
    rewrite lookup_insert_ne; [by eexists|]. intros H. by rewrite H, Hout in Hn.
Qed.

Lemma X9_merged_result_misrouted_witness :
  ∃ w1,
    PDFMergerService.merge_files default_config Demo.libs "j1"
      [Demo.a_pdf; Demo.b_pdf] "compressed" Demo.w0
    = (Val (Success (JobResult "j1" "compressed.pdf" "PDF files merged successfully!")), w1)
    ∧ Routes.download_file default_config "j1" "compressed.pdf" w1
      = (Val (Redirect "main.compress_pdf" "File not found or has expired."), w1)
    ∧ is_Some (fs w1 !! "uploads/j1/compressed.pdf").
Proof.
  destruct (X9_merged_result_misrouted default_config Demo.libs "j1"
              [Demo.a_pdf; Demo.b_pdf] [Demo.a_pdf; Demo.b_pdf]
              [[SourcePage 1; SourcePage 2; SourcePage 3]; SourcePage <$> [1; 2; 3; 4; 5; 6]%N]
              "compressed" Demo.w0)
    as (r & w1 & endpoint & w2 & Hrun & Hdl & _ & _ & _ & Hsame & Hsome).
  - exact demo_fresh_job.
  - vm_compute. reflexivity.
  - repeat constructor.
  - vm_compute. reflexivity.
  - vm_compute. reflexivity.
  - vm_compute. reflexivity.
  - rewrite (Hsame eq_refl) in Hdl, Hsome.
    vm_compute in Hrun. injection Hrun as <- <-.
    vm_compute in Hdl. injection Hdl as <-.
    eexists. split; [vm_compute; reflexivity|].
    split; [vm_compute; reflexivity|]. vm_compute. by eexists.
Defined.

(** ** Compression *)

(** Once the upload has been staged, [compress_pdf] returns, and the
    filesystem it leaves is the one the compression methods left, without
    the staged copy. *)
Lemma compress_pdf_run (L : Libs) (uid : string) (file : upload)
    (output_filename lvl : string) (w : world) :
  let tp := compress_temp_path uid file in
  let op := compress_output_path uid file output_filename in
  filename file ≠ "" →
  PyStr.endswith (PyStr.lower (filename file)) ".pdf" = true →
  can_write w tp →
  ∃ b w2 o w',
    PDFCompressorService._compress_pdf_file L tp op lvl (after_write tp (stream file) w)
    = (Val b, w2)
    ∧ PDFCompressorService.compress_pdf L uid file output_filename lvl w = (Val o, w')
    ∧ fs w' = delete tp (fs w2)
    ∧ threads w' = threads w2
    ∧ written w' = written w2
    ∧ (b = false → o = Failure "Failed to compress PDF").
Proof.
  intros tp op Hname Hpdf Htp.
  set (w1 := after_write tp (stream file) w).
  destruct (compress_pdf_file_spec L tp op lvl w1) as (b & w2 & Hc & Hfalse & Htrue).
  assert (∃ d, fs w2 !! tp = Some (File d)) as [d2 Htp2].
  { destruct b.
    - destruct (Htrue eq_refl) as (d' & -> & _). simpl.
      destruct (decide (op = tp)) as [->|Hne].
      + rewrite lookup_insert_eq. by eexists.
      + rewrite lookup_insert_ne, lookup_insert_eq by done. by eexists.
    - rewrite (Hfalse eq_refl). simpl. rewrite lookup_insert_eq. by eexists. }
  assert (faults w2 = faults w) as Hfa.
  { destruct b; [by destruct (Htrue eq_refl) as (d' & -> & _)|by rewrite (Hfalse eq_refl)]. }
  exists b, w2.
  assert (∀ k : Z → M (outcome compress_result),
            (∀ z w0, ∃ r, k z w0 = (r, w0)) →
            ∃ o w',
              try_except
                (Os.write_file tp (stream file) ;;;
                 original_size <- Os.getsize tp ;;
                 success <- PDFCompressorService._compress_pdf_file L tp op lvl ;;
                 e <- Os.path_exists tp ;;
                 (if e : bool then Os.remove tp else ret tt) ;;;
                 if negb success then ret (Failure "Failed to compress PDF")
                 else k original_size)
                (λ e, ret (Failure ("Compression failed: " +:+ exn_str e))) w
              = (Val o, w')
              ∧ fs w' = delete tp (fs w2) ∧ threads w' = threads w2
              ∧ written w' = written w2
              ∧ (b = false → o = Failure "Failed to compress PDF")) as Hgen.
  { intros k Hk.
    set (w3 := set_fs (delete tp) w2).
    assert ((Os.write_file tp (stream file) ;;;
             original_size <- Os.getsize tp ;;
             success <- PDFCompressorService._compress_pdf_file L tp op lvl ;;
             e <- Os.path_exists tp ;;
             (if e : bool then Os.remove tp else ret tt) ;;;
             if negb success then ret (Failure "Failed to compress PDF")
             else k original_size) w
            = (if negb b then ret (Failure "Failed to compress PDF")
               else k (Z.of_N (nbytes (stream file)))) w3) as Hbody.
    { erewrite bind_val; [|by apply write_file_ok].
      erewrite bind_val; [|apply (getsize_ok tp _ (stream file)); apply lookup_insert_eq].
      erewrite bind_val; [|exact Hc].
      erewrite bind_val; [|by eapply path_exists_exact].
      cbv beta iota.
      erewrite bind_val; [|apply (remove_ok tp w2 d2); [rewrite Hfa; apply Htp|done]].
      done. }
    unfold try_except. rewrite Hbody. destruct b; cbn [negb].
    - destruct (Hk (Z.of_N (nbytes (stream file))) w3) as [[o|e] Hr]; rewrite Hr.
      + by eexists _, _.
      + unfold ret. by eexists _, _.
    - unfold ret. by eexists _, _. }
  destruct (Hgen (λ original_size,
    compressed_size <- Os.getsize op ;;
    if original_size =? 0 then raise ZeroDivisionError
    else
      ret (Success (CompressResult
             (SizeReducedBy
                ((inject_Z (original_size - compressed_size) / inject_Z original_size)
                 * 100)%Q)
             (compress_output_name file output_filename) uid op
             original_size compressed_size
             ((inject_Z (original_size - compressed_size) / inject_Z original_size)
              * 100)%Q))))
    as (o & w' & Hrun & Hrest).
  { intros z w0. unfold bind, Os.getsize.
    destruct (fs w0 !! op) as [[d|]|]; [| |by eexists];
      (destruct (z =? 0); by eexists). }
  exists o, w'. split; [exact Hc|]. split; [|exact Hrest].
  unfold PDFCompressorService.compress_pdf.
  unfold truthy at 1. rewrite (bool_decide_eq_false_2 _ Hname). cbn [negb].
  rewrite Hpdf. cbn [negb].
  fold (compress_output_name file output_filename).
  fold (compress_temp_path uid file). fold (compress_output_path uid file output_filename).
  fold tp. fold op. exact Hrun.
Qed.

(** The PyMuPDF method answers [False] and writes nothing when the
    library is missing or cannot rasterise the document. *)
Lemma compress_advanced_fails (L : Libs) (i o lvl : string) (w : world) (d : file_data) :
  let settings :=
    default (PDFCompressorService.compression_settings !!! "medium")
            (PDFCompressorService.compression_settings !! lvl) in
  fs w !! i = Some (File d) →
  fitz_available L = false ∨ fitz_rasterize L d settings.1 settings.2 = None →
  PDFCompressorService._compress_with_advanced_method L i o lvl w = (Val false, w).
Proof.
  intros settings Hi Hadv.
  unfold PDFCompressorService._compress_with_advanced_method. fold settings.
  destruct (fitz_available L) eqn:Hfitz.
  - destruct Hadv as [?|Hras]; [done|].
    erewrite try_except_exc; [reflexivity|].
    erewrite bind_val; [|reflexivity].
    erewrite bind_val; [|by apply read_file_ok].
    rewrite Hras. reflexivity.
  - erewrite try_except_exc; reflexivity.
Qed.

(** Without a result of the PyMuPDF method, [compress_pdf] fails: the
    PyPDF2 method it falls back to stops at [compress_identical_objects]. *)
Lemma compress_pdf_fallback (L : Libs) (uid : string) (file : upload)
    (output_filename lvl : string) (w : world) :
  let tp := compress_temp_path uid file in
  let settings :=
    default (PDFCompressorService.compression_settings !!! "medium")
            (PDFCompressorService.compression_settings !! lvl) in
  filename file ≠ "" →
  PyStr.endswith (PyStr.lower (filename file)) ".pdf" = true →
  can_write w tp →
  fitz_available L = false
  ∨ fitz_rasterize L (stream file) settings.1 settings.2 = None →
  ∃ w',
    PDFCompressorService.compress_pdf L uid file output_filename lvl w
    = (Val (Failure "Failed to compress PDF"), w')
    ∧ fs w' = delete tp (fs w)
    ∧ written w' = written w ++ [(tp, stream file)]
    ∧ threads w' = threads w.
Proof.
  intros tp settings Hname Hpdf Htp Hadv.
  destruct (compress_pdf_run L uid file output_filename lvl w Hname Hpdf Htp)
    as (b & w2 & o & w' & Hc & Hrun & Hfs & Hth & Hwr & Hfail).
  fold tp in Hc, Hfs.
  set (op := compress_output_path uid file output_filename) in *.
  set (w1 := after_write tp (stream file) w) in *.
  assert (PDFCompressorService._compress_pdf_file L tp op lvl w1 = (Val false, w1)) as Hc'.
  { unfold PDFCompressorService._compress_pdf_file. apply try_except_val.
    erewrite bind_val;
      [|apply (compress_advanced_fails L tp op lvl w1 (stream file));
        [apply lookup_insert_eq|exact Hadv]].
    cbv beta iota. by rewrite compress_basic_fails. }
  rewrite Hc' in Hc. injection Hc as <- <-.
  exists w'. rewrite (Hfail eq_refl) in Hrun. split; [exact Hrun|].
  rewrite Hfs, Hth, Hwr. split; [|done].
  unfold w1. simpl. apply map_eq. intros k.
  destruct (decide (k = tp)) as [->|Hk].
  - by rewrite !lookup_delete_eq.
  - by rewrite !lookup_delete_ne, lookup_insert_ne.
Qed.

(** ** Images *)

Lemma remove_temp_files_inv (tfs : list string) (w w' : world) (u : unit) :
  ImageToPDFService.remove_temp_files tfs w = (Val u, w') →
  w' = set_fs (delete_all tfs) w.
Proof.
  revert w. induction tfs as [|p tfs IH]; intros w Hrm.
  - injection Hrm as <-. by destruct w.
  - unfold ImageToPDFService.remove_temp_files in *. simpl in Hrm.
    apply bind_inv in Hrm as ([] & w1 & Hstep & Hrm).
    rewrite (IH _ Hrm). clear IH Hrm.
    apply bind_inv in Hstep as (b & w2 & Hex & Hstep).
    apply path_exists_inv in Hex as (-> & Hfalse & _).
    destruct b.
    + unfold Os.remove in Hstep. repeat case_match; try done.
      injection Hstep as <-. by destruct w.
    + injection Hstep as <-.
      pose proof (Hfalse eq_refl) as Hnone.
      destruct w as [m ? ? ?]. unfold set_fs, delete_all. simpl in *.
      by rewrite delete_id.
Qed.

Lemma draw_images_world (files : list upload) (last_id : option nat) (margin : Z)
    (area : PyFloat.float * PyFloat.float)
    (uid : string) (c : canvas) (tfs : list string) (w w' : world)
    (r : canvas * list string) :
  ImageToPDFService.draw_images files last_id margin area uid c tfs w
    = (Val (Some r), w') →
  w' = foldl (λ w e, after_write e.1 e.2 w) w (image_staged uid files)
  ∧ r.2 = tfs ++ (image_staged uid files).*1.
Proof.
  revert c tfs w. induction files as [|file files IH]; intros c tfs w Hrun.
  { injection Hrun as <- <-. simpl. by rewrite app_nil_r. }
  simpl in Hrun. fold (image_temp_path uid file) in Hrun.
  apply bind_inv in Hrun as ([] & w1 & Hw & Hrun).
  apply write_file_inv in Hw as [-> _].
  apply bind_inv in Hrun as (r1 & w2 & Hbody & Hrun).
  destruct r1 as [c1|]; [|done].
  apply try_except_Some_inv in Hbody.
  apply bind_inv in Hbody as ([iw ih] & w3 & Hopen & Hbody).
  unfold ImageToPDFService.open_image in Hopen.
  apply bind_inv in Hopen as (d0 & w4 & Hread & Hopen).
  apply read_file_inv in Hread as [_ ->].
  apply of_option_inv in Hopen as [_ ->].
  apply bind_inv in Hbody as (d & w5 & Hplace & Hbody).
  apply place_image_pure in Hplace as [-> _].
  injection Hbody as _ <-.
  destruct (IH _ _ _ Hrun) as [-> ->]. simpl. by rewrite <- app_assoc.
Qed.

Lemma open_images_inv (files : list upload) (uid : string) (images : list (Z * Z))
    (tfs : list string) (w w' : world) (r : list (Z * Z) * list string) :
  ImageToPDFService.open_images files uid images tfs w = (Val (Some r), w') →
  ∃ szs,
    Forall2 (λ f sz, image_size (stream f) = Some sz) files szs
    ∧ r.1 = images ++ szs
    ∧ r.2 = tfs ++ (image_staged uid files).*1
    ∧ w' = foldl (λ w e, after_write e.1 e.2 w) w (image_staged uid files).
Proof.
  revert images tfs w. induction files as [|file files IH]; intros images tfs w Hrun.
  { injection Hrun as <- <-. exists []. simpl. by rewrite !app_nil_r. }
  simpl in Hrun. fold (image_temp_path uid file) in Hrun.
  apply bind_inv in Hrun as ([] & w1 & Hw & Hrun).
  apply write_file_inv in Hw as [-> _].
  apply bind_inv in Hrun as (r1 & w2 & Hbody & Hrun).
  destruct r1 as [sz|]; [|done].
  apply try_except_Some_inv in Hbody.
  apply bind_inv in Hbody as (sz' & w3 & Hopen & Hbody).
  injection Hbody as -> <-.
  unfold ImageToPDFService.open_image in Hopen.
  apply bind_inv in Hopen as (d0 & w4 & Hread & Hopen).
  apply read_file_inv in Hread as [Hd0 ->].
  simpl in Hd0. rewrite lookup_insert_eq in Hd0. injection Hd0 as <-.
  apply of_option_inv in Hopen as [Hsz ->].
  destruct (IH _ _ _ Hrun) as (szs & Hszs & -> & -> & ->).
  exists (sz :: szs). split; [by constructor|].
  simpl. by rewrite <- !app_assoc.
Qed.

(** The PIL method: when it succeeds, every upload is an image, the
    result has one page per image, of the size of the image, and the
    staged copies are deleted after the result has been written. *)
Lemma convert_images_simple_inv (L : Libs) (files : list upload)
    (output_path uid : string) (w w' : world) :
  ImageToPDFService._convert_images_simple L files output_path uid w = (Val true, w') →
  ∃ szs,
    Forall2 (λ f sz, image_size (stream f) = Some sz) files szs
    ∧ w' = set_fs (delete_all (image_staged uid files).*1)
             (after_write output_path
                (pdf_file L ((λ sz : Z * Z, ImagePage sz.1 sz.2) <$> szs))
                (foldl (λ w e, after_write e.1 e.2 w) w (image_staged uid files))).
Proof.
  intros Hrun. unfold ImageToPDFService._convert_images_simple in Hrun.
  apply try_except_true_inv in Hrun.
  apply bind_inv in Hrun as (r & w1 & Hopen & Hrun).
  destruct r as [[images tfs]|]; [|done].
  apply open_images_inv in Hopen as (szs & Hszs & Him & Htfs & ->).
  simpl in Him, Htfs. subst images tfs.
  destruct szs as [|sz szs].
  { apply bind_inv in Hrun as (? & ? & _ & Hrun). done. }
  apply bind_inv in Hrun as ([] & w2 & Hw & Hrun).
  apply write_file_inv in Hw as [-> _].
  apply bind_inv in Hrun as ([] & w3 & Hrm & Hrun).
  apply remove_temp_files_inv in Hrm as ->.
  injection Hrun as <-. by exists (sz :: szs).
Qed.

(** The reportlab method: when it succeeds, the staged copies are
    deleted after the result has been written. *)
Lemma convert_images_with_margins_world (L : Libs) (files : list upload)
    (output_path : string) (margin : Z) (uid : string) (w w' : world) :
  ImageToPDFService._convert_images_with_margins L files output_path margin uid w
    = (Val true, w') →
  ∃ d,
    w' = set_fs (delete_all (image_staged uid files).*1)
           (after_write output_path d
              (foldl (λ w e, after_write e.1 e.2 w) w (image_staged uid files))).
Proof.
  intros Hrun.
  unfold ImageToPDFService._convert_images_with_margins in Hrun.
  apply try_except_true_inv in Hrun.
  destruct (reportlab_available L).
  2:{ unfold try_except_only, try_except in Hrun.
      unfold bind at 1 in Hrun. unfold raise at 1 in Hrun. cbn [is_ImportError] in Hrun.
      apply convert_images_simple_inv in Hrun as (szs & _ & ->). by eexists. }
  unfold try_except_only, try_except in Hrun.
  unfold bind at 1 in Hrun. unfold ret at 1 in Hrun.
  unfold bind at 1 in Hrun.
  destruct (ImageToPDFService.available_area margin w) as [[area|e] w0] eqn:Harea.
  2:{ apply available_area_exc in Harea as [_ He]. by rewrite He in Hrun. }
  apply available_area_inv in Harea as (-> & -> & _).
  unfold bind at 1 in Hrun.
  destruct (ImageToPDFService.draw_images _ _ _ _ _ _ _ w) as [[r|e] w1] eqn:Hdraw.
  2:{ by rewrite (draw_images_exc_kind _ _ _ _ _ _ _ _ _ _ Hdraw) in Hrun. }
  destruct r as [[c tfs]|]; [|done].
  apply draw_images_world in Hdraw as [-> Htfs]. simpl in Htfs. subst tfs.
  unfold bind at 1 in Hrun.
  destruct (Os.write_file _ _ _) as [[[]|e] w2] eqn:Hw.
  2:{ by rewrite (write_file_exc_kind _ _ _ _ _ Hw) in Hrun. }
  apply write_file_inv in Hw as [-> _].
  unfold bind at 1 in Hrun.
  destruct (ImageToPDFService.remove_temp_files _ _) as [[[]|e] w3] eqn:Hrm.
  2:{ by rewrite (remove_temp_files_exc_kind _ _ _ _ Hrm) in Hrun. }
  apply remove_temp_files_inv in Hrm as ->.
  injection Hrun as <-. by eexists.
Qed.

(** X10: once the upload has a name ending in [.pdf] and its staged copy
    can be written, [compress_pdf] returns an outcome, whatever the
    compression methods do, and has removed the staged copy by then: only
    the path of the result can differ from the filesystem before the call,
    and no thread is started. *)
Theorem X10_compress_pdf_removes_staged_copy (L : Libs) (uid : string) (file : upload)
    (output_filename lvl : string) (w : world) :
  let tp := compress_temp_path uid file in
  let op := compress_output_path uid file output_filename in
  filename file ≠ "" →
  PyStr.endswith (PyStr.lower (filename file)) ".pdf" = true →
  can_write w tp →
  ∃ o w',
    PDFCompressorService.compress_pdf L uid file output_filename lvl w = (Val o, w')
    ∧ fs w' !! tp = None
    ∧ (∀ k, k ≠ tp → k ≠ op → fs w' !! k = fs w !! k)
    ∧ threads w' = threads w.
Proof.
  intros tp op Hname Hpdf Htp.
  destruct (compress_pdf_run L uid file output_filename lvl w Hname Hpdf Htp)
    as (b & w2 & o & w' & Hc & Hrun & Hfs & Hth & _ & _).
  fold tp op in Hc, Hfs.
  destruct (compress_pdf_file_spec L tp op lvl (after_write tp (stream file) w))
    as (b' & w2' & Hc' & Hfalse & Htrue).
  rewrite Hc in Hc'. injection Hc' as <- <-.
  exists o, w'. split; [exact Hrun|]. rewrite Hfs, Hth.
  split; [apply lookup_delete_eq|].
  destruct b.
  - destruct (Htrue eq_refl) as (d' & -> & _). split; [|done].
    intros k Hk1 Hk2. simpl. by rewrite lookup_delete_ne, !lookup_insert_ne.
  - rewrite (Hfalse eq_refl). split; [|done].
    intros k Hk1 Hk2. simpl. by rewrite lookup_delete_ne, lookup_insert_ne.
Qed.

Lemma X10_compress_pdf_removes_staged_copy_witness :
  ∃ o w',
    PDFCompressorService.compress_pdf Demo.libs "u1" Demo.a_pdf "" "high" Demo.w0 = (Val o, w')
    ∧ fs w' !! "uploads/temp_u1_a.pdf" = None
    ∧ fs w' !! "uploads" = Some Dir.
Proof.
  destruct (X10_compress_pdf_removes_staged_copy Demo.libs "u1" Demo.a_pdf "" "high" Demo.w0)
    as (o & w' & Hrun & Htp & Hother & _).
  - done.
  - vm_compute. reflexivity.
  - apply demo_can_write_empty_faults;
      [reflexivity|vm_compute; discriminate|vm_compute; reflexivity].
  - exists o, w'. split; [exact Hrun|]. split; [exact Htp|].
    rewrite Hother; [vm_compute; reflexivity|vm_compute; discriminate..].
Defined.

(** X11: when the PyMuPDF method is not available or cannot rasterise the
    upload, [compress_pdf] fails.  The PyPDF2 method it falls back to calls
    [writer.compress_identical_objects()], which [PyPDF2.PdfWriter] does not
    have, so the fallback never writes a result and answers [False] in
    every state; [compress_pdf] then answers 'Failed to compress PDF', and
    apart from the staged copy, which it wrote and removed, it has changed
    nothing and started no thread. *)
Theorem X11_compress_pdf_fallback_fails (L : Libs) (uid : string) (file : upload)
    (output_filename lvl : string) (w : world) :
  let tp := compress_temp_path uid file in
  let settings :=
    default (PDFCompressorService.compression_settings !!! "medium")
            (PDFCompressorService.compression_settings !! lvl) in
  filename file ≠ "" →
  PyStr.endswith (PyStr.lower (filename file)) ".pdf" = true →
  can_write w tp →
  fitz_available L = false
  ∨ fitz_rasterize L (stream file) settings.1 settings.2 = None →
  (∀ i o w0, PDFCompressorService._compress_with_basic_method L i o w0 = (Val false, w0))
  ∧ ∃ w',
      PDFCompressorService.compress_pdf L uid file output_filename lvl w
      = (Val (Failure "Failed to compress PDF"), w')
      ∧ fs w' = delete tp (fs w)
      ∧ written w' = written w ++ [(tp, stream file)]
      ∧ threads w' = threads w.
Proof.
  intros tp settings Hname Hpdf Htp Hadv. split.
  - intros i o w0. apply compress_basic_fails.
  - by apply compress_pdf_fallback.
Qed.

Lemma X11_compress_pdf_fallback_fails_witness :
  ∃ w',
    PDFCompressorService.compress_pdf Demo.bare_libs "u1" Demo.a_pdf "" "high" Demo.w0
    = (Val (Failure "Failed to compress PDF"), w')
    ∧ fs w' = fs Demo.w0
    ∧ written w' = [("uploads/temp_u1_a.pdf", stream Demo.a_pdf)].
Proof.
  destruct (X11_compress_pdf_fallback_fails Demo.bare_libs "u1" Demo.a_pdf "" "high" Demo.w0)
    as (_ & w' & Hrun & Hfs & Hwr & _).
  - done.
  - vm_compute. reflexivity.
  - apply demo_can_write_empty_faults;
      [reflexivity|vm_compute; discriminate|vm_compute; reflexivity].
  - left. reflexivity.
  - exists w'. split; [exact Hrun|]. split; [|exact Hwr].
    rewrite Hfs. apply delete_id. vm_compute. reflexivity.
Defined.

(** X12: when [convert_images_to_pdf] reports success, no staged copy of
    an accepted image is left: every [temp_<id>_<name>] file it wrote has
    been deleted, the result is in place (unless its path is that of a
    staged copy), no other path has changed and no thread was started. *)
Theorem X12_convert_images_removes_staged_copies (L : Libs) (uid : string)
    (files : list upload) (output_filename margin_size : string) (w w' : world)
    (r : image_result) :
  let valid :=
    filter (λ f, truthy (filename f) && ImageToPDFService.is_allowed_file (filename f) = true)
           files in
  ImageToPDFService.convert_images_to_pdf L uid files output_filename margin_size w
    = (Val (Success r), w') →
  (∀ f, f ∈ valid → fs w' !! image_temp_path uid f = None)
  ∧ (i_file_path r ∉ (image_temp_path uid <$> valid) → ∃ d, fs w' !! i_file_path r = Some (File d))
  ∧ (∀ k, k ≠ i_file_path r → k ∉ (image_temp_path uid <$> valid) → fs w' !! k = fs w !! k)
  ∧ threads w' = threads w.
Proof.
  intros valid H. unfold ImageToPDFService.convert_images_to_pdf in H.
  apply (try_except_success_inv _ (λ e, "Conversion failed: " +:+ exn_str e)) in H.
  destruct files as [|f0 files0]; [done|].
  fold valid in H. destruct valid as [|v valid_files] eqn:Hvalid; [done|].
  rewrite <- Hvalid in *. clear Hvalid.
  apply bind_inv in H as (margin & w1 & Hm & H).
  apply of_option_inv in Hm as [_ ->].
  apply bind_inv in H as (success & w2 & Hconv & H).
  destruct success; [|done]. cbv beta iota zeta delta [negb ret] in H.
  match type of H with
  | (Val (Success ?x), _) = _ => remember x as r' eqn:Hr'
  end.
  injection H as <- <-. rewrite Hr'. cbn [i_file_path]. clear Hr'.
  match type of Hconv with
  | ImageToPDFService._convert_images_with_margins _ _ ?o _ _ _ = _ => set (out := o) in *
  end.
  apply convert_images_with_margins_world in Hconv as (d & ->).
  assert ((image_staged uid valid).*1 = image_temp_path uid <$> valid) as Hst.
  { unfold image_staged. rewrite <- list_fmap_compose. done. }
  cbn [fs threads set_fs after_write]. rewrite after_write_fold_fs, after_write_fold_threads, Hst.
  split; [|split; [|split; [|done]]].
  - intros f Hf. rewrite delete_all_lookup, decide_True; [done|].
    apply list_elem_of_fmap. by exists f.
  - intros Hout. exists d. rewrite delete_all_lookup, decide_False by done.
    apply lookup_insert_eq.
  - intros k Hk1 Hk2. rewrite delete_all_lookup, decide_False by done.
    rewrite lookup_insert_ne by done. apply apply_writes_lookup_other. by rewrite Hst.
Qed.

Lemma X12_convert_images_removes_staged_copies_witness :
  ∃ r w',
    ImageToPDFService.convert_images_to_pdf Demo.libs "u1"
      [Demo.tall_png; Demo.big_txt; Demo.wide_jpg] "" "none" Demo.w0
    = (Val (Success r), w')
    ∧ fs w' !! "uploads/temp_u1_tall.png" = None
    ∧ fs w' !! "uploads/temp_u1_wide.jpg" = None.
Proof.
  assert (∃ r w', ImageToPDFService.convert_images_to_pdf Demo.libs "u1"
                    [Demo.tall_png; Demo.big_txt; Demo.wide_jpg] "" "none" Demo.w0
                  = (Val (Success r), w')) as (r & w' & Hrun)
    by (eexists _, _; vm_compute; reflexivity).
  destruct (X12_convert_images_removes_staged_copies Demo.libs "u1"
              [Demo.tall_png; Demo.big_txt; Demo.wide_jpg] "" "none" Demo.w0 w' r Hrun)
    as (Htemp & _).
  exists r, w'. split; [exact Hrun|]. split.
  - apply (Htemp Demo.tall_png). apply list_elem_of_filter. split; [vm_compute; reflexivity|].
    by left.
  - apply (Htemp Demo.wide_jpg). apply list_elem_of_filter. split; [vm_compute; reflexivity|].
    right. right. by left.
Defined.

(** X13: without reportlab the image service falls back to PIL and the
    margin is ignored: when the conversion succeeds, every upload was an
    image, it was staged, and the result holds one page per image, in the
    order of the uploads and of the pixel size of the image, whatever the
    margin. *)
Theorem X13_convert_images_fallback_ignores_margin (L : Libs) (files : list upload)
    (output_path : string) (margin : Z) (uid : string) (w w' : world) :
  reportlab_available L = false →
  ImageToPDFService._convert_images_with_margins L files output_path margin uid w
    = (Val true, w') →
  ∃ szs,
    Forall2 (λ f sz, image_size (stream f) = Some sz) files szs
    ∧ written w'
      = written w ++ ((λ f, (image_temp_path uid f, stream f)) <$> files)
        ++ [(output_path, pdf_file L ((λ sz : Z * Z, ImagePage sz.1 sz.2) <$> szs))].
Proof.
  intros Hrl Hrun.
  unfold ImageToPDFService._convert_images_with_margins in Hrun.
  apply try_except_true_inv in Hrun. rewrite Hrl in Hrun.
  unfold try_except_only, try_except in Hrun.
  unfold bind at 1 in Hrun. unfold raise at 1 in Hrun. cbn [is_ImportError] in Hrun.
  apply convert_images_simple_inv in Hrun as (szs & Hszs & ->).
  exists szs. split; [done|].
  cbn [written set_fs after_write]. rewrite after_write_fold_written.
  by rewrite <- app_assoc.
Qed.

Lemma X13_convert_images_fallback_ignores_margin_witness :
  ∃ w',
    ImageToPDFService._convert_images_with_margins Demo.bare_libs [Demo.tall_png; Demo.wide_jpg]
      "uploads/u1_out.pdf" 72 "u1" Demo.w0
    = (Val true, w')
    ∧ written w'
      = [("uploads/temp_u1_tall.png", stream Demo.tall_png);
         ("uploads/temp_u1_wide.jpg", stream Demo.wide_jpg);
         ("uploads/u1_out.pdf", pdf_file Demo.bare_libs [ImagePage 100 200; ImagePage 300 200])].
Proof.
  assert (∃ w', ImageToPDFService._convert_images_with_margins Demo.bare_libs
                  [Demo.tall_png; Demo.wide_jpg] "uploads/u1_out.pdf" 72 "u1" Demo.w0
                = (Val true, w')) as [w' Hrun]
    by (eexists; vm_compute; reflexivity).
  destruct (X13_convert_images_fallback_ignores_margin Demo.bare_libs [Demo.tall_png; Demo.wide_jpg]
              "uploads/u1_out.pdf" 72 "u1" Demo.w0 w' eq_refl Hrun)
    as (szs & Hszs & Hlog).
  exists w'. split; [exact Hrun|]. rewrite Hlog.
  apply Forall2_cons_inv_l in Hszs as (sz1 & szs1 & Hsz1 & Hszs & ->).
  apply Forall2_cons_inv_l in Hszs as (sz2 & szs2 & Hsz2 & Hszs & ->).
  apply Forall2_nil_inv_l in Hszs as ->.
  injection Hsz1 as <-. injection Hsz2 as <-. reflexivity.
Defined.

(** ** Unknown options: the run with the medium setting *)

Lemma endswith_sep_allowed (pre sec : PyStr.chars) :
  Forall (λ c, Werkzeug.filename_char c = true) sec →
  PyStr.endswith_chars [OsPath.sep] (pre ++ "_"%char :: sec) = false.
Proof.
  intros Hsec. unfold PyStr.endswith_chars, PyStr.startswith_chars.
  destruct sec as [|c l _] using rev_ind.
  - rewrite reverse_snoc. by vm_compute.
  - apply Forall_app in Hsec as [_ Hc]. apply Forall_inv in Hc.
    apply filename_char_not_sep in Hc.
    rewrite app_comm_cons, app_assoc, reverse_snoc. simpl.
    rewrite decide_False by (intros H; by apply Hc).
    apply bool_decide_eq_false_2. by intros [? ?].
Qed.

(** A staged copy of the image service is not spelled like a directory. *)
Lemma image_temp_path_plain (uid : string) (file : upload) :
  PyStr.endswith (image_temp_path uid file) "/" = false.
Proof.
  unfold PyStr.endswith, image_temp_path, OsPath.join, Werkzeug.secure_filename.
  rewrite to_of_chars, !to_chars_app, to_of_chars.
  change (PyStr.to_chars ImageToPDFService.upload_folder) with (PyStr.to_chars "uploads").
  change (PyStr.to_chars "/") with [OsPath.sep].
  set (sec := Werkzeug.secure_chars _).
  assert (OsPath.join_chars (PyStr.to_chars "uploads")
            (PyStr.to_chars "temp_" ++ PyStr.to_chars uid ++ PyStr.to_chars "_" ++ sec)
          = (PyStr.to_chars "uploads/temp_" ++ PyStr.to_chars uid) ++ "_"%char :: sec) as ->.
  { unfold OsPath.join_chars. by simpl. }
  apply endswith_sep_allowed, secure_chars_allowed.
Qed.

Lemma can_write_after_writes (l : list (string * file_data)) (w : world) (q : string) :
  (∀ e, e ∈ l → can_write w e.1) → can_write w q →
  can_write (foldl (λ w e, after_write e.1 e.2 w) w l) q.
Proof.
  revert w. induction l as [|e l IH]; intros w Hl Hq; [done|].
  simpl. apply IH.
  - intros e' He'. apply can_write_after_write; apply Hl; [by left|by right].
  - apply can_write_after_write; [apply Hl; by left|done].
Qed.

Lemma delete_all_cons (p : string) (tfs : list string) (w : world) :
  set_fs (delete_all tfs) (set_fs (delete p) w) = set_fs (delete_all (p :: tfs)) w.
Proof. by destruct w. Qed.

(** Removing staged copies that the OS lets go: all of them are deleted,
    those that are listed twice or are gone already included. *)
Lemma remove_temp_files_ok (tfs : list string) (w : world) :
  (∀ p, p ∈ tfs → (p ∉ faults w) ∧ fs w !! p ≠ Some Dir
                  ∧ PyStr.endswith p "/" = false) →
  ImageToPDFService.remove_temp_files tfs w = (Val tt, set_fs (delete_all tfs) w).
Proof.
  revert w. induction tfs as [|p tfs IH]; intros w Hok.
  { unfold ImageToPDFService.remove_temp_files. simpl. unfold ret. by destruct w. }
  destruct (Hok p) as (Hf & Hd & Hplain); [by left|].
  unfold ImageToPDFService.remove_temp_files in *. cbn [for_each].
  unfold bind at 1. unfold bind at 1. rewrite (path_exists_plain p w Hplain).
  destruct (fs w !! p) as [[d|]|] eqn:Hp; [| done |].
  - rewrite bool_decide_eq_true_2 by by eexists.
    rewrite (remove_ok p w d Hf Hp).
    rewrite IH; [by rewrite delete_all_cons|].
    intros q Hq. destruct (Hok q) as (Hqf & Hqd & Hqp); [by right|].
    split; [done|]. split; [|done]. simpl.
    destruct (decide (q = p)) as [->|Hne]; [by rewrite lookup_delete_eq|].
    by rewrite lookup_delete_ne.
  - rewrite bool_decide_eq_false_2 by (by intros [? ?]). unfold ret at 1.
    rewrite IH; [|intros q Hq; apply Hok; by right].
    f_equal. destruct w as [m ? ? ?]. unfold set_fs, delete_all. simpl in *.
    by rewrite delete_id.
Qed.

Lemma apply_writes_not_dir (m : gmap string node) (l : list (string * file_data))
    (p : string) :
  m !! p ≠ Some Dir → apply_writes m l !! p ≠ Some Dir.
Proof.
  revert m. induction l as [|[q d] l IH]; intros m Hp; [done|].
  unfold apply_writes in *. simpl. apply IH.
  destruct (decide (q = p)) as [->|Hne]; [by rewrite lookup_insert_eq|].
  by rewrite lookup_insert_ne.
Qed.

(** The drawing loop succeeds on readable images that can be placed and
    staged. *)
Lemma draw_images_ok (files : list upload) (last_id : option nat) (margin : Z)
    (area : PyFloat.float * PyFloat.float) (uid : string) (c : canvas)
    (tfs : list string) (w : world) :
  (∀ f, f ∈ files → ∃ d, placed_in margin area f d) →
  (∀ f, f ∈ files → can_write w (image_temp_path uid f)) →
  ∃ c',
    ImageToPDFService.draw_images files last_id margin area uid c tfs w
    = (Val (Some (c', tfs ++ (image_staged uid files).*1)),
       foldl (λ w e, after_write e.1 e.2 w) w (image_staged uid files)).
Proof.
  revert c tfs w. induction files as [|file files IH]; intros c tfs w Hpl Hcw.
  { exists c. simpl. by rewrite app_nil_r. }
  destruct (Hpl file) as (d & iw & ih & Hsz & Hplace); [by left|].
  set (w1 := after_write (image_temp_path uid file) (stream file) w).
  destruct (IH (if bool_decide (Some (obj_id file) ≠ last_id)
                then ImageToPDFService.showPage (ImageToPDFService.drawImage c d)
                else ImageToPDFService.drawImage c d)
               (tfs ++ [image_temp_path uid file]) w1) as (c' & Hrest).
  { intros f Hf. apply Hpl. by right. }
  { intros f Hf. apply can_write_after_write; apply Hcw; [by left|by right]. }
  exists c'. cbn [ImageToPDFService.draw_images]. fold (image_temp_path uid file).
  erewrite bind_val; [|apply write_file_ok, Hcw; by left].
  fold w1.
  erewrite bind_val; last first.
  { apply try_except_val.
    erewrite bind_val; last first.
    { unfold ImageToPDFService.open_image.
      erewrite bind_val; [|apply (read_file_ok _ w1 (stream file)), lookup_insert_eq].
      rewrite Hsz. reflexivity. }
    cbn [fst snd]. erewrite bind_val; [|apply Hplace]. reflexivity. }
  cbv beta iota. rewrite Hrest. cbn [image_staged fmap list_fmap foldl].
  by rewrite <- app_assoc.
Qed.

(** The reportlab method succeeds when every upload is a readable image
    that can be placed, the staged copies and the result can be written and
    twice the margin has a float. *)
Lemma convert_images_with_margins_ok (L : Libs) (files : list upload)
    (output_path : string) (margin : Z) (uid : string) (w : world) :
  reportlab_available L = true →
  convertible (2 * margin) →
  (∀ f, f ∈ files → ∃ d, placed margin f d) →
  (∀ f, f ∈ files → can_write w (image_temp_path uid f)) →
  can_write w output_path →
  ∃ ds w',
    ImageToPDFService._convert_images_with_margins L files output_path margin uid w
    = (Val true, w')
    ∧ Forall2 (placed margin) files ds
    ∧ written w'
      = written w ++ image_staged uid files
        ++ [(output_path, canvas_document L files ds)]
    ∧ threads w' = threads w.
Proof.
  intros Hrl Hconv Hpl Hcw Hout.
  destruct (draw_images_ok files (obj_id <$> last files) margin (available margin) uid
              (Canvas [] []) [] w Hpl Hcw) as (c' & Hdraw).
  destruct (draw_images_inv _ _ _ _ _ _ _ _ _ _ _ Hdraw) as (ds & Hds & Hc' & _ & _).
  set (staged := image_staged uid files) in *.
  set (w1 := foldl (λ w e, after_write e.1 e.2 w) w staged) in *.
  assert (can_write w1 output_path) as Hout1.
  { apply can_write_after_writes; [|done]. intros e He.
    apply list_elem_of_fmap in He as (f & -> & Hf). by apply Hcw. }
  set (doc := pdf_file L (CanvasPage <$> ImageToPDFService.saved_pages c')).
  set (w2 := after_write output_path doc w1).
  assert (ImageToPDFService.remove_temp_files ([] ++ staged.*1) w2
          = (Val tt, set_fs (delete_all ([] ++ staged.*1)) w2)) as Hrm.
  { apply remove_temp_files_ok. intros p Hp. cbn [app] in Hp.
    apply list_elem_of_fmap in Hp as ([p' d] & -> & He).
    apply list_elem_of_fmap in He as (f & [= -> ->] & Hf). cbn [fst].
    destruct (Hcw f Hf) as (Hfa & Hnd & _).
    split; [|split; [|apply image_temp_path_plain]].
    - unfold w2, w1. cbn [faults after_write]. by rewrite after_write_fold_faults.
    - unfold w2, w1. cbn [fs after_write]. rewrite after_write_fold_fs.
      destruct (decide (output_path = image_temp_path uid f)) as [->|Hne].
      + by rewrite lookup_insert_eq.
      + rewrite lookup_insert_ne by done. by apply apply_writes_not_dir. }
  exists ds. eexists. split; [|split; [done|split]].
  - unfold ImageToPDFService._convert_images_with_margins.
    apply try_except_val. unfold try_except_only. apply try_except_val.
    rewrite Hrl. erewrite bind_val; [|reflexivity].
    erewrite bind_val; [|by apply available_area_ok].
    erewrite bind_val; [|exact Hdraw]. cbv beta iota.
    erewrite bind_val; [|by apply write_file_ok].
    fold doc. fold w2. erewrite bind_val; [|exact Hrm]. reflexivity.
  - cbn [written set_fs]. unfold w2. cbn [written after_write].
    unfold w1. rewrite after_write_fold_written.
    unfold doc, canvas_document. rewrite Hc'. by rewrite <- app_assoc.
  - cbn [threads set_fs]. unfold w2. cbn [threads after_write].
    unfold w1. by rewrite after_write_fold_threads.
Qed.

Lemma placed_medium (f : upload) (iw ih : Z) :
  image_size (stream f) = Some (iw, ih) →
  iw ≠ 0 → ih ≠ 0 → convertible iw → convertible ih →
  ∃ d, placed 72 f d.
Proof.
  intros Hsz Hiw Hih Hfw Hfh. eexists. exists iw, ih. split; [done|].
  intros w0. by apply place_image_margin.
Qed.

(** [convert_images_to_pdf] with the medium margin succeeds on readable
    images of a size that is not zero, when the staged copies and the
    result can be written. *)
Lemma convert_images_to_pdf_medium_ok (L : Libs) (uid : string) (files : list upload)
    (output_filename : string) (w : world) :
  let valid := valid_images files in
  let out := image_output_path uid output_filename in
  valid ≠ [] →
  reportlab_available L = true →
  (∀ f, f ∈ valid →
     ∃ iw ih, image_size (stream f) = Some (iw, ih)
              ∧ iw ≠ 0 ∧ ih ≠ 0 ∧ convertible iw ∧ convertible ih) →
  (∀ f, f ∈ valid → can_write w (image_temp_path uid f)) →
  can_write w out →
  ∃ r w' ds,
    ImageToPDFService.convert_images_to_pdf L uid files output_filename "medium" w
    = (Val (Success r), w')
    ∧ i_file_path r = out
    ∧ Forall2 (placed 72) valid ds
    ∧ written w' = written w ++ image_staged uid valid ++ [(out, canvas_document L valid ds)]
    ∧ threads w' = threads w.
Proof.
  intros valid out Hne Hrl Himg Hcw Hout.
  destruct (convert_images_with_margins_ok L valid out 72 uid w)
    as (ds & w' & Hrun & Hds & Hwr & Hth); try done.
  { intros f Hf. destruct (Himg f Hf) as (iw & ih & Hsz & ? & ? & ? & ?).
    by eapply placed_medium. }
  eexists _, w', ds. split; [|split; [|done]].
  - unfold ImageToPDFService.convert_images_to_pdf. apply try_except_val.
    destruct files as [|f0 files0]; [done|].
    fold (valid_images (f0 :: files0)). fold valid.
    destruct valid as [|v valid'] eqn:Hv; [done|]. rewrite <- Hv in *.
    replace (bool_decide (is_Some (ImageToPDFService.MARGIN_SETTINGS !! "medium")))
      with true by reflexivity.
    replace (ImageToPDFService.MARGIN_SETTINGS !! "medium") with (Some 72) by reflexivity.
    erewrite bind_val; [|reflexivity].
    fold (image_output_name uid output_filename).
    fold (image_output_path uid output_filename). fold out.
    erewrite bind_val; [|exact Hrun]. reflexivity.
  - reflexivity.
Qed.

(** C9: a margin name outside none/small/medium/large and a compression
    level outside low/medium/high do not make the operation fail: the
    image service then runs exactly as with 'medium' (same outcome, same
    state), and on readable images of a size that is not zero, with
    reportlab and paths it can write, it succeeds and the document it
    writes holds the drawings of the 72-point margin; the compressor runs
    exactly as with 'medium', and on an upload that PyMuPDF rasterises at
    quality 75 and 120 dpi it succeeds and reports the size of that
    rasterisation. *)
Theorem C9_unknown_option_defaults_to_medium
    (L : Libs) (uid : string) (files : list upload) (file : upload)
    (output_filename margin_size compression_level : string) (w : world) :
  margin_size ∉ ["none"; "small"; "medium"; "large"] →
  compression_level ∉ ["low"; "medium"; "high"] →
  ImageToPDFService.convert_images_to_pdf L uid files output_filename margin_size w
    = ImageToPDFService.convert_images_to_pdf L uid files output_filename "medium" w
  ∧ PDFCompressorService.compress_pdf L uid file output_filename compression_level w
    = PDFCompressorService.compress_pdf L uid file output_filename "medium" w
  ∧ (valid_images files ≠ [] →
     reportlab_available L = true →
     (∀ f, f ∈ valid_images files →
        ∃ iw ih, image_size (stream f) = Some (iw, ih)
                 ∧ iw ≠ 0 ∧ ih ≠ 0 ∧ convertible iw ∧ convertible ih) →
     (∀ f, f ∈ valid_images files → can_write w (image_temp_path uid f)) →
     can_write w (image_output_path uid output_filename) →
     ∃ r w' ds,
       ImageToPDFService.convert_images_to_pdf L uid files output_filename margin_size w
       = (Val (Success r), w')
       ∧ i_file_path r = image_output_path uid output_filename
       ∧ Forall2 (placed 72) (valid_images files) ds
       ∧ written w'
         = written w ++ image_staged uid (valid_images files)
           ++ [(image_output_path uid output_filename,
                canvas_document L (valid_images files) ds)])
  ∧ (∀ d',
       filename file ≠ "" →
       PyStr.endswith (PyStr.lower (filename file)) ".pdf" = true →
       can_write w (compress_temp_path uid file) →
       can_write w (compress_output_path uid file output_filename) →
       compress_temp_path uid file ≠ compress_output_path uid file output_filename →
       nbytes (stream file) ≠ 0%N →
       fitz_available L = true →
       fitz_rasterize L (stream file) 75 120 = Some d' →
       ∃ r w',
         PDFCompressorService.compress_pdf L uid file output_filename compression_level w
         = (Val (Success r), w')
         ∧ original_size r = Z.of_N (nbytes (stream file))
         ∧ compressed_size r = Z.of_N (nbytes d')).
Proof.
  intros Hm Hc.
  assert (ImageToPDFService.convert_images_to_pdf L uid files output_filename margin_size w
          = ImageToPDFService.convert_images_to_pdf L uid files output_filename "medium" w)
    as Himg.
  { unfold ImageToPDFService.convert_images_to_pdf.
    rewrite (margin_settings_unknown margin_size Hm).
    rewrite (bool_decide_eq_false_2 (is_Some None)) by (by intros [? ?]).
    replace (bool_decide (is_Some (ImageToPDFService.MARGIN_SETTINGS !! "medium")))
      with true by reflexivity.
    done. }
  split; [exact Himg|]. split; [|split].
  - unfold PDFCompressorService.compress_pdf, PDFCompressorService._compress_pdf_file.
    by rewrite (compress_advanced_unknown_level L _ _ compression_level Hc).
  - intros Hne Hrl Hsz Hcw Hout. rewrite Himg.
    destruct (convert_images_to_pdf_medium_ok L uid files output_filename w
                Hne Hrl Hsz Hcw Hout) as (r & w' & ds & Hrun & Hpath & Hds & Hwr & _).
    by exists r, w', ds.
  - intros d' Hname Hpdf Htp Hop Hne Hnz Hfitz Hras.
    apply compress_pdf_succeeds; try done.
    by rewrite (compression_settings_unknown compression_level Hc).
Qed.

Lemma C9_unknown_option_defaults_to_medium_witness :
  (∃ r w',
     ImageToPDFService.convert_images_to_pdf Demo.libs "0f1e2d3c-j1"
       [Demo.tall_png; Demo.wide_jpg] "" "huge" Demo.w0 = (Val (Success r), w')
     ∧ i_file_path r = "uploads/0f1e2d3c-j1_images-to-pdf-0f1e2d3c.pdf")
  ∧ (∃ r w',
       PDFCompressorService.compress_pdf Demo.libs "0f1e2d3c-j1" Demo.a_pdf "" "maximum" Demo.w0
       = (Val (Success r), w')
       ∧ original_size r = 1000 ∧ compressed_size r = 501).
Proof.
  destruct (C9_unknown_option_defaults_to_medium Demo.libs "0f1e2d3c-j1"
              [Demo.tall_png; Demo.wide_jpg] Demo.a_pdf "" "huge" "maximum" Demo.w0)
    as (_ & _ & Himg & Hpdf).
  - vm_compute. intros H. repeat (inversion H as [|??? H']; clear H; rename H' into H).
  - vm_compute. intros H. repeat (inversion H as [|??? H']; clear H; rename H' into H).
  - split.
    + destruct Himg as (r & w' & ds & Hrun & Hpath & _).
      * vm_compute. discriminate.
      * reflexivity.
      * intros f Hf.
        assert (f = Demo.tall_png ∨ f = Demo.wide_jpg) as [->| ->].
        { vm_compute in Hf.
          repeat (apply elem_of_cons in Hf as [Hf|Hf]; [by auto|]).
          by apply not_elem_of_nil in Hf. }
        -- exists 100, 200. repeat split; done.
        -- exists 300, 200. repeat split; done.
      * intros f Hf.
        assert (f = Demo.tall_png ∨ f = Demo.wide_jpg) as [->| ->].
        { vm_compute in Hf.
          repeat (apply elem_of_cons in Hf as [Hf|Hf]; [by auto|]).
          by apply not_elem_of_nil in Hf. }
        -- apply demo_can_write_empty_faults;
             [reflexivity|vm_compute; discriminate|vm_compute; reflexivity].
        -- apply demo_can_write_empty_faults;
             [reflexivity|vm_compute; discriminate|vm_compute; reflexivity].
      * apply demo_can_write_empty_faults;
          [reflexivity|vm_compute; discriminate|vm_compute; reflexivity].
      * exists r, w'. split; [exact Hrun|]. rewrite Hpath. vm_compute. reflexivity.
    + destruct (Hpdf (FileData 501 (Some [SourcePage 1; SourcePage 2; SourcePage 3]) None))
        as (r & w' & Hrun & Ho & Hc).
      * vm_compute. discriminate.
      * vm_compute. reflexivity.
      * apply demo_can_write_empty_faults;
          [reflexivity|vm_compute; discriminate|vm_compute; reflexivity].
      * apply demo_can_write_empty_faults;
          [reflexivity|vm_compute; discriminate|vm_compute; reflexivity].
      * vm_compute. discriminate.
      * vm_compute. discriminate.
      * reflexivity.
      * vm_compute. reflexivity.
      * exists r, w'. split; [exact Hrun|]. split; [exact Ho|exact Hc].
Defined.
